(** * ATOM mock generator: validation, transformation and deployment

    A shallow embedding of the server services
    ([ConfigValidationService], [MappingService], [WiremockAdminService]),
    of the actions of [ConfigController] that validate, generate, deploy,
    list and reset, and of the client ([SimpleValidator],
    [ValidationService], the helpers of the mapping list and of the upload
    component), with the properties of the design specification and
    further properties of the code stated over them. *)

From Stdlib Require Import ZArith QArith Ascii String DecimalString Bool Lia.
From Stdlib Require DecimalNat.
From stdpp Require Import base option list strings gmap.

Set Warnings "-register-all".
Local Open Scope string_scope.
Local Open Scope Z_scope.
Local Open Scope list_scope.

(** ** .NET strings

    A [string] is read as a sequence of UTF-16 code units below 256; a
    nullable [string?] is an [option string]. *)
Module Str.

(** [char.IsWhiteSpace] on the Latin-1 range: U+0009..U+000D, U+0020,
    U+0085 and U+00A0. *)
Definition IsWhiteSpace (c : ascii) : bool :=
  let n := nat_of_ascii c in
  ((9 <=? n)%nat && (n <=? 13)%nat) || (n =? 32)%nat || (n =? 133)%nat || (n =? 160)%nat.

Fixpoint all_white (s : string) : bool :=
  match s with
  | EmptyString => true
  | String c s' => IsWhiteSpace c && all_white s'
  end.

(** [string.IsNullOrWhiteSpace]. *)
Definition IsNullOrWhiteSpace (s : option string) : bool :=
  match s with
  | None => true
  | Some v => all_white v
  end.

(** [string.IsNullOrEmpty]. *)
Definition IsNullOrEmpty (s : option string) : bool :=
  match s with
  | None => true
  | Some v => if decide (v = "") then true else false
  end.

Definition upper_char (c : ascii) : ascii :=
  let n := nat_of_ascii c in
  if ((97 <=? n)%nat && (n <=? 122)%nat) then ascii_of_nat (n - 32) else c.

Definition lower_char (c : ascii) : ascii :=
  let n := nat_of_ascii c in
  if ((65 <=? n)%nat && (n <=? 90)%nat) then ascii_of_nat (n + 32) else c.

Fixpoint map_chars (f : ascii -> ascii) (s : string) : string :=
  match s with
  | EmptyString => EmptyString
  | String c s' => String (f c) (map_chars f s')
  end.

(** [ToUpper] and [ToLower]: the ASCII letters change case, every other
    code unit is left as it is (its other case is no ASCII letter
    either, so comparisons with an ASCII literal are not affected). *)
Definition ToUpper : string -> string := map_chars upper_char.
Definition ToLower : string -> string := map_chars lower_char.

(** [s.Replace(oldValue, newValue)] for a non-empty [oldValue]: every
    occurrence, scanning left to right, occurrences not overlapping.
    [skip] counts the characters of a matched occurrence still to drop. *)
Fixpoint replace_from (oldValue newValue : string) (skip : nat) (s : string) : string :=
  match s with
  | EmptyString => EmptyString
  | String c s' =>
      match skip with
      | S k => replace_from oldValue newValue k s'
      | O =>
          if String.prefix oldValue s
          then newValue +:+ replace_from oldValue newValue (Nat.pred (String.length oldValue)) s'
          else String c (replace_from oldValue newValue O s')
      end
  end.

Definition Replace (s oldValue newValue : string) : string :=
  replace_from oldValue newValue O s.

(** [string.Join(separator, values)]. *)
Fixpoint Join (sep : string) (l : list string) : string :=
  match l with
  | [] => ""
  | [x] => x
  | x :: rest => x +:+ sep +:+ Join sep rest
  end.

(** Decimal rendering of an [int] inside an interpolated string. *)
Definition of_Z (z : Z) : string := NilZero.string_of_int (Z.to_int z).
Definition of_nat (n : nat) : string := NilZero.string_of_uint (Nat.to_uint n).

Definition eqb (a b : string) : bool := if decide (a = b) then true else false.

(** Whether the character occurs in the string. *)
Fixpoint occurs (c : ascii) (s : string) : bool :=
  match s with
  | EmptyString => false
  | String a s' => Ascii.eqb c a || occurs c s'
  end.

(** [s.TrimEnd(c)]. *)
Fixpoint TrimEnd (c : ascii) (s : string) : string :=
  match s with
  | EmptyString => EmptyString
  | String a s' =>
      match TrimEnd c s' with
      | EmptyString => if decide (a = c) then EmptyString else String a EmptyString
      | t => String a t
      end
  end.

(** A nullable string inside an interpolated string: [null] prints as
    nothing. *)
Definition interp (s : option string) : string := default "" s.

End Str.

(** ** Exceptions

    Code that can throw returns a [result]; [try_catch] is a [try] block
    with a handler for every exception. *)
Inductive ExClass :=
  | JsonException
  | InvalidOperationException
  | NullReferenceException
  | HttpRequestException
  | NotSupportedException
  | UriFormatException
  | FormatException
  | TypeError.

Record Exception := { ExType : ExClass; Message : string }.

Inductive result (A : Type) :=
  | Ok (a : A)
  | Throw (ex : Exception).
Arguments Ok {A} a.
Arguments Throw {A} ex.

#[global] Instance result_ret : MRet result := fun A a => Ok a.
#[global] Instance result_bind : MBind result :=
  fun A B f m => match m with Ok a => f a | Throw ex => Throw ex end.

Definition try_catch {A} (body : result A) (handler : Exception -> result A) : result A :=
  match body with
  | Ok a => Ok a
  | Throw ex => handler ex
  end.

Definition NullReference : Exception :=
  {| ExType := NullReferenceException;
     Message := "Object reference not set to an instance of an object." |}.

(** Member access through a reference that may be null. *)
Definition deref {A} (o : option A) : result A :=
  match o with
  | Some a => Ok a
  | None => Throw NullReference
  end.

(** ** JSON documents

    The parsed document: a [JsonElement] on the server, a plain value in
    the client ([JUndefined] is the client's [undefined]).  Numbers are
    exact rationals; an object lists its members in the order they are
    enumerated. *)
Inductive json :=
  | JUndefined
  | JNull
  | JBool (b : bool)
  | JNum (q : Q)
  | JStr (s : string)
  | JArr (items : list json)
  | JObj (members : list (string * json)).

(** ** Server models ([ATOMMockGenerator.Server.Models])

    Modelled from the spec: the classes of [ATOMMockGenerator.Server.Models],
    whose declarations are not among the sources.  Each class has the
    fields the data model of the specification lists and the services
    read, under the names the services use, one module per class.  A
    property of reference type may hold [null] and is an [option], and
    so are the matchers a request holds by name and the elements of its
    [BodyPatterns]; the elements of [Mocks] and [Mappings] are
    objects. *)
Module ValidationError.
Record t := { Path : string; Message : string; Severity : string }.
End ValidationError.

Module ValidationResult.
Record t := {
  IsValid : bool;
  Errors : list ValidationError.t;
  Warnings : list ValidationError.t }.

(** The invariant of the data model: [isValid == (errors.length == 0)]. *)
Definition consistent (r : t) : Prop :=
  IsValid r = (length (Errors r) =? 0)%nat.
End ValidationResult.

(** The entries of a list reported at one path. *)
Definition at_path (path : string) (entries : list ValidationError.t)
  : list ValidationError.t :=
List.filter (fun e => Str.eqb (ValidationError.Path e) path) entries.

Module RequestMatcher.
Record t := {
  EqualTo : option string;
  Contains : option string;
  Matches : option string }.
End RequestMatcher.

Module EqualToJsonPattern.
Record t := {
  Json : string;
  IgnoreExtraElements : option bool;
  IgnoreArrayOrder : option bool }.
End EqualToJsonPattern.

Module RequestBodyPattern.
Record t := {
  EqualToJson : option EqualToJsonPattern.t;
  MatchesJsonPath : option string }.
End RequestBodyPattern.

Module MockRequest.
Record t := {
  Method : option string;
  Url : option string;
  UrlPattern : option string;
  UrlPath : option string;
  UrlPathPattern : option string;
  PathTemplate : option string;
  QueryParameters : option (gmap string (option RequestMatcher.t));
  Headers : option (gmap string (option RequestMatcher.t));
  Cookies : option (gmap string (option RequestMatcher.t));
  BodyPatterns : option (list (option RequestBodyPattern.t)) }.
End MockRequest.

Module ResponseBody.
Record t := {
  Type_ : option string;
  Value : option string;
  FileName : option string;
  Templating : option bool }.
End ResponseBody.

Module MockResponse.
Record t := {
  Status : Z;
  Headers : option (gmap string string);
  Body : option ResponseBody.t;
  FixedDelayMilliseconds : option Z;
  ProxyBaseUrl : option string }.
End MockResponse.

Module ScenarioConfig.
Record t := {
  Name : option string;
  RequiredState : option string;
  NewState : option string }.
End ScenarioConfig.

Module MockConfig.
Record t := {
  Name : option string;
  Priority : option Z;
  Request : option MockRequest.t;
  Response : option MockResponse.t;
  Scenario : option ScenarioConfig.t;
  Metadata : option (gmap string json) }.
End MockConfig.

Module AuthConfig.
Record t := {
  Type_ : option string;
  Username : option string;
  Password : option string;
  Token : option string }.
End AuthConfig.

Module TargetConfig.
Record t := { BaseUrl : option string; Auth : option AuthConfig.t }.
End TargetConfig.

Module DefaultsConfig.
Record t := {
  Priority : option Z;
  Headers : option (gmap string string);
  Templating : option bool }.
End DefaultsConfig.

Module ATOMConfig.
Record t := {
  Version : option string;
  Target : option TargetConfig.t;
  Defaults : option DefaultsConfig.t;
  Mocks : option (list MockConfig.t) }.
End ATOMConfig.

(** The values a [Dictionary<string, object>] of header matchers holds:
    the anonymous object [new { equalTo = v }], a
    [Dictionary<string, string>] of matcher fields, or (legacy documents)
    whatever the deserializer left there. *)
Inductive HeaderMatcher :=
  | EqualToObject (equalTo : string)
  | MatcherFields (fields : gmap string string)
  | HeaderJson (j : json).

(** The elements of [BodyPatterns], a [List<object>]. *)
Inductive BodyPatternValue :=
  | PatString (s : string)
  | PatBool (b : bool).

Inductive BodyPattern :=
  | EqualToJsonFields (fields : gmap string BodyPatternValue)
  | MatchesJsonPathObject (matchesJsonPath : string)
  | BodyPatternJson (j : json).

Module WiremockRequest.
Record t := {
  Method : option string;
  Url : option string;
  UrlPattern : option string;
  Headers : option (gmap string HeaderMatcher);
  BodyPatterns : option (list BodyPattern) }.
End WiremockRequest.

Module WiremockResponse.
Record t := {
  Status : Z;
  Headers : option (gmap string string);
  Body : option string;
  JsonBody : option json;
  BodyFileName : option string }.
End WiremockResponse.

Module WiremockMapping.
Record t := {
  Id : option string;
  Priority : option Z;
  Request : option WiremockRequest.t;
  Response : option WiremockResponse.t;
  ScenarioName : option string;
  RequiredScenarioState : option string;
  NewScenarioState : option string }.

Definition with_Id (id : option string) (m : t) : t :=
  {| Id := id; Priority := Priority m; Request := Request m;
     Response := Response m; ScenarioName := ScenarioName m;
     RequiredScenarioState := RequiredScenarioState m;
     NewScenarioState := NewScenarioState m |}.
End WiremockMapping.

Module JsonConfig.
Record t := {
  Name : option string;
  Version : option string;
  BaseUrl : option string;
  Port : option Z;
  Mappings : option (list WiremockMapping.t) }.
End JsonConfig.

(** ** [ConfigValidationService] *)
Module ConfigValidationService.

Import Str.

Definition error (path message : string) : ValidationError.t :=
  {| ValidationError.Path := path;
     ValidationError.Message := message;
     ValidationError.Severity := "error" |}.

Definition warning (path message : string) : ValidationError.t :=
  {| ValidationError.Path := path;
     ValidationError.Message := message;
     ValidationError.Severity := "warning" |}.

(** [cond ? [e] : []], the effect of a guarded [errors.Add(e)]. *)
Definition add_if {A} (cond : bool) (e : A) : list A :=
  if cond then [e] else [].

Definition Contains (values : list string) (s : string) : bool :=
  existsb (Str.eqb s) values.

Definition validMethods : list string :=
  ["GET"; "POST"; "PUT"; "DELETE"; "PATCH"; "HEAD"; "OPTIONS"; "ANY"].

Definition validAuthTypes : list string := ["none"; "basic"; "bearer"].

Definition equals (s : option string) (v : string) : bool :=
  match s with
  | Some x => Str.eqb x v
  | None => false
  end.

Section Validation.

(** [Uri.TryCreate(s, UriKind.Absolute, out _)]. *)
Variable IsAbsoluteUri : string -> bool.

(** *** [ValidateConfig]: the legacy dialect.
    The body of the [for] loop at index [i]: the errors and the
    warnings it adds. *)
Definition validate_mapping (i : nat) (mapping : WiremockMapping.t)
  : result (list ValidationError.t * list ValidationError.t) :=
  let pathPrefix := "mappings[" +:+ of_nat i +:+ "]" in
  request ← deref (WiremockMapping.Request mapping);
  let e1 := add_if (IsNullOrWhiteSpace (WiremockRequest.Method request))
              (error (pathPrefix +:+ ".request.method") "HTTP method is required") in
  let e2 := add_if (IsNullOrWhiteSpace (WiremockRequest.Url request)
                    && IsNullOrWhiteSpace (WiremockRequest.UrlPattern request))
              (error (pathPrefix +:+ ".request") "Either URL or URL pattern is required") in
  let w1 := add_if (negb (IsNullOrWhiteSpace (WiremockRequest.Url request))
                    && negb (IsNullOrWhiteSpace (WiremockRequest.UrlPattern request)))
              (warning (pathPrefix +:+ ".request")
                 "Both URL and URL pattern specified, URL pattern will take precedence") in
  response ← deref (WiremockMapping.Response mapping);
  let status := WiremockResponse.Status response in
  let e3 := add_if ((status <? 100) || (status >? 599))
              (error (pathPrefix +:+ ".response.status")
                 ("HTTP status code must be between 100 and 599, got " +:+ of_Z status)) in
  let bodyCount :=
    ((if negb (IsNullOrWhiteSpace (WiremockResponse.Body response)) then 1 else 0)
     + (if WiremockResponse.JsonBody response is Some _ then 1 else 0)
     + (if negb (IsNullOrWhiteSpace (WiremockResponse.BodyFileName response)) then 1 else 0))%nat in
  let w2 := add_if (1 <? bodyCount)%nat
              (warning (pathPrefix +:+ ".response")
                 "Multiple response body types specified, only one will be used") in
  mret (e1 ++ e2 ++ e3, w1 ++ w2).

Fixpoint validate_mappings (i : nat) (mappings : list WiremockMapping.t)
  : result (list ValidationError.t * list ValidationError.t) :=
  match mappings with
  | [] => mret ([], [])
  | mapping :: rest =>
      '(e, w) ← validate_mapping i mapping;
      '(es, ws) ← validate_mappings (S i) rest;
      mret (e ++ es, w ++ ws)
  end.

Definition ValidateConfig (config : JsonConfig.t) : result ValidationResult.t :=
  let e1 := add_if (IsNullOrWhiteSpace (JsonConfig.Name config))
              (error "name" "Configuration name is required") in
  let w1 := add_if (IsNullOrWhiteSpace (JsonConfig.Version config))
              (warning "version" "Configuration version is recommended") in
  '(e2, w2) ←
    match JsonConfig.Mappings config with
    | None | Some [] => mret ([error "mappings" "At least one mapping is required"], [])
    | Some mappings => validate_mappings 0 mappings
    end;
  let errors := e1 ++ e2 in
  let warnings := w1 ++ w2 in
  mret {| ValidationResult.IsValid := (length errors =? 0)%nat;
          ValidationResult.Errors := errors;
          ValidationResult.Warnings := warnings |}.

(** *** [ValidateATOMConfig]: the canonical dialect. *)
Definition hasUrlMatch (request : MockRequest.t) : bool :=
  negb (IsNullOrWhiteSpace (MockRequest.Url request))
  || negb (IsNullOrWhiteSpace (MockRequest.UrlPattern request))
  || negb (IsNullOrWhiteSpace (MockRequest.UrlPath request))
  || negb (IsNullOrWhiteSpace (MockRequest.UrlPathPattern request))
  || negb (IsNullOrWhiteSpace (MockRequest.PathTemplate request)).

Definition hasUrlConflict (request : MockRequest.t) : bool :=
  negb (IsNullOrWhiteSpace (MockRequest.Url request))
  && (negb (IsNullOrWhiteSpace (MockRequest.UrlPattern request))
      || negb (IsNullOrWhiteSpace (MockRequest.UrlPath request))
      || negb (IsNullOrWhiteSpace (MockRequest.UrlPathPattern request))).

Definition validate_method (pathPrefix : string) (request : MockRequest.t)
  : list ValidationError.t :=
  match MockRequest.Method request with
  | Some method =>
      if all_white method
      then [error (pathPrefix +:+ ".request.method") "HTTP method is required"]
      else add_if (negb (Contains validMethods (ToUpper method)))
             (error (pathPrefix +:+ ".request.method")
                ("Invalid HTTP method: " +:+ method +:+ ". Valid methods: "
                 +:+ Join ", " validMethods))
  | None => [error (pathPrefix +:+ ".request.method") "HTTP method is required"]
  end.

Definition validate_body (pathPrefix : string) (body : ResponseBody.t)
  : list ValidationError.t :=
  let type := ResponseBody.Type_ body in
  add_if (equals type "inline" && IsNullOrWhiteSpace (ResponseBody.Value body))
    (error (pathPrefix +:+ ".response.body") "Inline response body must have a value")
  ++ add_if (equals type "file" && IsNullOrWhiteSpace (ResponseBody.FileName body))
       (error (pathPrefix +:+ ".response.body") "File response body must have a fileName")
  ++ add_if (negb (equals type "inline") && negb (equals type "file"))
       (error (pathPrefix +:+ ".response.body.type")
          "Response body type must be 'inline' or 'file'").

Definition validate_response (pathPrefix : string) (response : MockResponse.t)
  : list ValidationError.t :=
  let status := MockResponse.Status response in
  add_if ((status <? 100) || (status >=? 600))
    (error (pathPrefix +:+ ".response.status")
       ("Invalid HTTP status code: " +:+ of_Z status +:+ ". Must be between 100-599"))
  ++ match MockResponse.Body response with
     | Some body => validate_body pathPrefix body
     | None => []
     end
  ++ match MockResponse.FixedDelayMilliseconds response with
     | Some delay =>
         add_if (delay <? 0)
           (error (pathPrefix +:+ ".response.fixedDelayMilliseconds")
              "Fixed delay must be non-negative")
     | None => []
     end
  ++ match MockResponse.ProxyBaseUrl response with
     | Some proxy =>
         add_if (negb (all_white proxy) && negb (IsAbsoluteUri proxy))
           (error (pathPrefix +:+ ".response.proxyBaseUrl")
              ("Invalid proxy base URL format: " +:+ proxy))
     | None => []
     end.

(** The body of the [for] loop over [config.Mocks] at index [i]. *)
Definition validate_mock (i : nat) (mock : MockConfig.t)
  : result (list ValidationError.t * list ValidationError.t) :=
  let pathPrefix := "mocks[" +:+ of_nat i +:+ "]" in
  request ← deref (MockConfig.Request mock);
  let e1 := validate_method pathPrefix request in
  let w1 := add_if (negb (hasUrlMatch request))
              (warning (pathPrefix +:+ ".request")
                 "Request should have at least one URL matching property") in
  let w2 := add_if (hasUrlConflict request)
              (warning (pathPrefix +:+ ".request")
                 "Using both exact URL and URL patterns may cause conflicts") in
  response ← deref (MockConfig.Response mock);
  mret (e1 ++ validate_response pathPrefix response, w1 ++ w2).

Fixpoint validate_mocks (i : nat) (mocks : list MockConfig.t)
  : result (list ValidationError.t * list ValidationError.t) :=
  match mocks with
  | [] => mret ([], [])
  | mock :: rest =>
      '(e, w) ← validate_mock i mock;
      '(es, ws) ← validate_mocks (S i) rest;
      mret (e ++ es, w ++ ws)
  end.

(** The auth block of the target, entered when [Target.Auth != null]. *)
Definition validate_auth (auth : AuthConfig.t) : result (list ValidationError.t) :=
  type ← deref (AuthConfig.Type_ auth);
  let e1 := add_if (negb (Contains validAuthTypes (ToLower type)))
              (error "target.auth.type"
                 ("Invalid auth type: " +:+ type +:+ ". Valid types: "
                  +:+ Join ", " validAuthTypes)) in
  let e2 := add_if (Str.eqb (ToLower type) "basic"
                    && (IsNullOrWhiteSpace (AuthConfig.Username auth)
                        || IsNullOrWhiteSpace (AuthConfig.Password auth)))
              (error "target.auth"
                 "Basic authentication requires both username and password") in
  let e3 := add_if (Str.eqb (ToLower type) "bearer"
                    && IsNullOrWhiteSpace (AuthConfig.Token auth))
              (error "target.auth" "Bearer authentication requires a token") in
  mret (e1 ++ e2 ++ e3).

Definition validate_target (target : TargetConfig.t) : result (list ValidationError.t) :=
  let e1 :=
    match TargetConfig.BaseUrl target with
    | Some baseUrl =>
        if all_white baseUrl
        then [error "target.baseUrl" "Target base URL is required when target is specified"]
        else add_if (negb (IsAbsoluteUri baseUrl))
               (error "target.baseUrl" ("Invalid base URL format: " +:+ baseUrl))
    | None => [error "target.baseUrl" "Target base URL is required when target is specified"]
    end in
  e2 ← match TargetConfig.Auth target with
       | Some auth => validate_auth auth
       | None => mret []
       end;
  mret (e1 ++ e2).

Definition validate_defaults (defaults : option DefaultsConfig.t) : list ValidationError.t :=
  match defaults with
  | Some d =>
      match DefaultsConfig.Priority d with
      | Some p => add_if (p <? 1)
                    (error "defaults.priority" "Default priority must be 1 or greater")
      | None => []
      end
  | None => []
  end.

Definition ValidateATOMConfig (config : ATOMConfig.t) : result ValidationResult.t :=
  let e1 := add_if (IsNullOrWhiteSpace (ATOMConfig.Version config))
              (error "version" "Version is required") in
  '(e2, w2) ←
    match ATOMConfig.Mocks config with
    | None | Some [] => mret ([error "mocks" "At least one mock is required"], [])
    | Some mocks => validate_mocks 0 mocks
    end;
  e3 ← match ATOMConfig.Target config with
       | Some target => validate_target target
       | None => mret []
       end;
  let errors := e1 ++ e2 ++ e3 ++ validate_defaults (ATOMConfig.Defaults config) in
  let warnings := w2 in
  mret {| ValidationResult.IsValid := (length errors =? 0)%nat;
          ValidationResult.Errors := errors;
          ValidationResult.Warnings := warnings |}.

(** *** [ValidateConfigFromJson]: the orchestrator. *)

(** [JsonSerializer.Deserialize<T>(jsonElement.GetRawText(), options)]:
    the typed document, [null], or a thrown exception. *)
Variable DeserializeATOMConfig : json -> result (option ATOMConfig.t).
Variable DeserializeJsonConfig : json -> result (option JsonConfig.t).

Definition ValueKind (j : json) : string :=
  match j with
  | JUndefined => "Undefined"
  | JNull => "Null"
  | JBool true => "True"
  | JBool false => "False"
  | JNum _ => "Number"
  | JStr _ => "String"
  | JArr _ => "Array"
  | JObj _ => "Object"
  end.

(** The member of that name written last in the object, if any. *)
Fixpoint last_member (name : string) (members : list (string * json)) : option json :=
  match members with
  | [] => None
  | (k, v) :: rest =>
      match last_member name rest with
      | Some v' => Some v'
      | None => if Str.eqb k name then Some v else None
      end
  end.

(** [jsonElement.TryGetProperty(name, out value)]: throws on an element
    that is not an object. *)
Definition TryGetProperty (jsonElement : json) (name : string) : result (option json) :=
  match jsonElement with
  | JObj members => mret (last_member name members)
  | other =>
      Throw {| ExType := InvalidOperationException;
               Message := "The requested operation requires an element of type 'Object', but the target element has type '"
                          +:+ ValueKind other +:+ "'." |}
  end.

Definition root_failure (message : string) : ValidationResult.t :=
  {| ValidationResult.IsValid := false;
     ValidationResult.Errors := [error "root" message];
     ValidationResult.Warnings := [] |}.

(** The [try] block. *)
Definition ValidateConfigFromJson_try (jsonElement : json) : result ValidationResult.t :=
  mocksProperty ← TryGetProperty jsonElement "mocks";
  let isAtomConfig := if mocksProperty is Some (JArr _) then true else false in
  if isAtomConfig then
    atomConfig ← DeserializeATOMConfig jsonElement;
    match atomConfig with
    | Some config => ValidateATOMConfig config
    | None => mret (root_failure "Failed to deserialize ATOM config")
    end
  else
    legacyConfig ← DeserializeJsonConfig jsonElement;
    match legacyConfig with
    | Some config => ValidateConfig config
    | None => mret (root_failure "Failed to deserialize legacy config")
    end.

(** The two [catch] clauses: [JsonException] first, then [Exception]. *)
Definition ValidateConfigFromJson_catch (ex : Exception) : result ValidationResult.t :=
  match ExType ex with
  | JsonException => mret (root_failure ("JSON parsing error: " +:+ Message ex))
  | _ => mret (root_failure ("Validation error: " +:+ Message ex))
  end.

Definition ValidateConfigFromJson (jsonElement : json) : result ValidationResult.t :=
  try_catch (ValidateConfigFromJson_try jsonElement) ValidateConfigFromJson_catch.

End Validation.
End ConfigValidationService.

(** ** [MappingService]

    Mappings are objects: the service, the list it returns and the caller
    hold references ([loc]) into one [heap], so an assignment to
    [mapping.Id] is seen through every reference to that object.
    [_mappings] is the in-memory store, keyed by id. *)
Module MappingService.

Import Str.

Definition loc := nat.

Record State := {
  heap : gmap nat WiremockMapping.t;
  next_loc : nat;
  _mappings : gmap string nat;
  guids : nat }.

Definition M (A : Type) : Type := State -> result A * State.

#[global] Instance M_ret : MRet M := fun A a σ => (Ok a, σ).
#[global] Instance M_bind : MBind M :=
  fun A B f m σ =>
    match m σ with
    | (Ok a, σ') => f a σ'
    | (Throw ex, σ') => (Throw ex, σ')
    end.

Definition lift {A} (r : result A) : M A := fun σ => (r, σ).

(** [new WiremockMapping { ... }]. *)
Definition alloc (m : WiremockMapping.t) : M loc :=
  fun σ =>
    (Ok (next_loc σ),
     {| heap := <[next_loc σ := m]> (heap σ); next_loc := S (next_loc σ);
        _mappings := _mappings σ; guids := guids σ |}).

Definition read (mapping : loc) : M WiremockMapping.t :=
  fun σ => (deref (heap σ !! mapping), σ).

(** [mapping.Id = id]. *)
Definition set_Id (mapping : loc) (id : string) : M unit :=
  fun σ =>
    match heap σ !! mapping with
    | Some m =>
        (Ok tt,
         {| heap := <[mapping := WiremockMapping.with_Id (Some id) m]> (heap σ);
            next_loc := next_loc σ; _mappings := _mappings σ; guids := guids σ |})
    | None => (Throw NullReference, σ)
    end.

(** [_mappings[id] = mapping]. *)
Definition store (id : string) (mapping : loc) : M unit :=
  fun σ =>
    (Ok tt,
     {| heap := heap σ; next_loc := next_loc σ;
        _mappings := <[id := mapping]> (_mappings σ); guids := guids σ |}).

Section Service.

(** [NewGuidString n] is what the [n]-th call of
    [Guid.NewGuid().ToString()] returns. *)
Variable NewGuidString : nat -> string.

Definition NewGuid : M string :=
  fun σ =>
    (Ok (NewGuidString (guids σ)),
     {| heap := heap σ; next_loc := next_loc σ;
        _mappings := _mappings σ; guids := S (guids σ) |}).

Definition CreateMappingAsync (mapping : loc) : M loc :=
  id ← NewGuid;
  _ ← set_Id mapping id;
  _ ← store id mapping;
  mret mapping.

Definition UpdateMappingAsync (id : string) (mapping : loc) : M loc :=
  _ ← set_Id mapping id;
  _ ← store id mapping;
  mret mapping.

Definition GetMappingAsync (id : string) : M (option loc) :=
  fun σ => (Ok (_mappings σ !! id), σ).

Definition DeleteMappingAsync (id : string) : M bool :=
  fun σ =>
    (Ok (if _mappings σ !! id is Some _ then true else false),
     {| heap := heap σ; next_loc := next_loc σ;
        _mappings := delete id (_mappings σ); guids := guids σ |}).

(** The [foreach] of [GenerateMappingsAsync]; [generatedMappings] is the
    list built so far. *)
Fixpoint GenerateMappings_foreach (mappings generatedMappings : list loc) : M (list loc) :=
  match mappings with
  | [] => mret generatedMappings
  | mapping :: rest =>
      m ← read mapping;
      _ ← (if IsNullOrWhiteSpace (WiremockMapping.Id m)
           then id ← NewGuid; set_Id mapping id
           else mret tt);
      _ ← CreateMappingAsync mapping;
      GenerateMappings_foreach rest (generatedMappings ++ [mapping])
  end.

(** [GenerateMappingsAsync(config)], [Mappings] being [config.Mappings]. *)
Definition GenerateMappingsAsync (Mappings : option (list loc)) : M (list loc) :=
  mappings ← lift (deref Mappings);
  GenerateMappings_foreach mappings [].

(** *** [ConvertToWiremockMapping] *)

(** The [if]/[else if] chain that sets [Url] or [UrlPattern] of the new
    request: the pair (Url, UrlPattern). *)
Definition url_matching (request : MockRequest.t) : option string * option string :=
  if negb (IsNullOrWhiteSpace (MockRequest.Url request))
  then (MockRequest.Url request, None)
  else if negb (IsNullOrWhiteSpace (MockRequest.UrlPattern request))
  then (None, MockRequest.UrlPattern request)
  else if negb (IsNullOrWhiteSpace (MockRequest.UrlPath request))
  then (MockRequest.UrlPath request, None)
  else if negb (IsNullOrWhiteSpace (MockRequest.UrlPathPattern request))
  then (None, MockRequest.UrlPathPattern request)
  else
    match MockRequest.PathTemplate request with
    | Some template =>
        if all_white template then (None, None)
        else
          let pattern := Replace (Replace template "{" "([^/]+)") "}" "" in
          (None, Some pattern)
    | None => (None, None)
    end.

Definition headerMatcher (value : RequestMatcher.t) : gmap string string :=
  let d : gmap string string := ∅ in
  let d := match RequestMatcher.EqualTo value with
           | Some v => if all_white v then d else <["equalTo" := v]> d
           | None => d
           end in
  let d := match RequestMatcher.Contains value with
           | Some v => if all_white v then d else <["contains" := v]> d
           | None => d
           end in
  match RequestMatcher.Matches value with
  | Some v => if all_white v then d else <["matches" := v]> d
  | None => d
  end.

Definition default_headers (config : ATOMConfig.t) : option (gmap string string) :=
  d ← ATOMConfig.Defaults config; DefaultsConfig.Headers d.

(** The two loops that fill [headers].  The second one reads
    [header.Value.EqualTo]: a matcher that is null ends it with a
    [NullReferenceException], whichever entry the enumeration meets
    first. *)
Definition request_headers (request : MockRequest.t) (config : ATOMConfig.t)
  : result (gmap string HeaderMatcher) :=
  let headers : gmap string HeaderMatcher := ∅ in
  let headers :=
    match default_headers config with
    | Some defaults =>
        map_fold (fun key value acc => <[key := EqualToObject value]> acc) headers defaults
    | None => headers
    end in
  match MockRequest.Headers request with
  | Some hs =>
      map_fold (fun key value acc =>
                  headers ← acc;
                  value ← deref value;
                  mret (<[key := MatcherFields (headerMatcher value)]> headers))
        (Ok headers) hs
  | None => Ok headers
  end.

Definition bodyPattern (pattern : RequestBodyPattern.t) : list BodyPattern :=
  match RequestBodyPattern.EqualToJson pattern with
  | Some equalToJson =>
      let d : gmap string BodyPatternValue :=
        {[ "equalToJson" := PatString (EqualToJsonPattern.Json equalToJson) ]} in
      let d := match EqualToJsonPattern.IgnoreExtraElements equalToJson with
               | Some b => <["ignoreExtraElements" := PatBool b]> d
               | None => d
               end in
      let d := match EqualToJsonPattern.IgnoreArrayOrder equalToJson with
               | Some b => <["ignoreArrayOrder" := PatBool b]> d
               | None => d
               end in
      [EqualToJsonFields d]
  | None =>
      match RequestBodyPattern.MatchesJsonPath pattern with
      | Some path => if all_white path then [] else [MatchesJsonPathObject path]
      | None => []
      end
  end.

(** The [foreach] over [mock.Request.BodyPatterns], which reads
    [pattern.EqualToJson]: an element that is null ends it with a
    [NullReferenceException]. *)
Fixpoint BodyPatterns_foreach (patterns : list (option RequestBodyPattern.t))
    (BodyPatterns : list BodyPattern) : result (list BodyPattern) :=
  match patterns with
  | [] => mret BodyPatterns
  | pattern :: rest =>
      pattern ← deref pattern;
      BodyPatterns_foreach rest (BodyPatterns ++ bodyPattern pattern)
  end.

Definition request_bodyPatterns (request : MockRequest.t)
  : result (option (list BodyPattern)) :=
  match MockRequest.BodyPatterns request with
  | Some (p :: ps) =>
      BodyPatterns ← BodyPatterns_foreach (p :: ps) [];
      mret (Some BodyPatterns)
  | _ => mret None
  end.

Definition response_headers (response : MockResponse.t) (config : ATOMConfig.t)
  : gmap string string :=
  let responseHeaders : gmap string string := ∅ in
  let responseHeaders :=
    match default_headers config with
    | Some defaults =>
        map_fold (fun key value acc => <[key := value]> acc) responseHeaders defaults
    | None => responseHeaders
    end in
  match MockResponse.Headers response with
  | Some hs => map_fold (fun key value acc => <[key := value]> acc) responseHeaders hs
  | None => responseHeaders
  end.

(** [ConvertToWiremockMapping(mock, config)], [Id] being the string its
    [Guid.NewGuid().ToString()] returned. *)
Definition ConvertToWiremockMapping (Id : string) (mock : MockConfig.t)
    (config : ATOMConfig.t) : result WiremockMapping.t :=
  let Priority :=
    match MockConfig.Priority mock with
    | Some p => Some p
    | None => d ← ATOMConfig.Defaults config; DefaultsConfig.Priority d
    end in
  let scenario := MockConfig.Scenario mock in
  request ← deref (MockConfig.Request mock);
  let '(Url, UrlPattern) := url_matching request in
  headers ← request_headers request config;
  BodyPatterns ← request_bodyPatterns request;
  response ← deref (MockConfig.Response mock);
  let responseHeaders := response_headers response config in
  let '(Body, BodyFileName) :=
    match MockResponse.Body response with
    | Some body =>
        if ConfigValidationService.equals (ResponseBody.Type_ body) "inline"
        then (ResponseBody.Value body, None)
        else if ConfigValidationService.equals (ResponseBody.Type_ body) "file"
        then (None, ResponseBody.FileName body)
        else (None, None)
    | None => (None, None)
    end in
  mret
    {| WiremockMapping.Id := Some Id;
       WiremockMapping.Priority := Priority;
       WiremockMapping.Request :=
         Some {| WiremockRequest.Method := MockRequest.Method request;
                 WiremockRequest.Url := Url;
                 WiremockRequest.UrlPattern := UrlPattern;
                 WiremockRequest.Headers :=
                   if (0 <? size headers)%nat then Some headers else None;
                 WiremockRequest.BodyPatterns := BodyPatterns |};
       WiremockMapping.Response :=
         Some {| WiremockResponse.Status := MockResponse.Status response;
                 WiremockResponse.Headers :=
                   if (0 <? size responseHeaders)%nat then Some responseHeaders else None;
                 WiremockResponse.Body := Body;
                 WiremockResponse.JsonBody := None;
                 WiremockResponse.BodyFileName := BodyFileName |};
       WiremockMapping.ScenarioName := s ← scenario; ScenarioConfig.Name s;
       WiremockMapping.RequiredScenarioState := s ← scenario; ScenarioConfig.RequiredState s;
       WiremockMapping.NewScenarioState := s ← scenario; ScenarioConfig.NewState s |}.

(** A request none of whose header matchers and body patterns is
    null. *)
Definition null_free (request : MockRequest.t) : Prop :=
  (forall hs, MockRequest.Headers request = Some hs ->
              map_Forall (fun _ value => is_Some value) hs)
  /\ (forall patterns, MockRequest.BodyPatterns request = Some patterns ->
                       Forall is_Some patterns).

(** A mock that has its response and its request, the request without
    a null matcher or pattern. *)
Definition convertible (mock : MockConfig.t) : Prop :=
  (exists request, MockConfig.Request mock = Some request /\ null_free request)
  /\ is_Some (MockConfig.Response mock).

Fixpoint GenerateMappingsFromATOM_foreach (config : ATOMConfig.t)
    (mocks : list MockConfig.t) (generatedMappings : list loc) : M (list loc) :=
  match mocks with
  | [] => mret generatedMappings
  | mock :: rest =>
      id ← NewGuid;
      m ← lift (ConvertToWiremockMapping id mock config);
      wiremockMapping ← alloc m;
      _ ← CreateMappingAsync wiremockMapping;
      GenerateMappingsFromATOM_foreach config rest (generatedMappings ++ [wiremockMapping])
  end.

Definition GenerateMappingsFromATOMAsync (config : ATOMConfig.t) : M (list loc) :=
  mocks ← lift (deref (ATOMConfig.Mocks config));
  GenerateMappingsFromATOM_foreach config mocks [].

(** A deserialized legacy document: every element of [config.Mappings]
    is an object of its own. *)
Fixpoint alloc_all (ms : list WiremockMapping.t) : M (list loc) :=
  match ms with
  | [] => mret []
  | m :: rest =>
      l ← alloc m;
      ls ← alloc_all rest;
      mret (l :: ls)
  end.

(** What the caller reads through the references it got back. *)
Definition objects (σ : State) (refs : list loc) : list (option WiremockMapping.t) :=
  map (fun l => heap σ !! l) refs.

End Service.

Definition empty : State :=
  {| heap := ∅; next_loc := O; _mappings := ∅; guids := O |}.

End MappingService.

(** ** [WiremockAdminService]

    The stub server behind [HttpClient] is a state [World] that every
    request may change; the logger is written to, never read: a
    computation returns its outcome, the next world and the log entries
    it emitted. *)
Module WiremockAdminService.

Import Str.

Inductive LogLevel := LogDebug | LogInformation | LogWarning | LogError.

Record LogEntry := {
  Level : LogLevel;
  Exn : option Exception;
  Template : string;
  Args : list string }.

Record HttpRequestMessage := {
  Method : string;
  RequestUri : string;
  Content : option string;
  Authorization : option (string * string) }.

Record HttpResponseMessage := {
  IsSuccessStatusCode : bool;
  StatusCode : string;
  ResponseContent : string }.

Section Service.

Variable World : Type.

(** [_httpClient.SendAsync(request)]. *)
Variable SendAsync : HttpRequestMessage -> World -> result HttpResponseMessage * World.
(** [JsonSerializer.Serialize(mapping, ...)] and
    [JsonSerializer.Deserialize<WiremockMapping>(content, ...)]. *)
Variable Serialize : WiremockMapping.t -> string.
Variable Deserialize : string -> result (option WiremockMapping.t).
(** [Convert.ToBase64String(Encoding.UTF8.GetBytes(s))]. *)
Variable ToBase64String : string -> string.

Definition H (A : Type) : Type := World -> result A * World * list LogEntry.

Definition log (level : LogLevel) (ex : option Exception) (template : string)
    (args : list string) : list LogEntry :=
  [{| Level := level; Exn := ex; Template := template; Args := args |}].

(** [new HttpRequestMessage(method, url)] parses [url] and throws when
    it is no URI, and so does [new AuthenticationHeaderValue(scheme,
    parameter)] when one of the two may not stand in a header: the
    exception each one throws, if any. *)
Variable UriFormatError : string -> option Exception.
Variable HeaderFormatError : string -> string -> option Exception.

Definition NewHttpRequestMessage (method requestUri : string) (content : option string)
  : result HttpRequestMessage :=
  match UriFormatError requestUri with
  | Some ex => Throw ex
  | None =>
      Ok {| Method := method; RequestUri := requestUri; Content := content;
            Authorization := None |}
  end.

Definition NewAuthenticationHeaderValue (scheme parameter : string)
  : result (string * string) :=
  match HeaderFormatError scheme parameter with
  | Some ex => Throw ex
  | None => Ok (scheme, parameter)
  end.

(** [AddAuthenticationHeader]: the [Authorization] header it sets. *)
Definition AddAuthenticationHeader (auth : option AuthConfig.t)
  : result (option (string * string)) :=
  match auth with
  | None => mret None
  | Some auth =>
      match ToLower <$> AuthConfig.Type_ auth with
      | Some "basic" =>
          if negb (IsNullOrEmpty (AuthConfig.Username auth))
             && negb (IsNullOrEmpty (AuthConfig.Password auth))
          then
            let credentials :=
              ToBase64String (interp (AuthConfig.Username auth) +:+ ":"
                              +:+ interp (AuthConfig.Password auth)) in
            header ← NewAuthenticationHeaderValue "Basic" credentials;
            mret (Some header)
          else mret None
      | Some "bearer" =>
          if negb (IsNullOrEmpty (AuthConfig.Token auth))
          then
            header ← NewAuthenticationHeaderValue "Bearer" (interp (AuthConfig.Token auth));
            mret (Some header)
          else mret None
      | _ => mret None
      end
  end.

(** The statements every operation runs before its [try]: the request
    is built and [AddAuthenticationHeader(request, auth)] sets its header.
    An exception of either leaves the operation with nothing sent and
    nothing logged. *)
Definition NewRequest (method url : string) (content : option string)
    (auth : option AuthConfig.t) : result HttpRequestMessage :=
  request ← NewHttpRequestMessage method url content;
  authorization ← AddAuthenticationHeader auth;
  mret {| Method := Method request; RequestUri := RequestUri request;
          Content := Content request; Authorization := authorization |}.

(** The [try] block of [CreateMappingAsync]. *)
Definition CreateMapping_try (request : HttpRequestMessage) (mapping : WiremockMapping.t)
  : H WiremockMapping.t :=
  fun w =>
    match SendAsync request w with
    | (Throw ex, w') => (Throw ex, w', [])
    | (Ok response, w') =>
        if negb (IsSuccessStatusCode response)
        then
          (Throw {| ExType := HttpRequestException;
                    Message := "Failed to create Wiremock mapping: "
                               +:+ StatusCode response +:+ " - "
                               +:+ ResponseContent response |},
           w',
           log LogError None
             "Failed to create Wiremock mapping. Status: {StatusCode}, Content: {Content}"
             [StatusCode response; ResponseContent response])
        else
          match Deserialize (ResponseContent response) with
          | Throw ex => (Throw ex, w', [])
          | Ok createdMapping =>
              (Ok (default mapping createdMapping), w',
               log LogInformation None
                 "Successfully created Wiremock mapping with ID: {MappingId}"
                 [interp (createdMapping ≫= WiremockMapping.Id)])
          end
    end.

Definition CreateMappingAsync (wiremockBaseUrl : string) (mapping : WiremockMapping.t)
    (auth : option AuthConfig.t) : H WiremockMapping.t :=
  fun w =>
    let url := TrimEnd "/" wiremockBaseUrl +:+ "/__admin/mappings" in
    match NewRequest "POST" url (Some (Serialize mapping)) auth with
    | Throw ex => (Throw ex, w, [])
    | Ok request =>
        match CreateMapping_try request mapping w with
        | (Ok created, w', entries) => (Ok created, w', entries)
        | (Throw ex, w', entries) =>
            (Throw ex, w',
             entries ++ log LogError (Some ex)
                          "Exception occurred while creating Wiremock mapping" [])
        end
    end.

Definition describe (request : WiremockRequest.t) : string :=
  interp (WiremockRequest.Method request) +:+ " "
  +:+ interp (match WiremockRequest.Url request with
              | Some u => Some u
              | None => WiremockRequest.UrlPattern request
              end).

(** The locals of [CreateMappingsAsync]. *)
Record Lists := {
  createdMappings : list WiremockMapping.t;
  failures : list string }.

(** The [catch] block of the loop body. *)
Definition CreateMappings_catch (mapping : WiremockMapping.t) (ex : Exception)
    (lists : Lists) : result Lists * list LogEntry :=
  match deref (WiremockMapping.Request mapping) with
  | Throw nre => (Throw nre, [])
  | Ok request =>
      let mappingDescription := describe request in
      (Ok {| createdMappings := createdMappings lists;
             failures := failures lists ++ [mappingDescription +:+ ": " +:+ Message ex] |},
       log LogError (Some ex) "Failed to create mapping: {MappingDescription}"
         [mappingDescription])
  end.

(** One iteration of the [foreach]: the [try] block, which adds to
    [createdMappings] before it logs, and its [catch]. *)
Definition CreateMappings_body (wiremockBaseUrl : string) (auth : option AuthConfig.t)
    (mapping : WiremockMapping.t) (lists : Lists) : H Lists :=
  fun w =>
    match CreateMappingAsync wiremockBaseUrl mapping auth w with
    | (Ok createdMapping, w', entries) =>
        let lists' := {| createdMappings := createdMappings lists ++ [createdMapping];
                         failures := failures lists |} in
        match deref (WiremockMapping.Request createdMapping) with
        | Ok request =>
            (Ok lists', w',
             entries ++ log LogDebug None
                          "Successfully created mapping: {MappingId} - {Method} {Url}"
                          [interp (WiremockMapping.Id createdMapping);
                           interp (WiremockRequest.Method request);
                           interp (match WiremockRequest.Url request with
                                   | Some u => Some u
                                   | None => WiremockRequest.UrlPattern request
                                   end)])
        | Throw ex =>
            let '(r, entries') := CreateMappings_catch mapping ex lists' in
            (r, w', entries ++ entries')
        end
    | (Throw ex, w', entries) =>
        let '(r, entries') := CreateMappings_catch mapping ex lists in
        (r, w', entries ++ entries')
    end.

Fixpoint CreateMappings_foreach (wiremockBaseUrl : string) (auth : option AuthConfig.t)
    (mappings : list WiremockMapping.t) (lists : Lists) : H Lists :=
  fun w =>
    match mappings with
    | [] => (Ok lists, w, [])
    | mapping :: rest =>
        match CreateMappings_body wiremockBaseUrl auth mapping lists w with
        | (Ok lists', w', entries) =>
            let '(r, w'', entries') :=
              CreateMappings_foreach wiremockBaseUrl auth rest lists' w' in
            (r, w'', entries ++ entries')
        | (Throw ex, w', entries) => (Throw ex, w', entries)
        end
    end.

(** [CreateMappingsAsync] with its locals still in view: what the
    loop leaves in [createdMappings] and [failures]. *)
Definition CreateMappings_run (wiremockBaseUrl : string)
    (mappings : list WiremockMapping.t) (auth : option AuthConfig.t) : H Lists :=
  fun w =>
    let start :=
      log LogInformation None "Starting deployment of {MappingCount} mappings to {BaseUrl}"
        [of_nat (length mappings); wiremockBaseUrl] in
    match CreateMappings_foreach wiremockBaseUrl auth mappings
            {| createdMappings := []; failures := [] |} w with
    | (Ok lists, w', entries) =>
        (Ok lists, w',
         start ++ entries
         ++ log LogInformation None
              "Completed deployment: {SuccessCount}/{TotalCount} mappings created successfully"
              [of_nat (length (createdMappings lists)); of_nat (length mappings)]
         ++ (if failures lists is [] then []
             else log LogWarning None "Failed to create {FailureCount} mappings: {Failures}"
                    [of_nat (length (failures lists)); Join ", " (failures lists)]))
    | (Throw ex, w', entries) => (Throw ex, w', start ++ entries)
    end.

(** [CreateMappingsAsync]: [return createdMappings]. *)
Definition CreateMappingsAsync (wiremockBaseUrl : string)
    (mappings : list WiremockMapping.t) (auth : option AuthConfig.t)
  : H (list WiremockMapping.t) :=
  fun w =>
    match CreateMappings_run wiremockBaseUrl mappings auth w with
    | (Ok lists, w', entries) => (Ok (createdMappings lists), w', entries)
    | (Throw ex, w', entries) => (Throw ex, w', entries)
    end.

(** [JsonSerializer.Deserialize<WiremockMappingsResponse>(content, ...)]:
    the response object, [null] for the document [null], with its
    [Mappings], which an explicit [null] member leaves null. *)
Variable DeserializeMappingsResponse :
  string -> result (option (option (list WiremockMapping.t))).

Definition DeleteMappingAsync (wiremockBaseUrl mappingId : string)
    (auth : option AuthConfig.t) : H bool :=
  fun w =>
    let url := TrimEnd "/" wiremockBaseUrl +:+ "/__admin/mappings/" +:+ mappingId in
    match NewRequest "DELETE" url None auth with
    | Throw ex => (Throw ex, w, [])
    | Ok request =>
        match SendAsync request w with
        | (Ok response, w') =>
            if IsSuccessStatusCode response
            then (Ok true, w',
                  log LogInformation None
                    "Successfully deleted Wiremock mapping: {MappingId}" [mappingId])
            else (Ok false, w',
                  log LogWarning None
                    "Failed to delete Wiremock mapping {MappingId}: {StatusCode}"
                    [mappingId; StatusCode response])
        | (Throw ex, w') =>
            (Ok false, w',
             log LogError (Some ex)
               "Exception occurred while deleting Wiremock mapping: {MappingId}"
               [mappingId])
        end
    end.

Definition GetAllMappingsAsync (wiremockBaseUrl : string) (auth : option AuthConfig.t)
  : H (list WiremockMapping.t) :=
  fun w =>
    let url := TrimEnd "/" wiremockBaseUrl +:+ "/__admin/mappings" in
    let caught ex w' :=
      (Ok [], w',
       log LogError (Some ex) "Exception occurred while getting Wiremock mappings" []) in
    match NewRequest "GET" url None auth with
    | Throw ex => (Throw ex, w, [])
    | Ok request =>
        match SendAsync request w with
        | (Ok response, w') =>
            if negb (IsSuccessStatusCode response)
            then (Ok [], w',
                  log LogError None "Failed to get Wiremock mappings. Status: {StatusCode}"
                    [StatusCode response])
            else
              match DeserializeMappingsResponse (ResponseContent response) with
              | Ok mappingsResponse =>
                  (Ok (default [] (mappingsResponse ≫= fun Mappings => Mappings)), w', [])
              | Throw ex => caught ex w'
              end
        | (Throw ex, w') => caught ex w'
        end
    end.

Definition ResetMappingsAsync (wiremockBaseUrl : string) (auth : option AuthConfig.t)
  : H unit :=
  fun w =>
    let url := TrimEnd "/" wiremockBaseUrl +:+ "/__admin/mappings/reset" in
    match NewRequest "POST" url None auth with
    | Throw ex => (Throw ex, w, [])
    | Ok request =>
        match SendAsync request w with
        | (Ok response, w') =>
            if IsSuccessStatusCode response
            then (Ok tt, w',
                  log LogInformation None "Successfully reset all Wiremock mappings" [])
            else (Ok tt, w',
                  log LogWarning None "Failed to reset Wiremock mappings: {StatusCode}"
                    [StatusCode response])
        | (Throw ex, w') =>
            (Throw ex, w',
             log LogError (Some ex) "Exception occurred while resetting Wiremock mappings"
               [])
        end
    end.

(** *** What a batch amounts to

    [attempts] creates every mapping of the list in turn, whatever the
    earlier outcomes were; [successes] and [failed] read the two lists of
    the batch off those outcomes. *)
Fixpoint attempts (wiremockBaseUrl : string) (auth : option AuthConfig.t)
    (mappings : list WiremockMapping.t) (w : World)
  : list (result WiremockMapping.t) * World :=
  match mappings with
  | [] => ([], w)
  | mapping :: rest =>
      let '(outcome, w', _) := CreateMappingAsync wiremockBaseUrl mapping auth w in
      let '(outcomes, w'') := attempts wiremockBaseUrl auth rest w' in
      (outcome :: outcomes, w'')
  end.

Fixpoint successes (outcomes : list (result WiremockMapping.t)) : list WiremockMapping.t :=
  match outcomes with
  | [] => []
  | Ok createdMapping :: rest => createdMapping :: successes rest
  | Throw _ :: rest => successes rest
  end.

Definition has_request (mapping : WiremockMapping.t) : Prop :=
  WiremockMapping.Request mapping <> None.

Definition description (mapping : WiremockMapping.t) : string :=
  match WiremockMapping.Request mapping with
  | Some request => describe request
  | None => ""
  end.

(** The entry of [failures] for one mapping: the message of the
    exception its create threw, or of the one the success log threw on a
    created mapping without a request. *)
Definition failure (mapping : WiremockMapping.t) (outcome : result WiremockMapping.t)
  : list string :=
  match outcome with
  | Throw ex => [description mapping +:+ ": " +:+ Message ex]
  | Ok createdMapping =>
      match WiremockMapping.Request createdMapping with
      | Some _ => []
      | None => [description mapping +:+ ": " +:+ Message NullReference]
      end
  end.

Fixpoint failed (mappings : list WiremockMapping.t)
    (outcomes : list (result WiremockMapping.t)) : list string :=
  match mappings, outcomes with
  | mapping :: ms, outcome :: os => failure mapping outcome ++ failed ms os
  | _, _ => []
  end.

End Service.
End WiremockAdminService.

(** ** [ConfigController.DeployMappings] *)
Module ConfigController.

Import Str WiremockAdminService.

Record DeployMappingsRequest := {
  TargetUrl : option string;
  Mappings : option (list WiremockMapping.t);
  Auth : option AuthConfig.t }.

(** An element of [deployed.mappings]. *)
Record MappingSummary := {
  id : option string;
  method : option string;
  url : option string }.

(** [deployed.mappings] is the deferred [Select] over the deployed
    mappings: an element is computed, and may throw, when it is read. *)
Record Deployed := {
  target : string;
  mappingsCount : nat;
  mappings : list (result MappingSummary) }.

(** The responses of the action: [BadRequest(new { success, message })],
    [Ok(new { success, message, deployed })] and
    [StatusCode(500, new { success, message, error })]. *)
Inductive IActionResult :=
  | BadRequest (success : bool) (message : string)
  | Ok_ (success : bool) (message : string) (deployed : Deployed)
  | StatusCode (code : Z) (success : bool) (message error : string).

Section Controller.

Variable World : Type.
Variable SendAsync : HttpRequestMessage -> World -> result HttpResponseMessage * World.
Variable Serialize : WiremockMapping.t -> string.
Variable Deserialize : string -> result (option WiremockMapping.t).
Variable ToBase64String : string -> string.
Variable UriFormatError : string -> option Exception.
Variable HeaderFormatError : string -> string -> option Exception.

Definition summary (m : WiremockMapping.t) : result MappingSummary :=
  request ← deref (WiremockMapping.Request m);
  mret {| id := WiremockMapping.Id m;
          method := WiremockRequest.Method request;
          url := match WiremockRequest.Url request with
                 | Some u => Some u
                 | None => WiremockRequest.UrlPattern request
                 end |}.

(** The [try] block of [DeployMappings]. *)
Definition DeployMappings_try (request : DeployMappingsRequest) : H World IActionResult :=
  fun w =>
    match TargetUrl request with
    | None =>
        (Ok (BadRequest false "Target URL is required"), w,
         log LogWarning None "Deploy mappings request missing target URL" [])
    | Some targetUrl =>
        if all_white targetUrl
        then (Ok (BadRequest false "Target URL is required"), w,
              log LogWarning None "Deploy mappings request missing target URL" [])
        else
          match Mappings request with
          | None | Some [] =>
              (Ok (BadRequest false "At least one mapping is required"), w,
               log LogWarning None "Deploy mappings request has no mappings" [])
          | Some mappings =>
              let start :=
                log LogInformation None "Deploying {MappingCount} mappings to {TargetUrl}"
                  [of_nat (length mappings); targetUrl] in
              match CreateMappingsAsync World SendAsync Serialize Deserialize
                  ToBase64String UriFormatError HeaderFormatError
                      targetUrl mappings (Auth request) w with
              | (Throw ex, w', entries) => (Throw ex, w', start ++ entries)
              | (Ok deployedMappings, w', entries) =>
                  (Ok (Ok_ true
                         ("Successfully deployed " +:+ of_nat (length deployedMappings)
                          +:+ " mappings to " +:+ targetUrl)
                         {| target := targetUrl;
                            mappingsCount := length deployedMappings;
                            mappings := map summary deployedMappings |}),
                   w',
                   start ++ entries
                   ++ log LogInformation None
                        "Successfully deployed {DeployedCount} mappings to {TargetUrl}"
                        [of_nat (length deployedMappings); targetUrl])
              end
          end
    end.

Definition DeployMappings (request : DeployMappingsRequest) : H World IActionResult :=
  fun w =>
    match DeployMappings_try request w with
    | (Ok response, w', entries) => (Ok response, w', entries)
    | (Throw ex, w', entries) =>
        (Ok (StatusCode 500 false ("Failed to deploy mappings: " +:+ Message ex) (Message ex)),
         w',
         entries ++ log LogError (Some ex) "Deployment failed for target {TargetUrl}"
                      [interp (TargetUrl request)])
    end.

End Controller.

(** *** [ResetWiremockMappings] and [GetWiremockMappings] *)

(** Modelled from the spec: the request classes [ResetWiremockRequest]
    and [GetMappingsRequest], whose declarations are not among the
    sources, with the two properties the actions read. *)
Module ResetWiremockRequest.
Record t := { TargetUrl : option string; Auth : option AuthConfig.t }.
End ResetWiremockRequest.

Module GetMappingsRequest.
Record t := { TargetUrl : option string; Auth : option AuthConfig.t }.
End GetMappingsRequest.

(** The responses of these actions: [Ok(value)],
    [BadRequest(new { success, message })] and
    [StatusCode(500, new { success, message, error })]. *)
Inductive ActionResult (A : Type) :=
  | Ok200 (value : A)
  | BadRequest400 (success : bool) (message : string)
  | Status500 (success : bool) (message error : string).

Arguments Ok200 {A} value.
Arguments BadRequest400 {A} success message.
Arguments Status500 {A} success message error.

Module ResetResponse.
Record t := { success : bool; message : string }.
End ResetResponse.

Module MappingsResponse.
Record t := {
  success : bool;
  mappings : list WiremockMapping.t;
  count : nat;
  target : string }.
End MappingsResponse.

Section Actions.

Variable World : Type.
Variable SendAsync : HttpRequestMessage -> World -> result HttpResponseMessage * World.
Variable ToBase64String : string -> string.
Variable UriFormatError : string -> option Exception.
Variable HeaderFormatError : string -> string -> option Exception.
Variable DeserializeMappingsResponse :
  string -> result (option (option (list WiremockMapping.t))).

(** The [try] block of [ResetWiremockMappings]. *)
Definition ResetWiremockMappings_try (request : ResetWiremockRequest.t)
  : H World (ActionResult ResetResponse.t) :=
  fun w =>
    let missing :=
      (Ok (BadRequest400 false "Target URL is required"), w,
       log LogWarning None "Reset wiremock request missing target URL" []) in
    match ResetWiremockRequest.TargetUrl request with
    | None => missing
    | Some targetUrl =>
        if all_white targetUrl then missing
        else
          let start :=
            log LogInformation None "Resetting all mappings on {TargetUrl}" [targetUrl] in
          match ResetMappingsAsync World SendAsync
              ToBase64String UriFormatError HeaderFormatError targetUrl
                  (ResetWiremockRequest.Auth request) w with
          | (Throw ex, w', entries) => (Throw ex, w', start ++ entries)
          | (Ok _, w', entries) =>
              (Ok (Ok200 {| ResetResponse.success := true;
                            ResetResponse.message :=
                              "Successfully reset all mappings on " +:+ targetUrl |}),
               w',
               start ++ entries
               ++ log LogInformation None "Successfully reset all mappings on {TargetUrl}"
                    [targetUrl])
          end
    end.

Definition ResetWiremockMappings (request : ResetWiremockRequest.t)
  : H World (ActionResult ResetResponse.t) :=
  fun w =>
    match ResetWiremockMappings_try request w with
    | (Ok response, w', entries) => (Ok response, w', entries)
    | (Throw ex, w', entries) =>
        (Ok (Status500 false ("Failed to reset mappings: " +:+ Message ex) (Message ex)),
         w',
         entries ++ log LogError (Some ex) "Reset failed for target {TargetUrl}"
                      [interp (ResetWiremockRequest.TargetUrl request)])
    end.

(** The [try] block of [GetWiremockMappings]. *)
Definition GetWiremockMappings_try (request : GetMappingsRequest.t)
  : H World (ActionResult MappingsResponse.t) :=
  fun w =>
    let missing :=
      (Ok (BadRequest400 false "Target URL is required"), w,
       log LogWarning None "Get mappings request missing target URL" []) in
    match GetMappingsRequest.TargetUrl request with
    | None => missing
    | Some targetUrl =>
        if all_white targetUrl then missing
        else
          let start := log LogInformation None "Fetching mappings from {TargetUrl}" [targetUrl] in
          match GetAllMappingsAsync World SendAsync ToBase64String UriFormatError HeaderFormatError
                  DeserializeMappingsResponse targetUrl (GetMappingsRequest.Auth request) w with
          | (Throw ex, w', entries) => (Throw ex, w', start ++ entries)
          | (Ok mappings, w', entries) =>
              (Ok (Ok200 {| MappingsResponse.success := true;
                            MappingsResponse.mappings := mappings;
                            MappingsResponse.count := length mappings;
                            MappingsResponse.target := targetUrl |}),
               w',
               start ++ entries
               ++ log LogInformation None
                    "Successfully retrieved {MappingCount} mappings from {TargetUrl}"
                    [of_nat (length mappings); targetUrl])
          end
    end.

Definition GetWiremockMappings (request : GetMappingsRequest.t)
  : H World (ActionResult MappingsResponse.t) :=
  fun w =>
    match GetWiremockMappings_try request w with
    | (Ok response, w', entries) => (Ok response, w', entries)
    | (Throw ex, w', entries) =>
        (Ok (Status500 false ("Failed to get mappings: " +:+ Message ex) (Message ex)),
         w',
         entries ++ log LogError (Some ex) "Failed to get mappings from {TargetUrl}"
                      [interp (GetMappingsRequest.TargetUrl request)])
    end.

End Actions.

(** *** [GenerateMappings] and [ValidateAndDeployConfig]

    These actions go through the three services: the store of
    [MappingService] and the stub server are both threaded through. *)

(** The responses: [Ok(value)],
    [BadRequest(new { success, message, validation })],
    [BadRequest(new { success, message })] and
    [StatusCode(500, new { success, message, error })]. *)
Inductive ConfigResult (A : Type) :=
  | OkObject (value : A)
  | BadRequestValidation (success : bool) (message : string)
      (validation : ValidationResult.t)
  | BadRequestMessage (success : bool) (message : string)
  | StatusCode500 (success : bool) (message error : string).

Arguments OkObject {A} value.
Arguments BadRequestValidation {A} success message validation.
Arguments BadRequestMessage {A} success message.
Arguments StatusCode500 {A} success message error.

(** The value of the [Ok] of [ValidateAndDeployConfig]. *)
Module DeployResponse.
Record t := {
  success : bool;
  message : string;
  validation : ValidationResult.t;
  deployed : Deployed }.
End DeployResponse.

Section Generation.

Variable World : Type.
Variable SendAsync : HttpRequestMessage -> World -> result HttpResponseMessage * World.
Variable Serialize : WiremockMapping.t -> string.
Variable Deserialize : string -> result (option WiremockMapping.t).
Variable ToBase64String : string -> string.
Variable UriFormatError : string -> option Exception.
Variable HeaderFormatError : string -> string -> option Exception.
Variable IsAbsoluteUri : string -> bool.
Variable DeserializeATOMConfig : json -> result (option ATOMConfig.t).
Variable DeserializeJsonConfig : json -> result (option JsonConfig.t).
Variable NewGuidString : nat -> string.
(** [configJson.GetRawText()]. *)
Variable GetRawText : json -> string.

(** The deserializer builds the mappings of a legacy document as
    objects of their own. *)
Definition materialize (Mappings : option (list WiremockMapping.t))
  : MappingService.M (option (list MappingService.loc)) :=
  match Mappings with
  | Some ms => refs ← MappingService.alloc_all ms; mret (Some refs)
  | None => mret None
  end.

(** The objects behind the references a service returned. *)
Fixpoint read_all (σ : MappingService.State) (refs : list MappingService.loc)
  : result (list WiremockMapping.t) :=
  match refs with
  | [] => mret []
  | ref :: rest =>
      m ← deref (MappingService.heap σ !! ref);
      ms ← read_all σ rest;
      mret (m :: ms)
  end.

(** [TryGetProperty("mocks", out var mocksProperty)
    && mocksProperty.ValueKind == JsonValueKind.Array]. *)
Definition isAtomConfig (mocksProperty : option json) : bool :=
  if mocksProperty is Some (JArr _) then true else false.

(** The [try] block of [GenerateMappings]. *)
Definition GenerateMappings_try (configJson : json) (σ : MappingService.State)
  : result (ConfigResult (list MappingService.loc)) * MappingService.State * list LogEntry :=
  let start :=
    log LogInformation None
      "Received JSON for mapping generation: {ConfigLength} characters"
      [of_nat (String.length (GetRawText configJson))] in
  match ConfigValidationService.ValidateConfigFromJson IsAbsoluteUri
          DeserializeATOMConfig DeserializeJsonConfig configJson with
  | Throw ex => (Throw ex, σ, start)
  | Ok validationResult =>
      if negb (ValidationResult.IsValid validationResult)
      then (Ok (BadRequestValidation false "Configuration validation failed"
                  validationResult),
            σ,
            start ++ log LogWarning None
                       "Configuration validation failed with {ErrorCount} errors"
                       [of_nat (length (ValidationResult.Errors validationResult))])
      else
        match ConfigValidationService.TryGetProperty configJson "mocks" with
        | Throw ex => (Throw ex, σ, start)
        | Ok mocksProperty =>
            let generated (mappings : list MappingService.loc) :=
              log LogInformation None "Generated {MappingCount} mappings successfully"
                [of_nat (length mappings)] in
            if isAtomConfig mocksProperty
            then
              let entries := start ++ log LogInformation None "Processing ATOM config format" [] in
              match DeserializeATOMConfig configJson with
              | Throw ex => (Throw ex, σ, entries)
              | Ok None =>
                  (Ok (BadRequestMessage false "Failed to deserialize ATOM config"), σ,
                   entries ++ log LogError None "Failed to deserialize ATOM config" [])
              | Ok (Some atomConfig) =>
                  match MappingService.GenerateMappingsFromATOMAsync NewGuidString
                          atomConfig σ with
                  | (Throw ex, σ') => (Throw ex, σ', entries)
                  | (Ok mappings, σ') =>
                      (Ok (OkObject mappings), σ', entries ++ generated mappings)
                  end
              end
            else
              let entries :=
                start ++ log LogInformation None "Processing legacy config format" [] in
              match DeserializeJsonConfig configJson with
              | Throw ex => (Throw ex, σ, entries)
              | Ok None =>
                  (Ok (BadRequestMessage false "Failed to deserialize legacy config"), σ,
                   entries ++ log LogError None "Failed to deserialize legacy config" [])
              | Ok (Some legacyConfig) =>
                  match (Mappings ← materialize (JsonConfig.Mappings legacyConfig);
                         MappingService.GenerateMappingsAsync NewGuidString Mappings) σ with
                  | (Throw ex, σ') => (Throw ex, σ', entries)
                  | (Ok mappings, σ') =>
                      (Ok (OkObject mappings), σ', entries ++ generated mappings)
                  end
              end
        end
  end.

Definition GenerateMappings (configJson : json) (σ : MappingService.State)
  : result (ConfigResult (list MappingService.loc)) * MappingService.State * list LogEntry :=
  match GenerateMappings_try configJson σ with
  | (Ok response, σ', entries) => (Ok response, σ', entries)
  | (Throw ex, σ', entries) =>
      (Ok (StatusCode500 false ("Failed to generate mappings: " +:+ Message ex) (Message ex)),
       σ',
       entries ++ log LogError (Some ex) "Mapping generation failed" [])
  end.

(** The last part of the [try] block of [ValidateAndDeployConfig]:
    deployment of the generated mappings and the response. *)
Definition deploy (validationResult : ValidationResult.t) (targetBaseUrl : string)
    (authConfig : option AuthConfig.t) (mappings : list MappingService.loc)
    (σ : MappingService.State) (w : World)
  : result (ConfigResult DeployResponse.t) * World * list LogEntry :=
  let start :=
    log LogInformation None "Generated {MappingCount} mappings, deploying to {TargetUrl}"
      [of_nat (length mappings); targetBaseUrl] in
  match read_all σ mappings with
  | Throw ex => (Throw ex, w, start)
  | Ok objects =>
      match CreateMappingsAsync World SendAsync Serialize Deserialize
          ToBase64String UriFormatError HeaderFormatError
              targetBaseUrl objects authConfig w with
      | (Throw ex, w', entries) => (Throw ex, w', start ++ entries)
      | (Ok deployedMappings, w', entries) =>
          (Ok (OkObject
                 {| DeployResponse.success := true;
                    DeployResponse.message :=
                      "Successfully validated and deployed "
                      +:+ of_nat (length deployedMappings) +:+ " mappings to "
                      +:+ targetBaseUrl;
                    DeployResponse.validation := validationResult;
                    DeployResponse.deployed :=
                      {| target := targetBaseUrl;
                         mappingsCount := length deployedMappings;
                         mappings := map summary deployedMappings |} |}),
           w',
           start ++ entries
           ++ log LogInformation None
                "Successfully deployed {DeployedCount} mappings to {TargetUrl}"
                [of_nat (length deployedMappings); targetBaseUrl])
      end
  end.

(** The [try] block of [ValidateAndDeployConfig]. *)
Definition ValidateAndDeployConfig_try (configJson : json) (σ : MappingService.State)
    (w : World)
  : result (ConfigResult DeployResponse.t) * MappingService.State * World * list LogEntry :=
  let start :=
    log LogInformation None
      "Received JSON for validation and deployment: {ConfigLength} characters"
      [of_nat (String.length (GetRawText configJson))] in
  match ConfigValidationService.ValidateConfigFromJson IsAbsoluteUri
          DeserializeATOMConfig DeserializeJsonConfig configJson with
  | Throw ex => (Throw ex, σ, w, start)
  | Ok validationResult =>
      let start :=
        start ++ log LogInformation None
                   "Validation result: IsValid={IsValid}, Errors={ErrorCount}"
                   [if ValidationResult.IsValid validationResult then "True" else "False";
                    of_nat (length (ValidationResult.Errors validationResult))] in
      if negb (ValidationResult.IsValid validationResult)
      then (Ok (BadRequestValidation false "Configuration validation failed"
                  validationResult),
            σ, w,
            start ++ log LogWarning None
                       "Configuration validation failed, deployment aborted" [])
      else
        match ConfigValidationService.TryGetProperty configJson "mocks" with
        | Throw ex => (Throw ex, σ, w, start)
        | Ok mocksProperty =>
            if isAtomConfig mocksProperty
            then
              let entries :=
                start ++ log LogInformation None "Processing ATOM config for deployment" [] in
              match DeserializeATOMConfig configJson with
              | Throw ex => (Throw ex, σ, w, entries)
              | Ok None =>
                  (Ok (BadRequestMessage false "Failed to deserialize ATOM config"), σ, w,
                   entries ++ log LogError None "Failed to deserialize ATOM config" [])
              | Ok (Some atomConfig) =>
                  let missing :=
                    (Ok (BadRequestMessage false "Target baseUrl is required for ATOM config"),
                     σ, w,
                     entries ++ log LogError None "Target baseUrl is missing in ATOM config" [])
                  in
                  match ATOMConfig.Target atomConfig with
                  | None => missing
                  | Some Target =>
                      match TargetConfig.BaseUrl Target with
                      | None => missing
                      | Some targetBaseUrl =>
                          if all_white targetBaseUrl then missing
                          else
                            match MappingService.GenerateMappingsFromATOMAsync NewGuidString
                                    atomConfig σ with
                            | (Throw ex, σ') => (Throw ex, σ', w, entries)
                            | (Ok mappings, σ') =>
                                let '(r, w', entries') :=
                                  deploy validationResult targetBaseUrl
                                    (TargetConfig.Auth Target) mappings σ' w in
                                (r, σ', w', entries ++ entries')
                            end
                      end
                  end
              end
            else
              let entries :=
                start ++ log LogInformation None "Processing legacy config for deployment" []
              in
              match DeserializeJsonConfig configJson with
              | Throw ex => (Throw ex, σ, w, entries)
              | Ok None =>
                  (Ok (BadRequestMessage false "Failed to deserialize legacy config"), σ, w,
                   entries ++ log LogError None "Failed to deserialize legacy config" [])
              | Ok (Some legacyConfig) =>
                  let targetBaseUrl :=
                    default "http://localhost:8080" (JsonConfig.BaseUrl legacyConfig) in
                  match (Mappings ← materialize (JsonConfig.Mappings legacyConfig);
                         MappingService.GenerateMappingsAsync NewGuidString Mappings) σ with
                  | (Throw ex, σ') => (Throw ex, σ', w, entries)
                  | (Ok mappings, σ') =>
                      let '(r, w', entries') :=
                        deploy validationResult targetBaseUrl None mappings σ' w in
                      (r, σ', w', entries ++ entries')
                  end
              end
        end
  end.

Definition ValidateAndDeployConfig (configJson : json) (σ : MappingService.State)
    (w : World)
  : result (ConfigResult DeployResponse.t) * MappingService.State * World * list LogEntry :=
  match ValidateAndDeployConfig_try configJson σ w with
  | (Ok response, σ', w', entries) => (Ok response, σ', w', entries)
  | (Throw ex, σ', w', entries) =>
      (Ok (StatusCode500 false ("Failed to validate and deploy config: " +:+ Message ex)
             (Message ex)),
       σ', w',
       entries ++ log LogError (Some ex) "Validation and deployment failed" [])
  end.

End Generation.
End ConfigController.

(** ** The client: [SimpleValidator] and [ValidationService]

    The document is an untyped value; member access, truthiness and the
    comparisons follow the language: reading a member of [null] or
    [undefined] throws a [TypeError].  Members are an object's own ones:
    what every object inherits from the built-in prototypes
    ([constructor], [toString] and the like) is left out, so a document
    is read as the code reads it as long as no name it is asked for, and
    no key it holds, is the name of a member of those prototypes. *)
Module Client.

Import Str.

(** A schema node, with the annotations [SimpleValidator] reads. *)
Inductive Schema := mkSchema {
  type : option string;
  required : option (list string);
  enum : option (list json);
  minimum : option Q;
  format : option string;
  properties : option (list (string * Schema));
  items : option Schema;
  additionalProperties : option Schema;
  oneOf : option (list Schema) }.

Definition error (path message : string) : ValidationError.t :=
  {| ValidationError.Path := path;
     ValidationError.Message := message;
     ValidationError.Severity := "error" |}.

Definition warning (path message : string) : ValidationError.t :=
  {| ValidationError.Path := path;
     ValidationError.Message := message;
     ValidationError.Severity := "warning" |}.

Definition typeof (data : json) : string :=
  match data with
  | JUndefined => "undefined"
  | JNull | JArr _ | JObj _ => "object"
  | JBool _ => "boolean"
  | JNum _ => "number"
  | JStr _ => "string"
  end.

Definition isArray (data : json) : bool :=
  if data is JArr _ then true else false.

(** [Number.isInteger]. *)
Definition isInteger (data : json) : bool :=
  match data with
  | JNum q => Pos.eqb (Qden (Qred q)) 1
  | _ => false
  end.

Definition truthy (data : json) : bool :=
  match data with
  | JUndefined | JNull => false
  | JBool b => b
  | JNum q => negb (Qeq_bool q (inject_Z 0))
  | JStr s => negb (Str.eqb s "")
  | JArr _ | JObj _ => true
  end.

(** [a === b] against a string literal. *)
Definition is_string (data : json) (literal : string) : bool :=
  match data with
  | JStr s => Str.eqb s literal
  | _ => false
  end.

(** [Array.prototype.includes]: primitives compare by value, an object
    is only ever equal to itself. *)
Definition same_value (a b : json) : bool :=
  match a, b with
  | JUndefined, JUndefined | JNull, JNull => true
  | JBool x, JBool y => Bool.eqb x y
  | JNum x, JNum y => Qeq_bool x y
  | JStr x, JStr y => Str.eqb x y
  | _, _ => false
  end.

Definition includes (values : list json) (data : json) : bool :=
  existsb (same_value data) values.

Fixpoint lookup_member {A} (key : string) (members : list (string * A)) : option A :=
  match members with
  | [] => None
  | (k, v) :: rest => if Str.eqb k key then Some v else lookup_member key rest
  end.

Fixpoint indexed {A} (i : nat) (l : list A) : list (nat * A) :=
  match l with
  | [] => []
  | x :: rest => (i, x) :: indexed (S i) rest
  end.

(** [Object.entries(data)] for a [data] with [typeof data === 'object']
    that is not [null]. *)
Definition entries (data : json) : list (string * json) :=
  match data with
  | JObj members => members
  | JArr elements => map (fun '(i, x) => (of_nat i, x)) (indexed 0 elements)
  | _ => []
  end.

(** [key in data]. *)
Definition has_member (key : string) (data : json) : bool :=
  match data with
  | JArr _ =>
      Str.eqb key "length"
      || (if lookup_member key (entries data) is Some _ then true else false)
  | _ => if lookup_member key (entries data) is Some _ then true else false
  end.

(** [path ? `${path}.${key}` : key]. *)
Definition child (path key : string) : string :=
  if Str.eqb path "" then key else path +:+ "." +:+ key.

Section Engine.

(** The number-to-string and string-to-number conversions of the
    language ([None] is [NaN]) and whether [new URL(s)] succeeds. *)
Variable NumberToString : Q -> string.
Variable StringToNumber : string -> option Q.
Variable URL_parses : string -> bool.

(** A value inside a template literal.  An object prints as
    [[object Object]], which is what the code gives for an object that
    has no member named [toString] or [valueOf] of its own. *)
Fixpoint ToString (data : json) : string :=
  match data with
  | JUndefined => "undefined"
  | JNull => "null"
  | JBool true => "true"
  | JBool false => "false"
  | JNum q => NumberToString q
  | JStr s => s
  | JArr elements =>
      Join "," (map (fun x => match x with
                              | JUndefined | JNull => ""
                              | _ => ToString x
                              end) elements)
  | JObj _ => "[object Object]"
  end.

(** [values.join(sep)]. *)
Definition join (sep : string) (values : list json) : string :=
  Join sep (map (fun x => match x with
                          | JUndefined | JNull => ""
                          | _ => ToString x
                          end) values).

(** The operand of a comparison with a number. *)
Definition ToNumber (data : json) : option Q :=
  match data with
  | JUndefined => None
  | JNull => Some (inject_Z 0)
  | JBool true => Some (inject_Z 1)
  | JBool false => Some (inject_Z 0)
  | JNum q => Some q
  | JStr s => StringToNumber s
  | JArr _ | JObj _ => StringToNumber (ToString data)
  end.

(** [data < n] and [data >= n]: false when [data] is not a number. *)
Definition less_than (data : json) (n : Q) : bool :=
  match ToNumber data with
  | Some q => negb (Qle_bool n q)
  | None => false
  end.

Definition at_least (data : json) (n : Q) : bool :=
  match ToNumber data with
  | Some q => Qle_bool n q
  | None => false
  end.

(** *** [SimpleValidator.validate] *)

(** The kind the first block expects when it returns early. *)
Definition type_mismatch (type : option string) (data : json) : option string :=
  match type with
  | None => None
  | Some t =>
      if Str.eqb t "object" && negb (Str.eqb (typeof data) "object") then Some "object"
      else if Str.eqb t "array" && negb (isArray data) then Some "array"
      else if Str.eqb t "string" && negb (Str.eqb (typeof data) "string") then Some "string"
      else if Str.eqb t "integer" && negb (isInteger data) then Some "integer"
      else if Str.eqb t "boolean" && negb (Str.eqb (typeof data) "boolean") then Some "boolean"
      else None
  end.

Definition is_object (data : json) : bool :=
  Str.eqb (typeof data) "object" && negb (if data is JNull then true else false).

Definition required_errors (type : option string) (required : option (list string))
    (data : json) (path : string) : list ValidationError.t :=
  match required, type with
  | Some reqArray, Some "object" =>
      flat_map (fun reqProp =>
                  if match data with
                     | JNull | JUndefined => true
                     | _ => negb (has_member reqProp data)
                     end
                  then [error (path +:+ "." +:+ reqProp)
                          ("Required property '" +:+ reqProp +:+ "' is missing")]
                  else []) reqArray
  | _, _ => []
  end.

Definition enum_errors (enum : option (list json)) (data : json) (path : string)
  : list ValidationError.t :=
  match enum with
  | Some values =>
      if negb (includes values data)
      then [error path ("Value '" +:+ ToString data
                        +:+ "' is not allowed. Expected one of: " +:+ join ", " values)]
      else []
  | None => []
  end.

Definition minimum_errors (minimum : option Q) (data : json) (path : string)
  : list ValidationError.t :=
  match minimum, data with
  | Some m, JNum q =>
      if negb (Qle_bool m q)
      then [error path ("Value " +:+ NumberToString q +:+ " is less than minimum "
                        +:+ NumberToString m)]
      else []
  | _, _ => []
  end.

Definition format_errors (format : option string) (data : json) (path : string)
  : list ValidationError.t :=
  match format, data with
  | Some "uri", JStr s =>
      if URL_parses s then [] else [error path ("Invalid URI format: " +:+ s)]
  | _, _ => []
  end.

(** What the [oneOf] block pushes, given how many alternatives
    validated without an error. *)
Definition oneOf_errors (matching : nat) (path : string) : list ValidationError.t :=
  if (matching =? 0)%nat
  then [error path "Data does not match any of the required schemas"]
  else if (1 <? matching)%nat
  then [error path "Data matches multiple schemas when only one is allowed"]
  else [].

Fixpoint validate (schema : Schema) (data : json) (path : string) {struct schema}
  : list ValidationError.t :=
  match schema with
  | mkSchema type required enum minimum format properties items additionalProperties oneOf =>
      match type_mismatch type data with
      | Some expected =>
          [error path ("Expected " +:+ expected +:+ ", got " +:+ typeof data)]
      | None =>
          required_errors type required data path
          ++ enum_errors enum data path
          ++ minimum_errors minimum data path
          ++ format_errors format data path
          ++ match properties with
             | Some props =>
                 if is_object data
                 then flat_map
                        (fun '(key, value) =>
                           (fix at_key (ps : list (string * Schema)) : list ValidationError.t :=
                              match ps with
                              | [] => []
                              | (k, sub) :: rest =>
                                  if Str.eqb k key
                                  then validate sub value (child path key)
                                  else at_key rest
                              end) props)
                        (entries data)
                 else []
             | None => []
             end
          ++ match items, data with
             | Some sub, JArr elements =>
                 flat_map (fun '(index, item) =>
                             validate sub item (path +:+ "[" +:+ of_nat index +:+ "]"))
                   (indexed 0 elements)
             | _, _ => []
             end
          ++ match additionalProperties with
             | Some sub =>
                 if is_object data
                 then
                   let props := default [] properties in
                   flat_map (fun '(key, value) =>
                               if lookup_member key props is Some _ then []
                               else validate sub value (child path key))
                     (entries data)
                 else []
             | None => []
             end
          ++ match oneOf with
             | Some alternatives =>
                 let matchingSchemas :=
                   List.filter (fun subSchema =>
                                  (length (validate subSchema data path) =? 0)%nat)
                     alternatives in
                 oneOf_errors (length matchingSchemas) path
             | None => []
             end
      end
  end.

(** The same node without its [oneOf] annotation. *)
Definition without_oneOf (schema : Schema) : Schema :=
  mkSchema (type schema) (required schema) (enum schema) (minimum schema)
    (format schema) (properties schema) (items schema)
    (additionalProperties schema) None.

(** How many of the alternatives validate [data] with no error. *)
Fixpoint valid_alternatives (alternatives : list Schema) (data : json) (path : string)
  : nat :=
  match alternatives with
  | [] => O
  | sub :: rest =>
      ((if validate sub data path is [] then 1 else 0)
       + valid_alternatives rest data path)%nat
  end.

(** *** [ATOM_SCHEMA]
    ([$schema], [title], [$defs], [$ref] and [const] are annotations
    the validator never reads: a node that carries only those is
    [anything].) *)
Definition anything : Schema :=
  mkSchema None None None None None None None None None.
Definition typed (t : string) : Schema :=
  mkSchema (Some t) None None None None None None None None.
Definition integer_from (m : Z) : Schema :=
  mkSchema (Some "integer") None None (Some (inject_Z m)) None None None None None.
Definition uri : Schema :=
  mkSchema (Some "string") None None None (Some "uri") None None None None.
Definition one_of_strings (values : list string) : Schema :=
  mkSchema None None (Some (map JStr values)) None None None None None None.
Definition object (req : option (list string)) (props : list (string * Schema)) : Schema :=
  mkSchema (Some "object") req None None None (Some props) None None None.
Definition map_of (sub : Schema) : Schema :=
  mkSchema (Some "object") None None None None None None (Some sub) None.
Definition array_of (sub : Schema) : Schema :=
  mkSchema (Some "array") None None None None None (Some sub) None None.

Definition requestMatcher : Schema :=
  object None [("equalTo", typed "string"); ("contains", typed "string");
               ("matches", typed "string")].

Definition bodySchema : Schema :=
  mkSchema (Some "object") None None None None
    (Some [("type", one_of_strings ["inline"; "file"]); ("value", typed "string");
           ("fileName", typed "string"); ("templating", typed "boolean")])
    None None
    (Some [mkSchema None (Some ["type"; "value"]) None None None
             (Some [("type", anything); ("value", typed "string")]) None None None;
           mkSchema None (Some ["type"; "fileName"]) None None None
             (Some [("type", anything); ("fileName", typed "string")]) None None None]).

Definition requestSchema : Schema :=
  object (Some ["method"])
    [("method", one_of_strings ["GET"; "POST"; "PUT"; "DELETE"; "PATCH"; "HEAD";
                                "OPTIONS"; "ANY"]);
     ("url", typed "string"); ("urlPattern", typed "string");
     ("urlPath", typed "string"); ("urlPathPattern", typed "string");
     ("pathTemplate", typed "string");
     ("queryParameters", map_of requestMatcher);
     ("headers", anything); ("cookies", anything);
     ("bodyPatterns",
      array_of (object None
                  [("equalToJson",
                    object None [("json", typed "string");
                                 ("ignoreExtraElements", typed "boolean");
                                 ("ignoreArrayOrder", typed "boolean")]);
                   ("matchesJsonPath", typed "string")]))].

Definition responseSchema : Schema :=
  object (Some ["status"])
    [("status", typed "integer");
     ("headers", map_of (typed "string"));
     ("fixedDelayMilliseconds", integer_from 0);
     ("proxyBaseUrl", uri);
     ("body", bodySchema)].

Definition mockSchema : Schema :=
  object (Some ["request"; "response"])
    [("name", typed "string"); ("priority", integer_from 1);
     ("request", requestSchema); ("response", responseSchema);
     ("scenario", object None [("name", typed "string");
                               ("requiredState", typed "string");
                               ("newState", typed "string")]);
     ("metadata", typed "object")].

Definition ATOM_SCHEMA : Schema :=
  object (Some ["version"; "mocks"])
    [("version", typed "string");
     ("target",
      object (Some ["baseUrl"])
        [("baseUrl", uri);
         ("auth", object None [("type", one_of_strings ["none"; "basic"; "bearer"]);
                               ("username", typed "string");
                               ("password", typed "string");
                               ("token", typed "string")])]);
     ("defaults",
      object None [("priority", integer_from 1);
                   ("headers", map_of (typed "string"));
                   ("templating", object None [("enabled", typed "boolean")])]);
     ("mocks", array_of mockSchema)].

(** *** [ValidationService] *)

Definition type_error (message : string) : Exception :=
  {| ExType := TypeError; Message := message |}.

(** [o.key]. *)
Definition get (o : json) (key : string) : result json :=
  match o with
  | JUndefined =>
      Throw (type_error ("Cannot read properties of undefined (reading '" +:+ key +:+ "')"))
  | JNull =>
      Throw (type_error ("Cannot read properties of null (reading '" +:+ key +:+ "')"))
  | JObj members => mret (default JUndefined (lookup_member key members))
  | _ => mret JUndefined
  end.

Definition push_if {A} (cond : bool) (e : A) : list A :=
  if cond then [e] else [].

(** The callback of [config.mocks?.forEach]: what it pushes to
    [errors] for [mock] at [index]. *)
Definition forEach_mock (config mock : json) (index : nat) : result (list ValidationError.t) :=
  let prefix := "mocks[" +:+ of_nat index +:+ "]" in
  request ← get mock "request";
  url ← get request "url";
  urlPattern ← get request "urlPattern";
  urlPath ← get request "urlPath";
  urlPathPattern ← get request "urlPathPattern";
  pathTemplate ← get request "pathTemplate";
  let hasUrlMatch :=
    truthy url || truthy urlPattern || truthy urlPath || truthy urlPathPattern
    || truthy pathTemplate in
  let e1 := push_if (negb hasUrlMatch)
              (warning (prefix +:+ ".request")
                 "Request must have at least one URL matching property (url, urlPattern, urlPath, urlPathPattern, or pathTemplate)") in
  response ← get mock "response";
  status ← get response "status";
  let e2 := push_if (less_than status (inject_Z 100) || at_least status (inject_Z 600))
              (error (prefix +:+ ".response.status")
                 ("Invalid HTTP status code: " +:+ ToString status
                  +:+ ". Must be between 100-599")) in
  body ← get response "body";
  e3 ← (if truthy body then
          type ← get body "type";
          value ← get body "value";
          fileName ← get body "fileName";
          mret (push_if (is_string type "inline" && negb (truthy value))
                  (error (prefix +:+ ".response.body")
                     "Inline response body must have a value")
                ++ push_if (is_string type "file" && negb (truthy fileName))
                     (error (prefix +:+ ".response.body")
                        "File response body must have a fileName"))
        else mret []);
  target ← get config "target";
  auth ← (match target with
          | JUndefined | JNull => mret JUndefined
          | _ => get target "auth"
          end);
  e4 ← (if truthy auth then
          type ← get auth "type";
          username ← get auth "username";
          password ← get auth "password";
          token ← get auth "token";
          mret (push_if (is_string type "basic"
                         && (negb (truthy username) || negb (truthy password)))
                  (error "target.auth"
                     "Basic authentication requires both username and password")
                ++ push_if (is_string type "bearer" && negb (truthy token))
                     (error "target.auth" "Bearer authentication requires a token"))
        else mret []);
  let e5 := push_if (truthy url
                     && (truthy urlPattern || truthy urlPath || truthy urlPathPattern))
              (warning (prefix +:+ ".request")
                 "Using both exact URL and URL patterns may cause conflicts") in
  mret (e1 ++ e2 ++ e3 ++ e4 ++ e5).

Fixpoint forEach_mocks (config : json) (mocks : list (nat * json))
  : result (list ValidationError.t) :=
  match mocks with
  | [] => mret []
  | (index, mock) :: rest =>
      e ← forEach_mock config mock index;
      es ← forEach_mocks config rest;
      mret (e ++ es)
  end.

Definition validateBusinessLogic (config : json) : result (list ValidationError.t) :=
  mocks ← get config "mocks";
  match mocks with
  | JUndefined | JNull => mret []
  | JArr elements => forEach_mocks config (indexed 0 elements)
  | _ => Throw (type_error "config.mocks?.forEach is not a function")
  end.

Definition has_severity (severity : string) (e : ValidationError.t) : bool :=
  Str.eqb (ValidationError.Severity e) severity.

(** The last statements of the [try] block: split by severity and
    build the result. *)
Definition separate (allErrors : list ValidationError.t) : ValidationResult.t :=
  let errorList := List.filter (has_severity "error") allErrors in
  let warningList := List.filter (has_severity "warning") allErrors in
  {| ValidationResult.IsValid := (length errorList =? 0)%nat;
     ValidationResult.Errors := errorList;
     ValidationResult.Warnings := warningList |}.

Definition validateATOMConfig_try (config : json) : result ValidationResult.t :=
  if negb (truthy config) || negb (Str.eqb (typeof config) "object")
  then mret {| ValidationResult.IsValid := false;
               ValidationResult.Errors := [error "root" "Invalid JSON structure"];
               ValidationResult.Warnings := [] |}
  else
    let errors := validate ATOM_SCHEMA config "" in
    businessErrors ← validateBusinessLogic config;
    mret (separate (errors ++ businessErrors)).

(** [validateATOMConfig]: the [try] block and its [catch], which
    returns a result of its own. *)
Definition validateATOMConfig (config : json) : ValidationResult.t :=
  match validateATOMConfig_try config with
  | Ok r => r
  | Throw ex =>
      {| ValidationResult.IsValid := false;
         ValidationResult.Errors := [error "root" ("Validation error: " +:+ Message ex)];
         ValidationResult.Warnings := [] |}
  end.

End Engine.
End Client.

(** ** Documents used in the examples *)
Module Samples.

Definition request (method : string)
    (url urlPattern urlPath urlPathPattern pathTemplate : option string) : MockRequest.t :=
  {| MockRequest.Method := Some method;
     MockRequest.Url := url;
     MockRequest.UrlPattern := urlPattern;
     MockRequest.UrlPath := urlPath;
     MockRequest.UrlPathPattern := urlPathPattern;
     MockRequest.PathTemplate := pathTemplate;
     MockRequest.QueryParameters := None;
     MockRequest.Headers := None;
     MockRequest.Cookies := None;
     MockRequest.BodyPatterns := None |}.

Definition inline_body (value : string) : ResponseBody.t :=
  {| ResponseBody.Type_ := Some "inline";
     ResponseBody.Value := Some value;
     ResponseBody.FileName := None;
     ResponseBody.Templating := None |}.

Definition response (status : Z) (body : option ResponseBody.t) : MockResponse.t :=
  {| MockResponse.Status := status;
     MockResponse.Headers := None;
     MockResponse.Body := body;
     MockResponse.FixedDelayMilliseconds := None;
     MockResponse.ProxyBaseUrl := None |}.

Definition mock (priority : option Z) (req : MockRequest.t) (resp : MockResponse.t)
  : MockConfig.t :=
  {| MockConfig.Name := None;
     MockConfig.Priority := priority;
     MockConfig.Request := Some req;
     MockConfig.Response := Some resp;
     MockConfig.Scenario := None;
     MockConfig.Metadata := None |}.

Definition config (target : option TargetConfig.t) (defaults : option DefaultsConfig.t)
    (mocks : list MockConfig.t) : ATOMConfig.t :=
  {| ATOMConfig.Version := Some "1.0";
     ATOMConfig.Target := target;
     ATOMConfig.Defaults := defaults;
     ATOMConfig.Mocks := Some mocks |}.

(** Scenario A: [urlPath] and [pathTemplate] both set. *)
Definition scenarioA_mock : MockConfig.t :=
  mock None
    (request "GET" None None (Some "/users/{id}") None (Some "/users/{id}"))
    (response 200 (Some (inline_body "{}"))).

(** A mock matched by its [pathTemplate] alone. *)
Definition template_mock : MockConfig.t :=
  mock None
    (request "GET" None None None None (Some "/users/{id}"))
    (response 200 (Some (inline_body "{}"))).

(** Scenario D: [defaults.priority = 5], a mock without a priority and
    a mock with priority 2. *)
Definition priority_defaults : DefaultsConfig.t :=
  {| DefaultsConfig.Priority := Some 5;
     DefaultsConfig.Headers := None;
     DefaultsConfig.Templating := None |}.

Definition scenarioD_first : MockConfig.t :=
  mock None (request "GET" (Some "/a") None None None None) (response 200 None).

Definition scenarioD_second : MockConfig.t :=
  mock (Some 2) (request "GET" (Some "/b") None None None None) (response 200 None).

Definition scenarioD : ATOMConfig.t :=
  config None (Some priority_defaults) [scenarioD_first; scenarioD_second].

(** Scenario C with two mocks: basic auth without a password, as the
    server's typed document and as the client's value. *)
Definition basic_auth_no_password : AuthConfig.t :=
{| AuthConfig.Type_ := Some "basic";
   AuthConfig.Username := Some "admin";
   AuthConfig.Password := None;
   AuthConfig.Token := None |}.

Definition auth_target : TargetConfig.t :=
{| TargetConfig.BaseUrl := Some "http://localhost:8080";
   TargetConfig.Auth := Some basic_auth_no_password |}.

Definition plain_mock (url : string) : MockConfig.t :=
mock None (request "GET" (Some url) None None None None) (response 200 None).

Definition two_mocks : ATOMConfig.t :=
config (Some auth_target) None [plain_mock "/a"; plain_mock "/b"].

Definition mock_json (url : string) : json :=
JObj [("request", JObj [("method", JStr "GET"); ("url", JStr url)]);
      ("response", JObj [("status", JNum (inject_Z 200))])].

Definition auth_target_json : json :=
JObj [("baseUrl", JStr "http://localhost:8080");
      ("auth", JObj [("type", JStr "basic"); ("username", JStr "admin")])].

Definition two_mocks_json : json :=
JObj [("version", JStr "1.0"); ("target", auth_target_json);
      ("mocks", JArr [mock_json "/a"; mock_json "/b"])].

Definition no_mocks_json : json :=
JObj [("version", JStr "1.0"); ("target", auth_target_json); ("mocks", JArr [])].

(** Scenario E: three mappings, and a stub server that refuses the
    second request it gets.  The world is the number of requests so far;
    the server answers with the body [null], so a created mapping is
    the one that was sent. *)
Definition deployable (url : string) : WiremockMapping.t :=
{| WiremockMapping.Id := None;
   WiremockMapping.Priority := None;
   WiremockMapping.Request :=
     Some {| WiremockRequest.Method := Some "GET";
             WiremockRequest.Url := Some url;
             WiremockRequest.UrlPattern := None;
             WiremockRequest.Headers := None;
             WiremockRequest.BodyPatterns := None |};
   WiremockMapping.Response :=
     Some {| WiremockResponse.Status := 200;
             WiremockResponse.Headers := None;
             WiremockResponse.Body := None;
             WiremockResponse.JsonBody := None;
             WiremockResponse.BodyFileName := None |};
   WiremockMapping.ScenarioName := None;
   WiremockMapping.RequiredScenarioState := None;
   WiremockMapping.NewScenarioState := None |}.

Definition created_response : WiremockAdminService.HttpResponseMessage :=
{| WiremockAdminService.IsSuccessStatusCode := true;
   WiremockAdminService.StatusCode := "Created";
   WiremockAdminService.ResponseContent := "null" |}.

Definition reliable (request : WiremockAdminService.HttpRequestMessage) (w : nat)
  : result WiremockAdminService.HttpResponseMessage * nat :=
(Ok created_response, S w).

Definition second_fails (request : WiremockAdminService.HttpRequestMessage) (w : nat)
  : result WiremockAdminService.HttpResponseMessage * nat :=
if (w =? 1)%nat
then (Throw {| ExType := HttpRequestException; Message := "Connection refused" |}, S w)
else (Ok created_response, S w).

Definition null_content (content : string) : result (option WiremockMapping.t) := Ok None.

Definition no_text (mapping : WiremockMapping.t) : string := "".

Definition plain (s : string) : string := s.

(** Every URL parses and every header value is accepted. *)
Definition well_formed (url : string) : option Exception := None.

Definition accepted (scheme parameter : string) : option Exception := None.

Definition deploy_request (mappings : list WiremockMapping.t)
  : ConfigController.DeployMappingsRequest :=
{| ConfigController.TargetUrl := Some "http://localhost:8080";
   ConfigController.Mappings := Some mappings;
   ConfigController.Auth := None |}.

Definition scenarioE : list WiremockMapping.t :=
[deployable "/a"; deployable "/b"; deployable "/c"].

(** A legacy mapping that comes with an id of its own. *)
Definition legacy_mapping : WiremockMapping.t :=
WiremockMapping.with_Id (Some "order-1") (deployable "/api/users").

(** A response body served from a file. *)
Definition file_body_json : json :=
JObj [("type", JStr "file"); ("fileName", JStr "users/create-success.json")].

End Samples.

(** ** Blank URL fields

    [without_blank_urls] is the document in which every URL-matching
    field holding an empty or whitespace-only string is absent instead. *)
Module Blank.

(** A field counts as present when it holds a string that is not
    blank. *)
Definition present (field : option string) : bool :=
  negb (Str.IsNullOrWhiteSpace field).

Definition absent_if_blank (s : option string) : option string :=
  if Str.IsNullOrWhiteSpace s then None else s.

Definition request (r : MockRequest.t) : MockRequest.t :=
  {| MockRequest.Method := MockRequest.Method r;
     MockRequest.Url := absent_if_blank (MockRequest.Url r);
     MockRequest.UrlPattern := absent_if_blank (MockRequest.UrlPattern r);
     MockRequest.UrlPath := absent_if_blank (MockRequest.UrlPath r);
     MockRequest.UrlPathPattern := absent_if_blank (MockRequest.UrlPathPattern r);
     MockRequest.PathTemplate := absent_if_blank (MockRequest.PathTemplate r);
     MockRequest.QueryParameters := MockRequest.QueryParameters r;
     MockRequest.Headers := MockRequest.Headers r;
     MockRequest.Cookies := MockRequest.Cookies r;
     MockRequest.BodyPatterns := MockRequest.BodyPatterns r |}.

Definition mock (m : MockConfig.t) : MockConfig.t :=
  {| MockConfig.Name := MockConfig.Name m;
     MockConfig.Priority := MockConfig.Priority m;
     MockConfig.Request := request <$> MockConfig.Request m;
     MockConfig.Response := MockConfig.Response m;
     MockConfig.Scenario := MockConfig.Scenario m;
     MockConfig.Metadata := MockConfig.Metadata m |}.

Definition without_blank_urls (c : ATOMConfig.t) : ATOMConfig.t :=
  {| ATOMConfig.Version := ATOMConfig.Version c;
     ATOMConfig.Target := ATOMConfig.Target c;
     ATOMConfig.Defaults := ATOMConfig.Defaults c;
     ATOMConfig.Mocks := map mock <$> ATOMConfig.Mocks c |}.

(** A mock whose [url] is two spaces and whose [urlPattern] is the
    empty string, with a [urlPath] and a [pathTemplate]; and one whose
    five fields are all blank. *)
Definition blank_url_mock : MockConfig.t :=
  Samples.mock None
    (Samples.request "GET" (Some "  ") (Some "") (Some "/users") None (Some "/users/{id}"))
    (Samples.response 200 None).

Definition all_blank_mock : MockConfig.t :=
  Samples.mock None
    (Samples.request "GET" (Some "  ") (Some "") (Some " ") (Some "") (Some "   "))
    (Samples.response 200 None).

End Blank.

(** ** Validity, rule by rule

    The conditions under which the validators add no error, as boolean
    functions of the document. *)
Module Validity.

Import Str.

Definition result_map {A B} (f : A -> B) (r : result A) : result B :=
  match r with
  | Ok a => Ok (f a)
  | Throw ex => Throw ex
  end.

(** What decides validity in a result: the flag and the errors. *)
Definition verdict (r : ValidationResult.t) : bool * list ValidationError.t :=
  (ValidationResult.IsValid r, ValidationResult.Errors r).

(** The document with every request replaced by its image under [g]. *)
Definition with_requests (g : MockRequest.t -> MockRequest.t) (c : ATOMConfig.t)
  : ATOMConfig.t :=
  {| ATOMConfig.Version := ATOMConfig.Version c;
     ATOMConfig.Target := ATOMConfig.Target c;
     ATOMConfig.Defaults := ATOMConfig.Defaults c;
     ATOMConfig.Mocks :=
       map (fun m =>
              {| MockConfig.Name := MockConfig.Name m;
                 MockConfig.Priority := MockConfig.Priority m;
                 MockConfig.Request := g <$> MockConfig.Request m;
                 MockConfig.Response := MockConfig.Response m;
                 MockConfig.Scenario := MockConfig.Scenario m;
                 MockConfig.Metadata := MockConfig.Metadata m |})
         <$> ATOMConfig.Mocks c |}.

(** A legacy mapping that adds no error. *)
Definition legacy_mapping_ok (mapping : WiremockMapping.t) : bool :=
  match WiremockMapping.Request mapping, WiremockMapping.Response mapping with
  | Some request, Some response =>
      negb (IsNullOrWhiteSpace (WiremockRequest.Method request))
      && negb (IsNullOrWhiteSpace (WiremockRequest.Url request)
               && IsNullOrWhiteSpace (WiremockRequest.UrlPattern request))
      && (100 <=? WiremockResponse.Status response)
      && (WiremockResponse.Status response <=? 599)
  | _, _ => false
  end.

Definition legacy_ok (config : JsonConfig.t) : bool :=
  negb (IsNullOrWhiteSpace (JsonConfig.Name config))
  && match JsonConfig.Mappings config with
     | Some (mapping :: rest) => forallb legacy_mapping_ok (mapping :: rest)
     | _ => false
     end.

Section Canonical.

Variable IsAbsoluteUri : string -> bool.

Definition method_ok (request : MockRequest.t) : bool :=
  match MockRequest.Method request with
  | Some method =>
      negb (all_white method)
      && ConfigValidationService.Contains ConfigValidationService.validMethods
           (ToUpper method)
  | None => false
  end.

Definition body_ok (body : ResponseBody.t) : bool :=
  let type := ResponseBody.Type_ body in
  (ConfigValidationService.equals type "inline"
   && negb (IsNullOrWhiteSpace (ResponseBody.Value body)))
  || (ConfigValidationService.equals type "file"
      && negb (IsNullOrWhiteSpace (ResponseBody.FileName body))).

Definition response_ok (response : MockResponse.t) : bool :=
  (100 <=? MockResponse.Status response)
  && (MockResponse.Status response <=? 599)
  && match MockResponse.Body response with
     | Some body => body_ok body
     | None => true
     end
  && match MockResponse.FixedDelayMilliseconds response with
     | Some delay => 0 <=? delay
     | None => true
     end
  && match MockResponse.ProxyBaseUrl response with
     | Some proxy => all_white proxy || IsAbsoluteUri proxy
     | None => true
     end.

Definition mock_ok (mock : MockConfig.t) : bool :=
  match MockConfig.Request mock, MockConfig.Response mock with
  | Some request, Some response => method_ok request && response_ok response
  | _, _ => false
  end.

Definition auth_ok (auth : AuthConfig.t) : bool :=
  match AuthConfig.Type_ auth with
  | Some type =>
      ConfigValidationService.Contains ConfigValidationService.validAuthTypes (ToLower type)
      && negb (Str.eqb (ToLower type) "basic"
               && (IsNullOrWhiteSpace (AuthConfig.Username auth)
                   || IsNullOrWhiteSpace (AuthConfig.Password auth)))
      && negb (Str.eqb (ToLower type) "bearer"
               && IsNullOrWhiteSpace (AuthConfig.Token auth))
  | None => false
  end.

Definition target_ok (target : TargetConfig.t) : bool :=
  match TargetConfig.BaseUrl target with
  | Some baseUrl => negb (all_white baseUrl) && IsAbsoluteUri baseUrl
  | None => false
  end
  && match TargetConfig.Auth target with
     | Some auth => auth_ok auth
     | None => true
     end.

Definition defaults_ok (defaults : option DefaultsConfig.t) : bool :=
  match defaults with
  | Some d =>
      match DefaultsConfig.Priority d with
      | Some p => 1 <=? p
      | None => true
      end
  | None => true
  end.

Definition canonical_ok (config : ATOMConfig.t) : bool :=
  negb (IsNullOrWhiteSpace (ATOMConfig.Version config))
  && match ATOMConfig.Mocks config with
     | Some (mock :: rest) => forallb mock_ok (mock :: rest)
     | _ => false
     end
  && match ATOMConfig.Target config with
     | Some target => target_ok target
     | None => true
     end
  && defaults_ok (ATOMConfig.Defaults config).

End Canonical.

(** Documents of the examples. *)
Definition legacy_sample : JsonConfig.t :=
  {| JsonConfig.Name := Some "Sample Wiremock Configuration";
     JsonConfig.Version := Some "1.0.0";
     JsonConfig.BaseUrl := Some "http://localhost:8080";
     JsonConfig.Port := Some 8080;
     JsonConfig.Mappings := Some [Samples.deployable "/api/users"] |}.

Definition status_mock (status : Z) : MockConfig.t :=
  Samples.mock None (Samples.request "GET" (Some "/a") None None None None)
    (Samples.response status None).

(** The request with all five URL-matching fields removed. *)
Definition clear_urls (r : MockRequest.t) : MockRequest.t :=
  {| MockRequest.Method := MockRequest.Method r;
     MockRequest.Url := None;
     MockRequest.UrlPattern := None;
     MockRequest.UrlPath := None;
     MockRequest.UrlPathPattern := None;
     MockRequest.PathTemplate := None;
     MockRequest.QueryParameters := MockRequest.QueryParameters r;
     MockRequest.Headers := MockRequest.Headers r;
     MockRequest.Cookies := MockRequest.Cookies r;
     MockRequest.BodyPatterns := MockRequest.BodyPatterns r |}.

Definition is_error (e : ValidationError.t) : Prop :=
  ValidationError.Severity e = "error".

Definition is_warning (e : ValidationError.t) : Prop :=
  ValidationError.Severity e = "warning".

(** The path of an entry about the mock at index [i]. *)
Definition mock_path (i : nat) (suffix : string) : string :=
  ("mocks[" +:+ of_nat i +:+ "]") +:+ suffix.

(** The entry of the status rule for the mock at index [i]. *)
Definition status_entry (i : nat) (status : Z) : list ValidationError.t :=
  ConfigValidationService.add_if ((status <? 100) || (status >=? 600))
    (ConfigValidationService.error (mock_path i ".response.status")
       ("Invalid HTTP status code: " +:+ Str.of_Z status +:+ ". Must be between 100-599")).

End Validity.

(** ** What the transformer reads

    The document with every field [ConvertToWiremockMapping] does not
    read set to null. *)
Module Unread.

Definition request (r : MockRequest.t) : MockRequest.t :=
  {| MockRequest.Method := MockRequest.Method r;
     MockRequest.Url := MockRequest.Url r;
     MockRequest.UrlPattern := MockRequest.UrlPattern r;
     MockRequest.UrlPath := MockRequest.UrlPath r;
     MockRequest.UrlPathPattern := MockRequest.UrlPathPattern r;
     MockRequest.PathTemplate := MockRequest.PathTemplate r;
     MockRequest.QueryParameters := None;
     MockRequest.Headers := MockRequest.Headers r;
     MockRequest.Cookies := None;
     MockRequest.BodyPatterns := MockRequest.BodyPatterns r |}.

Definition body (b : ResponseBody.t) : ResponseBody.t :=
  {| ResponseBody.Type_ := ResponseBody.Type_ b;
     ResponseBody.Value := ResponseBody.Value b;
     ResponseBody.FileName := ResponseBody.FileName b;
     ResponseBody.Templating := None |}.

Definition response (r : MockResponse.t) : MockResponse.t :=
  {| MockResponse.Status := MockResponse.Status r;
     MockResponse.Headers := MockResponse.Headers r;
     MockResponse.Body := body <$> MockResponse.Body r;
     MockResponse.FixedDelayMilliseconds := None;
     MockResponse.ProxyBaseUrl := None |}.

Definition mock (m : MockConfig.t) : MockConfig.t :=
  {| MockConfig.Name := None;
     MockConfig.Priority := MockConfig.Priority m;
     MockConfig.Request := request <$> MockConfig.Request m;
     MockConfig.Response := response <$> MockConfig.Response m;
     MockConfig.Scenario := MockConfig.Scenario m;
     MockConfig.Metadata := None |}.

Definition defaults (d : DefaultsConfig.t) : DefaultsConfig.t :=
  {| DefaultsConfig.Priority := DefaultsConfig.Priority d;
     DefaultsConfig.Headers := DefaultsConfig.Headers d;
     DefaultsConfig.Templating := None |}.

Definition config (c : ATOMConfig.t) : ATOMConfig.t :=
  {| ATOMConfig.Version := None;
     ATOMConfig.Target := None;
     ATOMConfig.Defaults := defaults <$> ATOMConfig.Defaults c;
     ATOMConfig.Mocks := None |}.

End Unread.

(** ** Documents with headers and bodies *)
Module Merge.

Definition defaults : DefaultsConfig.t :=
  {| DefaultsConfig.Priority := None;
     DefaultsConfig.Headers :=
       Some (<["Content-Type" := "application/json"]> (<["X-Env" := "test"]> ∅));
     DefaultsConfig.Templating := Some true |}.

Definition blank_matcher : RequestMatcher.t :=
  {| RequestMatcher.EqualTo := Some " ";
     RequestMatcher.Contains := None;
     RequestMatcher.Matches := Some "" |}.

Definition request : MockRequest.t :=
  {| MockRequest.Method := Some "GET";
     MockRequest.Url := Some "/orders";
     MockRequest.UrlPattern := None;
     MockRequest.UrlPath := None;
     MockRequest.UrlPathPattern := None;
     MockRequest.PathTemplate := None;
     MockRequest.QueryParameters := None;
     MockRequest.Headers := Some (<["X-Env" := Some blank_matcher]> ∅);
     MockRequest.Cookies := None;
     MockRequest.BodyPatterns := None |}.

Definition response : MockResponse.t :=
  {| MockResponse.Status := 200;
     MockResponse.Headers := Some (<["Content-Type" := "text/plain"]> ∅);
     MockResponse.Body := Some (Samples.inline_body "ok");
     MockResponse.FixedDelayMilliseconds := Some 250;
     MockResponse.ProxyBaseUrl := None |}.

Definition mock : MockConfig.t :=
  {| MockConfig.Name := Some "orders";
     MockConfig.Priority := None;
     MockConfig.Request := Some request;
     MockConfig.Response := Some response;
     MockConfig.Scenario := None;
     MockConfig.Metadata := None |}.

Definition config : ATOMConfig.t := Samples.config None (Some defaults) [mock].

(** A request whose [Accept] matcher is null, as in
    ["headers": { "Accept": null }], and a valid document with it. *)
Definition null_matcher_request : MockRequest.t :=
  {| MockRequest.Method := Some "GET";
     MockRequest.Url := Some "/orders";
     MockRequest.UrlPattern := None;
     MockRequest.UrlPath := None;
     MockRequest.UrlPathPattern := None;
     MockRequest.PathTemplate := None;
     MockRequest.QueryParameters := None;
     MockRequest.Headers := Some (<["Accept" := None]> ∅);
     MockRequest.Cookies := None;
     MockRequest.BodyPatterns := None |}.

Definition null_matcher_mock : MockConfig.t :=
  Samples.mock None null_matcher_request (Samples.response 200 None).

Definition null_matcher : ATOMConfig.t :=
  Samples.config
    (Some {| TargetConfig.BaseUrl := Some "http://localhost:8080";
             TargetConfig.Auth := None |})
    None [null_matcher_mock].

Definition null_matcher_json : json :=
  JObj [("version", JStr "1.0");
        ("target", JObj [("baseUrl", JStr "http://localhost:8080")]);
        ("mocks",
         JArr [JObj [("request",
                      JObj [("method", JStr "GET"); ("url", JStr "/orders");
                            ("headers", JObj [("Accept", JNull)])]);
                     ("response", JObj [("status", JNum (inject_Z 200))])]])].

(** The deserializer on [null_matcher_json]. *)
Definition read_null_matcher (configJson : json) : result (option ATOMConfig.t) :=
  Ok (Some null_matcher).

(** A mock with no response. *)
Definition no_response : MockConfig.t :=
  {| MockConfig.Name := None;
     MockConfig.Priority := None;
     MockConfig.Request := Some request;
     MockConfig.Response := None;
     MockConfig.Scenario := None;
     MockConfig.Metadata := None |}.

End Merge.

(** ** Stub servers and requests of the examples *)
Module Stubs.

(** A server that answers every request with 500. *)
Definition refusing (request : WiremockAdminService.HttpRequestMessage) (w : nat)
  : result WiremockAdminService.HttpResponseMessage * nat :=
  (Ok {| WiremockAdminService.IsSuccessStatusCode := false;
         WiremockAdminService.StatusCode := "InternalServerError";
         WiremockAdminService.ResponseContent := "Internal Server Error" |}, S w).

(** No server: every request ends in a transport exception. *)
Definition unreachable (request : WiremockAdminService.HttpRequestMessage) (w : nat)
  : result WiremockAdminService.HttpResponseMessage * nat :=
  (Throw {| ExType := HttpRequestException; Message := "Connection refused" |}, S w).

Definition basic_auth : AuthConfig.t :=
  {| AuthConfig.Type_ := Some "Basic";
     AuthConfig.Username := Some "admin";
     AuthConfig.Password := Some "admin123";
     AuthConfig.Token := None |}.

(** [new Uri] on a URL whose port is 99999: the port is out of range,
    and the constructor throws. *)
Definition invalid_port : Exception :=
  {| ExType := UriFormatException; Message := "Invalid URI: Invalid port specified." |}.

Definition port_in_range (url : string) : option Exception :=
  if String.prefix "http://localhost:99999" url then Some invalid_port else None.

(** [new AuthenticationHeaderValue] on a parameter with a line feed. *)
Definition line_break : Exception :=
  {| ExType := FormatException;
     Message := "New-line characters are not allowed in header values." |}.

Definition no_line_break (scheme parameter : string) : option Exception :=
  if String.index 0 (String "010"%char "") parameter is Some _
  then Some line_break else None.

(** A bearer token with a line feed in it. *)
Definition broken_token : AuthConfig.t :=
  {| AuthConfig.Type_ := Some "bearer";
     AuthConfig.Username := None;
     AuthConfig.Password := None;
     AuthConfig.Token := Some (String "a"%char (String "010"%char "b")) |}.

(** A mapping whose request object is missing. *)
Definition no_request : WiremockMapping.t :=
  {| WiremockMapping.Id := None;
     WiremockMapping.Priority := None;
     WiremockMapping.Request := None;
     WiremockMapping.Response := None;
     WiremockMapping.ScenarioName := None;
     WiremockMapping.RequiredScenarioState := None;
     WiremockMapping.NewScenarioState := None |}.

End Stubs.

(** ** Findings of the client validator *)
Module Findings.

(** An error reported at [path] or below it. *)
Definition located (path : string) (e : ValidationError.t) : Prop :=
  ValidationError.Severity e = "error"
  /\ exists suffix, ValidationError.Path e = path +:+ suffix.

(** A document with one mock, whose response has the inline body "ok". *)
Definition with_body : json :=
  JObj [("version", JStr "1.0");
        ("mocks",
         JArr [JObj [("request", JObj [("method", JStr "GET"); ("url", JStr "/orders")]);
                     ("response",
                      JObj [("status", JNum (inject_Z 200));
                            ("body", JObj [("type", JStr "inline");
                                           ("value", JStr "ok")])])]])].

(** A document whose only mock has no request. *)
Definition without_request : json :=
  JObj [("version", JStr "1.0");
        ("mocks", JArr [JObj [("response", JObj [("status", JNum (inject_Z 200))])]])].

End Findings.

(** ** The client: [MappingList] *)
Module MappingList.

(** [toggleRowExpansion(id)] on the current [expandedRows]: the set it
    passes to [setExpandedRows]. *)
Definition toggleRowExpansion (expandedRows : gset string) (id : string) : gset string :=
  let newExpanded := expandedRows in
  if decide (id ∈ newExpanded) then newExpanded ∖ {[id]} else newExpanded ∪ {[id]}.

(** The body shown by [formatResponseData]:
    [body.length > 50 ? `${body.substring(0, 47)}...` : body]. *)
Definition body_preview (body : string) : string :=
  if (50 <? String.length body)%nat
  then String.substring 0 47 body +:+ "..."
  else body.

End MappingList.

(** ** Objects in the store of the examples *)
Module Stored.

(** A store holding one object, not yet filed under any id. *)
Definition one_object : MappingService.State :=
  {| MappingService.heap := {[ 0%nat := Samples.deployable "/a" ]};
     MappingService.next_loc := 1%nat;
     MappingService._mappings := ∅;
     MappingService.guids := 0%nat |}.

End Stored.

(** ** The client: the upload component *)
Module Upload.

Section Component.

Variable NumberToString : Q -> string.

(** [getConfigType], [uploadedConfig] being the parsed document or
    [null]: ['mocks' in uploadedConfig] throws on a primitive. *)
Definition getConfigType (uploadedConfig : json) : result string :=
  if negb (Client.truthy uploadedConfig) then mret ""
  else
    match uploadedConfig with
    | JObj _ | JArr _ =>
        mret (if Client.has_member "mocks" uploadedConfig
              then "ATOM Config" else "Legacy Config")
    | primitive =>
        Throw (Client.type_error
                 ("Cannot use 'in' operator to search for 'mocks' in "
                  +:+ Client.ToString NumberToString primitive))
    end.

End Component.

(** A document whose [mocks] member is not an array. *)
Definition mocks_not_array : json :=
  JObj [("name", JStr "n"); ("mocks", JStr "none")].

End Upload.

(** * Properties *)

(** ** Strings *)
Section Strings.

Import Str.

Example Replace_every_occurrence : Replace "a{b}{c}" "{" "<<" = "a<<b}<<c}".
Proof. reflexivity. Qed.

Example Replace_longer_pattern : Replace "aaab" "aa" "x" = "xab".
Proof. reflexivity. Qed.

Example interpolated_numbers :
  of_Z (-42) = "-42" /\ of_nat 7 = "7" /\ ToUpper "get" = "GET".
Proof. repeat split; reflexivity. Qed.

Lemma append_assoc (a b c : string) : (a +:+ b) +:+ c = a +:+ (b +:+ c).
Proof.
  induction a as [|x a IH]; [reflexivity|].
  change (String x ((a +:+ b) +:+ c) = String x (a +:+ (b +:+ c))).
  rewrite IH. reflexivity.
Qed.

Lemma occurs_append c a b : occurs c (a +:+ b) = occurs c a || occurs c b.
Proof.
  induction a as [|x a IH]; [reflexivity|].
  change (occurs c (String x (a +:+ b)) = occurs c (String x a) || occurs c b).
  simpl. rewrite IH, orb_assoc. reflexivity.
Qed.

(** Replacing a one-character pattern goes character by character. *)
Lemma Replace_char_cons c newValue x s :
  Replace (String x s) (String c "") newValue
  = (if Ascii.eqb c x then newValue else String x "") +:+ Replace s (String c "") newValue.
Proof.
  unfold Replace. simpl.
  destruct (ascii_dec c x) as [->|Hne].
  - rewrite Ascii.eqb_refl. destruct s; reflexivity.
  - apply Ascii.eqb_neq in Hne. rewrite Hne. reflexivity.
Qed.

Lemma Replace_char_append c newValue a b :
  Replace (a +:+ b) (String c "") newValue
  = Replace a (String c "") newValue +:+ Replace b (String c "") newValue.
Proof.
  induction a as [|x a IH]; [reflexivity|].
  change (String x a +:+ b) with (String x (a +:+ b)).
  rewrite !Replace_char_cons, IH, append_assoc. reflexivity.
Qed.

Lemma Replace_char_absent c newValue s :
  occurs c s = false -> Replace s (String c "") newValue = s.
Proof.
  induction s as [|x s IH]; [reflexivity|]. simpl. intros H.
  apply orb_false_iff in H as [Hx Hs].
  rewrite Replace_char_cons, Hx, (IH Hs). reflexivity.
Qed.

(** What the two replacements of the path-template branch do to one
    placeholder: the braces go, the capture group comes in, and the name
    of the placeholder stays behind it. *)
Lemma Replace_placeholder before name after :
  occurs "{" before = false -> occurs "}" before = false ->
  occurs "{" name = false -> occurs "}" name = false ->
  occurs "{" after = false -> occurs "}" after = false ->
  Replace (Replace (before +:+ "{" +:+ name +:+ "}" +:+ after) "{" "([^/]+)") "}" ""
  = before +:+ "([^/]+)" +:+ name +:+ after.
Proof.
  intros Hb1 Hb2 Hn1 Hn2 Ha1 Ha2.
  rewrite Replace_char_append, (Replace_char_absent _ _ before Hb1).
  change ("{" +:+ name +:+ "}" +:+ after) with (String "{" (name +:+ "}" +:+ after)).
  rewrite Replace_char_cons, Ascii.eqb_refl.
  rewrite (Replace_char_absent "{" _ (name +:+ "}" +:+ after))
    by (rewrite occurs_append, Hn1; exact Ha1).
  rewrite Replace_char_append, (Replace_char_absent _ _ before Hb2).
  rewrite Replace_char_append, (Replace_char_absent "}" _ "([^/]+)") by reflexivity.
  rewrite Replace_char_append, (Replace_char_absent _ _ name Hn2).
  change ("}" +:+ after) with (String "}" after).
  rewrite Replace_char_cons, Ascii.eqb_refl, (Replace_char_absent _ _ after Ha2).
  reflexivity.
Qed.

End Strings.

(** ** The transformer: [ConvertToWiremockMapping] *)
Section Transformer.

Import Str MappingService Blank.

(** The loop over the header matchers of a request: the dictionary it
    builds when no matcher is null, and its exception otherwise. *)
Lemma map_fold_deref {A B} (g : A -> B) (b : gmap string B) (m : gmap string (option A)) :
  match map_fold (fun key value acc =>
                    headers ← acc;
                    value ← deref value;
                    mret (<[key := g value]> headers)) (Ok b) m with
  | Ok r =>
      (forall key,
         r !! key = match m !! key with
                    | Some (Some v) => Some (g v)
                    | Some None => None
                    | None => b !! key
                    end)
      /\ map_Forall (fun _ value => is_Some value) m
  | Throw ex => ex = NullReference /\ ~ map_Forall (fun _ value => is_Some value) m
  end.
Proof.
  apply (map_fold_weak_ind
           (fun r m =>
              match r with
              | Ok r =>
                  (forall key,
                     r !! key = match m !! key with
                                | Some (Some v) => Some (g v)
                                | Some None => None
                                | None => b !! key
                                end)
                  /\ map_Forall (fun _ value => is_Some value) m
              | Throw ex =>
                  ex = NullReference /\ ~ map_Forall (fun _ value => is_Some value) m
              end)).
  - split; [intros key; rewrite lookup_empty; reflexivity | apply map_Forall_empty].
  - intros i x m' r Hi IH. destruct r as [acc|ex]; simpl.
    + destruct IH as [Hl Hall]. destruct x as [v|]; simpl.
      * split; [|apply map_Forall_insert_2; [eexists; reflexivity | exact Hall]].
        intros key. destruct (decide (i = key)) as [->|Hne].
        -- rewrite !lookup_insert_eq. reflexivity.
        -- rewrite !lookup_insert_ne by exact Hne. apply Hl.
      * split; [reflexivity|]. intros Hall'.
        destruct (Hall' i None (lookup_insert_eq _ _ _)) as [v Hv]. discriminate Hv.
    + destruct IH as [-> Hn]. split; [reflexivity|]. intros Hall'. apply Hn.
      intros k v Hk. apply (Hall' k v).
      rewrite lookup_insert_ne; [exact Hk|]. intros ->. rewrite Hi in Hk. discriminate Hk.
Qed.

Lemma request_headers_outcome request config :
  match request_headers request config with
  | Ok headers =>
      forall hs, MockRequest.Headers request = Some hs ->
                 map_Forall (fun _ value => is_Some value) hs
  | Throw ex =>
      ex = NullReference
      /\ exists hs, MockRequest.Headers request = Some hs
                    /\ ~ map_Forall (fun _ value => is_Some value) hs
  end.
Proof.
  unfold request_headers.
  destruct (MockRequest.Headers request) as [hs|]; [|intros hs' [=]].
  match goal with
  | |- context [map_fold _ (Ok ?b) hs] =>
      pose proof (map_fold_deref (fun v => MatcherFields (headerMatcher v)) b hs) as H
  end.
  match goal with
  | |- match ?r with _ => _ end => destruct r as [headers|ex]
  end.
  - destruct H as [_ H]. intros hs' [= <-]. exact H.
  - destruct H as [-> H]. split; [reflexivity|]. exists hs. split; [reflexivity | exact H].
Qed.

Lemma BodyPatterns_foreach_outcome patterns : forall BodyPatterns,
  match BodyPatterns_foreach patterns BodyPatterns with
  | Ok r =>
      exists present,
        patterns = map Some present /\ r = BodyPatterns ++ flat_map bodyPattern present
  | Throw ex => ex = NullReference /\ ~ Forall is_Some patterns
  end.
Proof.
  induction patterns as [|[pattern|] rest IH]; intros BodyPatterns; simpl.
  - exists []. rewrite app_nil_r. split; reflexivity.
  - specialize (IH (BodyPatterns ++ bodyPattern pattern)).
    destruct (BodyPatterns_foreach rest (BodyPatterns ++ bodyPattern pattern)) as [r|ex].
    + destruct IH as (present & -> & ->). exists (pattern :: present).
      split; [reflexivity|]. simpl. rewrite app_assoc. reflexivity.
    + destruct IH as [-> Hn]. split; [reflexivity|]. intros H. apply Hn.
      apply Forall_cons in H as [_ H]. exact H.
  - split; [reflexivity|]. intros H. apply Forall_cons in H as [[v Hv] _]. discriminate Hv.
Qed.

Lemma request_bodyPatterns_outcome request :
  match request_bodyPatterns request with
  | Ok r =>
      forall patterns, MockRequest.BodyPatterns request = Some patterns ->
                       exists present,
                         patterns = map Some present
                         /\ r = match present with
                                | [] => None
                                | _ :: _ => Some (flat_map bodyPattern present)
                                end
  | Throw ex =>
      ex = NullReference
      /\ exists patterns, MockRequest.BodyPatterns request = Some patterns
                          /\ ~ Forall is_Some patterns
  end.
Proof.
  unfold request_bodyPatterns.
  destruct (MockRequest.BodyPatterns request) as [[|p ps]|].
  - intros patterns [= <-]. exists []. split; reflexivity.
  - pose proof (BodyPatterns_foreach_outcome (p :: ps) []) as H.
    destruct (BodyPatterns_foreach (p :: ps) []) as [r|ex];
      cbn [mbind result_bind mret result_ret].
    + destruct H as (present & Hp & ->). intros patterns [= <-].
      exists present. split; [exact Hp|]. destruct present; [discriminate Hp | reflexivity].
    + destruct H as [-> H]. split; [reflexivity|]. exists (p :: ps).
      split; [reflexivity | exact H].
  - intros patterns [=].
Qed.

Lemma Forall_is_Some_map {A} (present : list A) : Forall is_Some (map Some present).
Proof. induction present; constructor; [eexists; reflexivity | assumption]. Qed.

(** The conversion throws nothing but the exception of a null
    reference, and throws it exactly at a mock that is not
    [convertible]. *)
Lemma ConvertToWiremockMapping_outcome Id mock config :
  match ConvertToWiremockMapping Id mock config with
  | Ok m => convertible mock
  | Throw ex => ex = NullReference /\ ~ convertible mock
  end.
Proof.
  unfold ConvertToWiremockMapping, convertible, null_free.
  destruct (MockConfig.Request mock) as [request|]; simpl;
    [|split; [reflexivity|]; intros [(request & [=] & _) _]].
  destruct (url_matching request) as [u p].
  pose proof (request_headers_outcome request config) as Hh.
  destruct (request_headers request config) as [headers|ex]; simpl.
  - pose proof (request_bodyPatterns_outcome request) as Hb.
    destruct (request_bodyPatterns request) as [patterns|ex]; simpl.
    + destruct (MockConfig.Response mock) as [response|]; simpl.
      * destruct (match MockResponse.Body response with Some _ => _ | None => _ end)
          as [b f].
        split; [|eexists; reflexivity]. exists request. split; [reflexivity|].
        split; [exact Hh|]. intros ps Hps. destruct (Hb ps Hps) as (present & -> & _).
        apply Forall_is_Some_map.
      * split; [reflexivity|]. intros [_ [response [=]]].
    + destruct Hb as (-> & ps & Hps & Hn). split; [reflexivity|].
      intros [(request' & [= <-] & _ & Hb) _]. exact (Hn (Hb ps Hps)).
  - destruct Hh as (-> & hs & Hhs & Hn). split; [reflexivity|].
    intros [(request' & [= <-] & Hh & _) _]. exact (Hn (Hh hs Hhs)).
Qed.

(** What a successful conversion read and what it built. *)
Lemma ConvertToWiremockMapping_Ok Id mock config m :
  ConvertToWiremockMapping Id mock config = Ok m ->
  exists request response wreq,
    MockConfig.Request mock = Some request /\
    MockConfig.Response mock = Some response /\
    WiremockMapping.Id m = Some Id /\
    WiremockMapping.Priority m =
      match MockConfig.Priority mock with
      | Some p => Some p
      | None => d ← ATOMConfig.Defaults config; DefaultsConfig.Priority d
      end /\
    WiremockMapping.Request m = Some wreq /\
    WiremockRequest.Method wreq = MockRequest.Method request /\
    (WiremockRequest.Url wreq, WiremockRequest.UrlPattern wreq) = url_matching request.
Proof.
  unfold ConvertToWiremockMapping.
  destruct (MockConfig.Request mock) as [request|]; [|discriminate]. simpl.
  destruct (url_matching request) as [u p] eqn:Hu.
  destruct (request_headers request config) as [headers|]; [|discriminate]. simpl.
  destruct (request_bodyPatterns request) as [patterns|]; [|discriminate]. simpl.
  destruct (MockConfig.Response mock) as [response|]; [|discriminate]. simpl.
  destruct (match MockResponse.Body response with Some _ => _ | None => _ end) as [b f].
  intros [= <-]. exists request, response. eexists. simpl. repeat split; auto.
Qed.

(** A mock with its response and its request converts when the
    request holds no null matcher or pattern. *)
Lemma ConvertToWiremockMapping_total Id mock config request response :
  MockConfig.Request mock = Some request ->
  MockConfig.Response mock = Some response ->
  null_free request ->
  exists m, ConvertToWiremockMapping Id mock config = Ok m.
Proof.
  intros Hq Hp Hn.
  pose proof (ConvertToWiremockMapping_outcome Id mock config) as H.
  destruct (ConvertToWiremockMapping Id mock config) as [m|ex]; [eauto|].
  destruct H as [_ H]. exfalso. apply H. split; [eauto | eexists; exact Hp].
Qed.

(** A request without header matchers and body patterns. *)
Lemma null_free_plain request :
  MockRequest.Headers request = None ->
  MockRequest.BodyPatterns request = None ->
  null_free request.
Proof. intros Hh Hb. split; intros x H; congruence. Qed.

Lemma convertible_plain mock request response :
  MockConfig.Request mock = Some request ->
  MockConfig.Response mock = Some response ->
  MockRequest.Headers request = None ->
  MockRequest.BodyPatterns request = None ->
  convertible mock.
Proof.
  intros Hq Hp Hh Hb. split; [|eexists; exact Hp].
  exists request. split; [exact Hq | apply null_free_plain; assumption].
Qed.

Ltac converts_plain :=
  eapply ConvertToWiremockMapping_total;
  [reflexivity | reflexivity | apply null_free_plain; reflexivity].

(** C9: the priority of the mapping is the mock's own priority when it
    has one, else the document's [defaults.priority] when there is one,
    else none; so with [defaults.priority = 5] a mock without a priority
    gets 5 and a mock with priority 2 keeps 2. *)
Theorem priority_of_mapping Id mock config m :
  ConvertToWiremockMapping Id mock config = Ok m ->
  (forall p, MockConfig.Priority mock = Some p -> WiremockMapping.Priority m = Some p)
  /\ (forall d, MockConfig.Priority mock = None -> ATOMConfig.Defaults config = Some d ->
                WiremockMapping.Priority m = DefaultsConfig.Priority d)
  /\ (MockConfig.Priority mock = None -> ATOMConfig.Defaults config = None ->
      WiremockMapping.Priority m = None).
Proof.
  intros H. apply ConvertToWiremockMapping_Ok in H.
  destruct H as (request & response & wreq & _ & _ & _ & Hp & _).
  rewrite Hp. repeat split.
  - intros p ->. reflexivity.
  - intros d -> ->. reflexivity.
  - intros -> ->. reflexivity.
Qed.

(** Scenario D: the priorities are 5 and 2. *)
Lemma priority_of_mapping_witness :
  exists first second,
    ConvertToWiremockMapping "a" Samples.scenarioD_first Samples.scenarioD = Ok first
    /\ ConvertToWiremockMapping "b" Samples.scenarioD_second Samples.scenarioD = Ok second
    /\ WiremockMapping.Priority first = Some 5
    /\ WiremockMapping.Priority second = Some 2.
Proof.
  assert (exists first,
             ConvertToWiremockMapping "a" Samples.scenarioD_first Samples.scenarioD
             = Ok first) as [first Hf] by converts_plain.
  assert (exists second,
             ConvertToWiremockMapping "b" Samples.scenarioD_second Samples.scenarioD
             = Ok second) as [second Hs] by converts_plain.
  exists first, second. split; [exact Hf|]. split; [exact Hs|]. split.
  - exact (proj1 (proj2 (priority_of_mapping _ _ _ _ Hf))
             Samples.priority_defaults eq_refl eq_refl).
  - exact (proj1 (priority_of_mapping _ _ _ _ Hs) 2 eq_refl).
Defined.

Ltac split_url_chain H :=
  repeat match type of H with
         | context [IsNullOrWhiteSpace ?f] =>
             let E := fresh "E" in destruct (IsNullOrWhiteSpace f) eqn:E; simpl in H
         end.

(** C4: the new request gets its URL matcher from the first present
    field in the order url, urlPattern, urlPath, urlPathPattern,
    pathTemplate; url and urlPath go to [Url] (exact), urlPattern,
    urlPathPattern and the converted pathTemplate to [UrlPattern]
    (regex); never both are set, one is set as soon as a field is
    present, and none when no field is. *)
Theorem url_matcher_resolution Id mock config m request :
  ConvertToWiremockMapping Id mock config = Ok m ->
  MockConfig.Request mock = Some request ->
  exists wreq,
    WiremockMapping.Request m = Some wreq /\
    let Url := WiremockRequest.Url wreq in
    let UrlPattern := WiremockRequest.UrlPattern wreq in
    (present (MockRequest.Url request) = true ->
       Url = MockRequest.Url request /\ UrlPattern = None)
    /\ (present (MockRequest.Url request) = false ->
        present (MockRequest.UrlPattern request) = true ->
        Url = None /\ UrlPattern = MockRequest.UrlPattern request)
    /\ (present (MockRequest.Url request) = false ->
        present (MockRequest.UrlPattern request) = false ->
        present (MockRequest.UrlPath request) = true ->
        Url = MockRequest.UrlPath request /\ UrlPattern = None)
    /\ (present (MockRequest.Url request) = false ->
        present (MockRequest.UrlPattern request) = false ->
        present (MockRequest.UrlPath request) = false ->
        present (MockRequest.UrlPathPattern request) = true ->
        Url = None /\ UrlPattern = MockRequest.UrlPathPattern request)
    /\ (present (MockRequest.Url request) = false ->
        present (MockRequest.UrlPattern request) = false ->
        present (MockRequest.UrlPath request) = false ->
        present (MockRequest.UrlPathPattern request) = false ->
        present (MockRequest.PathTemplate request) = true ->
        Url = None /\ is_Some UrlPattern)
    /\ (ConfigValidationService.hasUrlMatch request = false ->
        Url = None /\ UrlPattern = None)
    /\ (Url = None \/ UrlPattern = None)
    /\ (ConfigValidationService.hasUrlMatch request = true ->
        is_Some Url \/ is_Some UrlPattern).
Proof.
  intros H Hreq. apply ConvertToWiremockMapping_Ok in H.
  destruct H as (request' & response & wreq & Hq & _ & _ & _ & Hr & _ & Hu).
  rewrite Hq in Hreq. injection Hreq as ->.
  exists wreq. split; [exact Hr|]. cbv zeta.
  unfold present, ConfigValidationService.hasUrlMatch.
  unfold url_matching in Hu.
  destruct (MockRequest.PathTemplate request) as [template|] eqn:Et;
    [change (IsNullOrWhiteSpace (Some template)) with (all_white template);
     destruct (all_white template) eqn:Ew|];
    split_url_chain Hu; injection Hu as -> ->; simpl;
    repeat split; intros; try discriminate; try congruence; eauto.
  all: try (match goal with
            | E : IsNullOrWhiteSpace ?f = false |- is_Some ?f \/ _ =>
                left; destruct f; [eauto | discriminate]
            | E : IsNullOrWhiteSpace ?f = false |- _ \/ is_Some ?f =>
                right; destruct f; [eauto | discriminate]
            end).
Qed.

(** Scenario A: [urlPath] wins over [pathTemplate], as an exact match. *)
Lemma url_matcher_resolution_witness :
  exists m wreq,
    ConvertToWiremockMapping "id-1" Samples.scenarioA_mock
      (Samples.config None None [Samples.scenarioA_mock]) = Ok m
    /\ WiremockMapping.Request m = Some wreq
    /\ WiremockRequest.Url wreq = Some "/users/{id}"
    /\ WiremockRequest.UrlPattern wreq = None.
Proof.
  assert (exists m,
             ConvertToWiremockMapping "id-1" Samples.scenarioA_mock
               (Samples.config None None [Samples.scenarioA_mock]) = Ok m)
    as [m Hm] by converts_plain.
  destruct (url_matcher_resolution _ _ _ _ _ Hm eq_refl)
    as (wreq & Hr & _ & _ & Hpath & _).
  exists m, wreq. split; [exact Hm|]. split; [exact Hr|].
  exact (Hpath eq_refl eq_refl eq_refl).
Defined.

Lemma pathTemplate_branch request template :
  present (MockRequest.Url request) = false ->
  present (MockRequest.UrlPattern request) = false ->
  present (MockRequest.UrlPath request) = false ->
  present (MockRequest.UrlPathPattern request) = false ->
  MockRequest.PathTemplate request = Some template ->
  all_white template = false ->
  url_matching request
  = (None, Some (Replace (Replace template "{" "([^/]+)") "}" "")).
Proof.
  unfold present, url_matching. intros H1 H2 H3 H4 -> ->.
  apply negb_false_iff in H1, H2, H3, H4. rewrite H1, H2, H3, H4. reflexivity.
Qed.

(** C1, at the template of the specification: a mock matched by its
    pathTemplate "/users/{id}" alone gets the pattern
    "/users/([^/]+)id"; the braces are gone, the name of the
    placeholder is still there, and the pattern is not
    "/users/([^/]+)". *)
Theorem pathTemplate_keeps_placeholder_name :
  exists m wreq,
    ConvertToWiremockMapping "id-1" Samples.template_mock
      (Samples.config None None [Samples.template_mock]) = Ok m
    /\ WiremockMapping.Request m = Some wreq
    /\ WiremockRequest.Url wreq = None
    /\ WiremockRequest.UrlPattern wreq = Some "/users/([^/]+)id"
    /\ WiremockRequest.UrlPattern wreq <> Some "/users/([^/]+)".
Proof.
  assert (exists m,
             ConvertToWiremockMapping "id-1" Samples.template_mock
               (Samples.config None None [Samples.template_mock]) = Ok m)
    as [m Hm] by converts_plain.
  destruct (ConvertToWiremockMapping_Ok _ _ _ _ Hm)
    as (request & response & wreq & Hq & _ & _ & _ & Hr & _ & Hu).
  injection Hq as <-.
  rewrite (pathTemplate_branch _ "/users/{id}") in Hu by reflexivity.
  injection Hu as Hurl Hpat.
  exists m, wreq. repeat split; auto.
  rewrite Hpat. discriminate.
Qed.

(** *** Blank URL fields *)

Lemma IsNullOrWhiteSpace_absent_if_blank s :
  IsNullOrWhiteSpace (absent_if_blank s) = IsNullOrWhiteSpace s.
Proof.
  unfold absent_if_blank. destruct (IsNullOrWhiteSpace s) eqn:E; [reflexivity | exact E].
Qed.

Lemma absent_if_blank_present s :
  IsNullOrWhiteSpace s = false -> absent_if_blank s = s.
Proof. unfold absent_if_blank. intros ->. reflexivity. Qed.

Lemma url_matching_blank request :
  url_matching (Blank.request request) = url_matching request.
Proof.
  unfold url_matching, Blank.request; simpl.
  rewrite !IsNullOrWhiteSpace_absent_if_blank.
  destruct (IsNullOrWhiteSpace (MockRequest.Url request)) eqn:E1; simpl;
    [|rewrite absent_if_blank_present by exact E1; reflexivity].
  destruct (IsNullOrWhiteSpace (MockRequest.UrlPattern request)) eqn:E2; simpl;
    [|rewrite absent_if_blank_present by exact E2; reflexivity].
  destruct (IsNullOrWhiteSpace (MockRequest.UrlPath request)) eqn:E3; simpl;
    [|rewrite absent_if_blank_present by exact E3; reflexivity].
  destruct (IsNullOrWhiteSpace (MockRequest.UrlPathPattern request)) eqn:E4; simpl;
    [|rewrite absent_if_blank_present by exact E4; reflexivity].
  unfold absent_if_blank.
  destruct (MockRequest.PathTemplate request) as [t|]; simpl; [|reflexivity].
  destruct (all_white t) eqn:Et; [reflexivity | rewrite Et; reflexivity].
Qed.

Lemma hasUrlMatch_blank request :
  ConfigValidationService.hasUrlMatch (Blank.request request)
  = ConfigValidationService.hasUrlMatch request.
Proof.
  unfold ConfigValidationService.hasUrlMatch, Blank.request; simpl.
  rewrite !IsNullOrWhiteSpace_absent_if_blank. reflexivity.
Qed.

Lemma hasUrlConflict_blank request :
  ConfigValidationService.hasUrlConflict (Blank.request request)
  = ConfigValidationService.hasUrlConflict request.
Proof.
  unfold ConfigValidationService.hasUrlConflict, Blank.request; simpl.
  rewrite !IsNullOrWhiteSpace_absent_if_blank. reflexivity.
Qed.

Lemma ConvertToWiremockMapping_blank Id mock config :
  ConvertToWiremockMapping Id (Blank.mock mock) (without_blank_urls config)
  = ConvertToWiremockMapping Id mock config.
Proof.
  unfold ConvertToWiremockMapping, Blank.mock; simpl.
  destruct (MockConfig.Request mock) as [request|]; simpl; [|reflexivity].
  rewrite url_matching_blank. reflexivity.
Qed.

Lemma validate_mock_blank IsAbsoluteUri i mock :
  ConfigValidationService.validate_mock IsAbsoluteUri i (Blank.mock mock)
  = ConfigValidationService.validate_mock IsAbsoluteUri i mock.
Proof.
  unfold ConfigValidationService.validate_mock, Blank.mock; simpl.
  destruct (MockConfig.Request mock) as [request|]; simpl; [|reflexivity].
  rewrite hasUrlMatch_blank, hasUrlConflict_blank. reflexivity.
Qed.

Lemma validate_mocks_blank IsAbsoluteUri mocks : forall i,
  ConfigValidationService.validate_mocks IsAbsoluteUri i (map Blank.mock mocks)
  = ConfigValidationService.validate_mocks IsAbsoluteUri i mocks.
Proof.
  induction mocks as [|mock rest IH]; intros i; simpl; [reflexivity|].
  rewrite validate_mock_blank, IH. reflexivity.
Qed.

Lemma url_matching_chain request :
  (present (MockRequest.Url request) = true ->
   url_matching request = (MockRequest.Url request, None))
  /\ (present (MockRequest.Url request) = false ->
      present (MockRequest.UrlPattern request) = true ->
      url_matching request = (None, MockRequest.UrlPattern request))
  /\ (present (MockRequest.Url request) = false ->
      present (MockRequest.UrlPattern request) = false ->
      present (MockRequest.UrlPath request) = true ->
      url_matching request = (MockRequest.UrlPath request, None))
  /\ (present (MockRequest.Url request) = false ->
      present (MockRequest.UrlPattern request) = false ->
      present (MockRequest.UrlPath request) = false ->
      present (MockRequest.UrlPathPattern request) = true ->
      url_matching request = (None, MockRequest.UrlPathPattern request))
  /\ (present (MockRequest.Url request) = false ->
      present (MockRequest.UrlPattern request) = false ->
      present (MockRequest.UrlPath request) = false ->
      present (MockRequest.UrlPathPattern request) = false ->
      forall template,
        MockRequest.PathTemplate request = Some template ->
        present (Some template) = true ->
        url_matching request
        = (None, Some (Replace (Replace template "{" "([^/]+)") "}" "")))
  /\ (present (MockRequest.Url request) = false ->
      present (MockRequest.UrlPattern request) = false ->
      present (MockRequest.UrlPath request) = false ->
      present (MockRequest.UrlPathPattern request) = false ->
      present (MockRequest.PathTemplate request) = false ->
      url_matching request = (None, None)).
Proof.
  unfold present, url_matching.
  repeat split; intros;
    repeat match goal with
           | H : negb (IsNullOrWhiteSpace _) = _ |- _ => rewrite H; clear H
           end; try reflexivity.
  - match goal with
    | H : MockRequest.PathTemplate request = Some _ |- _ => rewrite H in *
    end.
    match goal with
    | H : negb (IsNullOrWhiteSpace (Some template)) = true |- _ =>
        apply negb_true_iff in H; simpl in H; rewrite H
    end.
    reflexivity.
  - destruct (MockRequest.PathTemplate request) as [template|]; [|reflexivity].
    match goal with
    | H : negb (IsNullOrWhiteSpace (Some template)) = false |- _ =>
        apply negb_false_iff in H; simpl in H; rewrite H
    end.
    reflexivity.
Qed.

(** The two URL warnings of the validator, read off its result for one
    mock. *)
Lemma validate_mock_url_warnings IsAbsoluteUri i mock request response :
  MockConfig.Request mock = Some request ->
  MockConfig.Response mock = Some response ->
  exists e w,
    ConfigValidationService.validate_mock IsAbsoluteUri i mock = Ok (e, w)
    /\ (In (ConfigValidationService.warning (("mocks[" +:+ of_nat i +:+ "]") +:+ ".request")
              "Request should have at least one URL matching property") w
        <-> ConfigValidationService.hasUrlMatch request = false)
    /\ (In (ConfigValidationService.warning (("mocks[" +:+ of_nat i +:+ "]") +:+ ".request")
              "Using both exact URL and URL patterns may cause conflicts") w
        <-> ConfigValidationService.hasUrlConflict request = true).
Proof.
  intros Hq Hp. unfold ConfigValidationService.validate_mock. rewrite Hq, Hp. simpl.
  eexists. eexists. split; [reflexivity|].
  unfold ConfigValidationService.warning.
  destruct (ConfigValidationService.hasUrlMatch request);
    destruct (ConfigValidationService.hasUrlConflict request); simpl;
    split; split; intros H;
    repeat match goal with
           | H : _ \/ _ |- _ => destruct H as [H | H]
           | H : False |- _ => destruct H
           end;
    try discriminate; try reflexivity; auto.
Qed.

(** C10: on the server a URL-matching field that holds an empty or
    whitespace-only string is treated as an absent one.  Such a field is
    no more present than a null one; the presence check and the conflict
    check of the validator count the present fields only, and its two
    URL warnings are given accordingly; the resolution chain of the
    transformer passes over every field that is not present and takes
    the first present one, which is what the generated mapping carries;
    and the document with the blank fields removed validates to the same
    result and converts to the same mappings. *)
Theorem blank_url_field_is_absent :
  (forall s, all_white s = true ->
     present (Some s) = false /\ present None = false /\ absent_if_blank (Some s) = None)
  /\ (forall request,
        ConfigValidationService.hasUrlMatch request
        = present (MockRequest.Url request) || present (MockRequest.UrlPattern request)
          || present (MockRequest.UrlPath request)
          || present (MockRequest.UrlPathPattern request)
          || present (MockRequest.PathTemplate request)
        /\ ConfigValidationService.hasUrlConflict request
           = present (MockRequest.Url request)
             && (present (MockRequest.UrlPattern request)
                 || present (MockRequest.UrlPath request)
                 || present (MockRequest.UrlPathPattern request)))
  /\ (forall IsAbsoluteUri i mock request response,
        MockConfig.Request mock = Some request ->
        MockConfig.Response mock = Some response ->
        exists e w,
          ConfigValidationService.validate_mock IsAbsoluteUri i mock = Ok (e, w)
          /\ (In (ConfigValidationService.warning
                    (("mocks[" +:+ of_nat i +:+ "]") +:+ ".request")
                    "Request should have at least one URL matching property") w
              <-> present (MockRequest.Url request) = false
                  /\ present (MockRequest.UrlPattern request) = false
                  /\ present (MockRequest.UrlPath request) = false
                  /\ present (MockRequest.UrlPathPattern request) = false
                  /\ present (MockRequest.PathTemplate request) = false)
          /\ (In (ConfigValidationService.warning
                    (("mocks[" +:+ of_nat i +:+ "]") +:+ ".request")
                    "Using both exact URL and URL patterns may cause conflicts") w
              <-> present (MockRequest.Url request) = true
                  /\ (present (MockRequest.UrlPattern request) = true
                      \/ present (MockRequest.UrlPath request) = true
                      \/ present (MockRequest.UrlPathPattern request) = true)))
  /\ (forall Id mock config m request,
        ConvertToWiremockMapping Id mock config = Ok m ->
        MockConfig.Request mock = Some request ->
        exists wreq,
          WiremockMapping.Request m = Some wreq /\
          let chosen := (WiremockRequest.Url wreq, WiremockRequest.UrlPattern wreq) in
          (present (MockRequest.Url request) = true ->
           chosen = (MockRequest.Url request, None))
          /\ (present (MockRequest.Url request) = false ->
              present (MockRequest.UrlPattern request) = true ->
              chosen = (None, MockRequest.UrlPattern request))
          /\ (present (MockRequest.Url request) = false ->
              present (MockRequest.UrlPattern request) = false ->
              present (MockRequest.UrlPath request) = true ->
              chosen = (MockRequest.UrlPath request, None))
          /\ (present (MockRequest.Url request) = false ->
              present (MockRequest.UrlPattern request) = false ->
              present (MockRequest.UrlPath request) = false ->
              present (MockRequest.UrlPathPattern request) = true ->
              chosen = (None, MockRequest.UrlPathPattern request))
          /\ (present (MockRequest.Url request) = false ->
              present (MockRequest.UrlPattern request) = false ->
              present (MockRequest.UrlPath request) = false ->
              present (MockRequest.UrlPathPattern request) = false ->
              forall template,
                MockRequest.PathTemplate request = Some template ->
                present (Some template) = true ->
                chosen = (None, Some (Replace (Replace template "{" "([^/]+)") "}" "")))
          /\ (present (MockRequest.Url request) = false ->
              present (MockRequest.UrlPattern request) = false ->
              present (MockRequest.UrlPath request) = false ->
              present (MockRequest.UrlPathPattern request) = false ->
              present (MockRequest.PathTemplate request) = false ->
              chosen = (None, None)))
  /\ (forall s, present s = false -> absent_if_blank s = None)
  /\ (forall request,
        ConfigValidationService.hasUrlMatch (Blank.request request)
        = ConfigValidationService.hasUrlMatch request
        /\ ConfigValidationService.hasUrlConflict (Blank.request request)
           = ConfigValidationService.hasUrlConflict request
        /\ url_matching (Blank.request request) = url_matching request)
  /\ (forall IsAbsoluteUri config,
        ConfigValidationService.ValidateATOMConfig IsAbsoluteUri (without_blank_urls config)
        = ConfigValidationService.ValidateATOMConfig IsAbsoluteUri config)
  /\ (forall Id mock config,
        ConvertToWiremockMapping Id (Blank.mock mock) (without_blank_urls config)
        = ConvertToWiremockMapping Id mock config).
Proof.
  split; [|split; [|split; [|split; [|split; [|split; [|split]]]]]].
  - intros s Hs. unfold present, absent_if_blank. simpl. rewrite Hs. auto.
  - intros request. split; reflexivity.
  - intros IsAbsoluteUri i mock request response Hq Hp.
    destruct (validate_mock_url_warnings IsAbsoluteUri i mock request response Hq Hp)
      as (e & w & Hv & Hmatch & Hconflict).
    exists e, w. split; [exact Hv|]. split.
    + rewrite Hmatch. unfold ConfigValidationService.hasUrlMatch, present.
      rewrite !orb_false_iff. tauto.
    + rewrite Hconflict. unfold ConfigValidationService.hasUrlConflict, present.
      rewrite andb_true_iff, !orb_true_iff. tauto.
  - intros Id mock config m request H Hreq. apply ConvertToWiremockMapping_Ok in H.
    destruct H as (request' & response & wreq & Hq & _ & _ & _ & Hr & _ & Hu).
    rewrite Hq in Hreq. injection Hreq as ->.
    exists wreq. split; [exact Hr|]. cbv zeta. rewrite Hu.
    apply url_matching_chain.
  - intros s H. unfold present in H. apply negb_false_iff in H.
    unfold absent_if_blank. rewrite H. reflexivity.
  - intros request.
    auto using hasUrlMatch_blank, hasUrlConflict_blank, url_matching_blank.
  - intros IsAbsoluteUri config.
    unfold ConfigValidationService.ValidateATOMConfig, without_blank_urls; simpl.
    destruct (ATOMConfig.Mocks config) as [[|mock rest]|]; simpl; try reflexivity.
    rewrite validate_mock_blank, validate_mocks_blank. reflexivity.
  - apply ConvertToWiremockMapping_blank.
Qed.

End Transformer.

(** A mock whose [url] is two spaces and whose [urlPattern] is empty:
    the chain passes over both and takes the [urlPath], as an exact
    match, and the validator sees no conflict.  A mock whose five fields
    are all blank gets no URL matcher and the warning of a request
    without one. *)
Lemma blank_url_field_is_absent_witness :
  (exists m wreq e w,
     MappingService.ConvertToWiremockMapping "id-1" Blank.blank_url_mock
       (Samples.config None None [Blank.blank_url_mock]) = Ok m
     /\ WiremockMapping.Request m = Some wreq
     /\ (WiremockRequest.Url wreq, WiremockRequest.UrlPattern wreq) = (Some "/users", None)
     /\ ConfigValidationService.validate_mock (fun _ => true) 0 Blank.blank_url_mock
        = Ok (e, w)
     /\ ~ In (ConfigValidationService.warning "mocks[0].request"
                "Using both exact URL and URL patterns may cause conflicts") w
     /\ ~ In (ConfigValidationService.warning "mocks[0].request"
                "Request should have at least one URL matching property") w)
  /\ (exists m wreq e w,
        MappingService.ConvertToWiremockMapping "id-2" Blank.all_blank_mock
          (Samples.config None None [Blank.all_blank_mock]) = Ok m
        /\ WiremockMapping.Request m = Some wreq
        /\ (WiremockRequest.Url wreq, WiremockRequest.UrlPattern wreq) = (None, None)
        /\ ConfigValidationService.validate_mock (fun _ => true) 0 Blank.all_blank_mock
           = Ok (e, w)
        /\ In (ConfigValidationService.warning "mocks[0].request"
                 "Request should have at least one URL matching property") w).
Proof.
  destruct blank_url_field_is_absent as (_ & _ & Hwarn & Hchain & _).
  split.
  - assert (exists m,
               MappingService.ConvertToWiremockMapping "id-1" Blank.blank_url_mock
                 (Samples.config None None [Blank.blank_url_mock]) = Ok m)
      as [m Hm]
      by (eapply ConvertToWiremockMapping_total;
          [reflexivity | reflexivity | apply null_free_plain; reflexivity]).
    destruct (Hchain _ _ _ _ _ Hm eq_refl) as (wreq & Hr & _ & _ & Hpath & _).
    destruct (Hwarn (fun _ => true) 0%nat Blank.blank_url_mock _ _ eq_refl eq_refl)
      as (e & w & Hv & Hmatch & Hconflict).
    exists m, wreq, e, w. split; [exact Hm|]. split; [exact Hr|].
    split; [exact (Hpath eq_refl eq_refl eq_refl)|]. split; [exact Hv|]. split.
    + intros Hin. apply Hconflict in Hin as [Hurl _]. discriminate Hurl.
    + intros Hin. apply Hmatch in Hin as (_ & _ & Hpath' & _). discriminate Hpath'.
  - assert (exists m,
               MappingService.ConvertToWiremockMapping "id-2" Blank.all_blank_mock
                 (Samples.config None None [Blank.all_blank_mock]) = Ok m)
      as [m Hm]
      by (eapply ConvertToWiremockMapping_total;
          [reflexivity | reflexivity | apply null_free_plain; reflexivity]).
    destruct (Hchain _ _ _ _ _ Hm eq_refl) as (wreq & Hr & _ & _ & _ & _ & _ & Hnone).
    destruct (Hwarn (fun _ => true) 0%nat Blank.all_blank_mock _ _ eq_refl eq_refl)
      as (e & w & Hv & Hmatch & _).
    exists m, wreq, e, w. split; [exact Hm|]. split; [exact Hr|].
    split; [exact (Hnone eq_refl eq_refl eq_refl eq_refl eq_refl)|]. split; [exact Hv|].
    apply Hmatch. repeat split; reflexivity.
Defined.

(** ** The validators and the orchestrator *)
Section Validators.

Import Str ConfigValidationService.

Variable IsAbsoluteUri : string -> bool.
Variable DeserializeATOMConfig : json -> result (option ATOMConfig.t).
Variable DeserializeJsonConfig : json -> result (option JsonConfig.t).

Lemma ValidateATOMConfig_consistent config r :
  ValidateATOMConfig IsAbsoluteUri config = Ok r -> ValidationResult.consistent r.
Proof.
  unfold ValidateATOMConfig. intros H.
  destruct (match ATOMConfig.Mocks config with Some (_ :: _) => _ | _ => _ end)
    as [[e2 w2]|]; [|discriminate]. simpl in H.
  destruct (match ATOMConfig.Target config with Some _ => _ | None => _ end)
    as [e3|]; [|discriminate]. simpl in H.
  injection H as <-. reflexivity.
Qed.

Lemma ValidateConfig_consistent config r :
  ValidateConfig config = Ok r -> ValidationResult.consistent r.
Proof.
  unfold ValidateConfig. intros H.
  destruct (match JsonConfig.Mappings config with Some (_ :: _) => _ | _ => _ end)
    as [[e2 w2]|]; [|discriminate]. simpl in H.
  injection H as <-. reflexivity.
Qed.

Lemma root_failure_consistent message :
  ValidationResult.consistent (root_failure message).
Proof. reflexivity. Qed.

(** The orchestrator returns a result whatever its [try] block does. *)
Lemma ValidateConfigFromJson_returns jsonElement :
  exists r,
    ValidateConfigFromJson IsAbsoluteUri DeserializeATOMConfig DeserializeJsonConfig
      jsonElement = Ok r.
Proof.
  unfold ValidateConfigFromJson, try_catch.
  destruct (ValidateConfigFromJson_try _ _ _ jsonElement) as [r|ex]; [eauto|].
  unfold ValidateConfigFromJson_catch. destruct (ExType ex); eauto.
Qed.

Lemma ValidateConfigFromJson_consistent jsonElement r :
  ValidateConfigFromJson IsAbsoluteUri DeserializeATOMConfig DeserializeJsonConfig
    jsonElement = Ok r ->
  ValidationResult.consistent r.
Proof.
  unfold ValidateConfigFromJson, try_catch.
  destruct (ValidateConfigFromJson_try _ _ _ jsonElement) as [r'|ex] eqn:Htry.
  - intros [= <-]. unfold ValidateConfigFromJson_try in Htry.
    destruct (TryGetProperty jsonElement "mocks") as [mocksProperty|]; [|discriminate].
    simpl in Htry.
    destruct (match mocksProperty with Some (JArr _) => true | _ => false end).
    + destruct (DeserializeATOMConfig jsonElement) as [[config|]|]; simpl in Htry.
      * eapply ValidateATOMConfig_consistent; eauto.
      * injection Htry as <-. reflexivity.
      * discriminate.
    + destruct (DeserializeJsonConfig jsonElement) as [[config|]|]; simpl in Htry.
      * eapply ValidateConfig_consistent; eauto.
      * injection Htry as <-. reflexivity.
      * discriminate.
  - unfold ValidateConfigFromJson_catch. destruct (ExType ex); intros [= <-]; reflexivity.
Qed.

(** An exception out of the [try] block becomes one root-level entry
    that carries its message, behind the prefix of the [catch] clause
    that took it. *)
Lemma ValidateConfigFromJson_caught jsonElement ex :
  ValidateConfigFromJson_try IsAbsoluteUri DeserializeATOMConfig DeserializeJsonConfig
    jsonElement = Throw ex ->
  exists message,
    ValidateConfigFromJson IsAbsoluteUri DeserializeATOMConfig DeserializeJsonConfig
      jsonElement
    = Ok {| ValidationResult.IsValid := false;
            ValidationResult.Errors :=
              [{| ValidationError.Path := "root";
                  ValidationError.Message := message;
                  ValidationError.Severity := "error" |}];
            ValidationResult.Warnings := [] |}
    /\ (ExType ex = JsonException -> message = "JSON parsing error: " +:+ Message ex)
    /\ (ExType ex <> JsonException -> message = "Validation error: " +:+ Message ex).
Proof.
  intros H. unfold ValidateConfigFromJson, try_catch. rewrite H.
  unfold ValidateConfigFromJson_catch.
  destruct (ExType ex) eqn:E; eexists; (split; [reflexivity|]);
    split; intros; congruence.
Qed.

(** C6: the orchestrator returns a [ValidationResult] for every input
    and never lets an exception out; an exception thrown while the
    document is classified or deserialized (or anywhere else in the
    [try] block) becomes exactly one error entry at "root" that carries
    the exception's message. *)
Theorem orchestrator_never_throws jsonElement :
  (exists r,
      ValidateConfigFromJson IsAbsoluteUri DeserializeATOMConfig DeserializeJsonConfig
        jsonElement = Ok r)
  /\ (forall ex,
        (TryGetProperty jsonElement "mocks" = Throw ex
         \/ ((exists elements, TryGetProperty jsonElement "mocks" = Ok (Some (JArr elements)))
             /\ DeserializeATOMConfig jsonElement = Throw ex)
         \/ ((exists property, TryGetProperty jsonElement "mocks" = Ok property
                               /\ forall elements, property <> Some (JArr elements))
             /\ DeserializeJsonConfig jsonElement = Throw ex)
         \/ ValidateConfigFromJson_try IsAbsoluteUri DeserializeATOMConfig
              DeserializeJsonConfig jsonElement = Throw ex) ->
        exists message,
          ValidateConfigFromJson IsAbsoluteUri DeserializeATOMConfig DeserializeJsonConfig
            jsonElement
          = Ok {| ValidationResult.IsValid := false;
                  ValidationResult.Errors :=
                    [{| ValidationError.Path := "root";
                        ValidationError.Message := message;
                        ValidationError.Severity := "error" |}];
                  ValidationResult.Warnings := [] |}
          /\ (ExType ex = JsonException ->
              message = "JSON parsing error: " +:+ Message ex)
          /\ (ExType ex <> JsonException ->
              message = "Validation error: " +:+ Message ex)).
Proof.
  split; [apply ValidateConfigFromJson_returns|].
  intros ex H. apply ValidateConfigFromJson_caught.
  unfold ValidateConfigFromJson_try.
  destruct H as [H | [[[elements He] H] | [[(property & Hp & Hne) H] | H]]].
  - rewrite H. reflexivity.
  - rewrite He. simpl. rewrite H. reflexivity.
  - rewrite Hp. simpl.
    destruct property as [[]|]; try (rewrite H; reflexivity).
    exfalso. eapply Hne. reflexivity.
  - exact H.
Qed.

(** *** The auth rule of the server *)

Lemma at_path_app path l1 l2 :
  at_path path (l1 ++ l2) = at_path path l1 ++ at_path path l2.
Proof. apply List.filter_app. Qed.

Lemma at_path_add_if_other path cond e :
  ValidationError.Path e <> path -> at_path path (add_if cond e) = [].
Proof.
  intros Hne. destruct cond; simpl; [|reflexivity].
  unfold Str.eqb. destruct (decide (ValidationError.Path e = path)); [contradiction | reflexivity].
Qed.

Lemma at_path_add_if_same path cond e :
  ValidationError.Path e = path -> at_path path (add_if cond e) = add_if cond e.
Proof.
  intros He. destruct cond; simpl; [|reflexivity].
  unfold Str.eqb. destruct (decide (ValidationError.Path e = path)); [reflexivity | contradiction].
Qed.

Ltac other_path :=
  repeat rewrite at_path_app;
  repeat (rewrite at_path_add_if_other by (simpl; discriminate));
  simpl; try reflexivity.

Lemma validate_mock_not_at_auth i mock e w :
  validate_mock IsAbsoluteUri i mock = Ok (e, w) -> at_path "target.auth" e = [].
Proof.
  unfold validate_mock.
  destruct (MockConfig.Request mock) as [request|]; [|discriminate].
  destruct (MockConfig.Response mock) as [response|]; [|discriminate].
  simpl. intros [= <- _].
  unfold validate_method, validate_response, validate_body.
  destruct (MockRequest.Method request) as [method|];
    [destruct (all_white method)|];
    destruct (MockResponse.Body response) as [body|];
    destruct (MockResponse.FixedDelayMilliseconds response) as [delay|];
    destruct (MockResponse.ProxyBaseUrl response) as [proxy|];
    other_path.
Qed.

Lemma validate_mocks_not_at_auth mocks : forall i e w,
  validate_mocks IsAbsoluteUri i mocks = Ok (e, w) -> at_path "target.auth" e = [].
Proof.
  induction mocks as [|mock rest IH]; intros i e w; simpl.
  - intros [= <- _]. reflexivity.
  - destruct (validate_mock IsAbsoluteUri i mock) as [[e1 w1]|] eqn:H1; [|discriminate].
    simpl.
    destruct (validate_mocks IsAbsoluteUri (S i) rest) as [[e2 w2]|] eqn:H2; [|discriminate].
    simpl. intros [= <- _].
    rewrite at_path_app, (validate_mock_not_at_auth _ _ _ _ H1), (IH _ _ _ H2).
    reflexivity.
Qed.

(** On the server the auth rule runs once for the document: a basic
    auth without username or password, or a bearer auth without token,
    gives exactly one entry at "target.auth", however many mocks there
    are. *)
Lemma server_auth_rule_once config r target auth type :
  ValidateATOMConfig IsAbsoluteUri config = Ok r ->
  ATOMConfig.Target config = Some target ->
  TargetConfig.Auth target = Some auth ->
  AuthConfig.Type_ auth = Some type ->
  (ToLower type = "basic"
   /\ (IsNullOrWhiteSpace (AuthConfig.Username auth)
       || IsNullOrWhiteSpace (AuthConfig.Password auth)) = true)
  \/ (ToLower type = "bearer" /\ IsNullOrWhiteSpace (AuthConfig.Token auth) = true) ->
  exists e, at_path "target.auth" (ValidationResult.Errors r) = [e].
Proof.
  unfold ValidateATOMConfig. intros H Ht Ha Hty Hrule.
  destruct (match ATOMConfig.Mocks config with Some (_ :: _) => _ | _ => _ end)
    as [[e2 w2]|] eqn:Hm; [|discriminate].
  simpl in H. rewrite Ht in H.
  unfold validate_target, validate_auth in H. rewrite Ha, Hty in H. simpl in H.
  injection H as <-. simpl.
  assert (He2 : at_path "target.auth" e2 = []).
  { destruct (ATOMConfig.Mocks config) as [[|mock rest]|].
    - injection Hm as <- _. reflexivity.
    - eapply validate_mocks_not_at_auth; eauto.
    - injection Hm as <- _. reflexivity. }
  rewrite !at_path_app, He2.
  rewrite (at_path_add_if_other _ _ (error "version" _)) by (simpl; discriminate).
  assert (Hbase : at_path "target.auth"
                    match TargetConfig.BaseUrl target with
                    | Some baseUrl =>
                        if all_white baseUrl
                        then [error "target.baseUrl"
                                "Target base URL is required when target is specified"]
                        else add_if (negb (IsAbsoluteUri baseUrl))
                               (error "target.baseUrl"
                                  ("Invalid base URL format: " +:+ baseUrl))
                    | None => [error "target.baseUrl"
                                 "Target base URL is required when target is specified"]
                    end = []).
  { destruct (TargetConfig.BaseUrl target) as [baseUrl|];
      [destruct (all_white baseUrl)|]; other_path. }
  rewrite Hbase.
  assert (Hd : at_path "target.auth" (validate_defaults (ATOMConfig.Defaults config)) = []).
  { unfold validate_defaults.
    destruct (ATOMConfig.Defaults config) as [d|]; [|reflexivity].
    destruct (DefaultsConfig.Priority d); other_path. }
  rewrite Hd.
  rewrite (at_path_add_if_other _ _ (error "target.auth.type" _)) by (simpl; discriminate).
  rewrite !at_path_add_if_same by reflexivity.
  destruct Hrule as [[Hb Hmiss] | [Hb Hmiss]]; rewrite Hb, Hmiss; simpl; eauto.
Qed.

End Validators.

(** ** The client-side validator *)
Section ClientValidator.

Import Str Client.

Variable NumberToString : Q -> string.
Variable StringToNumber : string -> option Q.
Variable URL_parses : string -> bool.

Abbreviation validate := (Client.validate NumberToString URL_parses).

(** The [oneOf] block filters the whole list of alternatives. *)
Lemma matchingSchemas_length alternatives data path :
  length (List.filter (fun subSchema => (length (validate subSchema data path) =? 0)%nat)
            alternatives)
  = valid_alternatives NumberToString URL_parses alternatives data path.
Proof.
  induction alternatives as [|sub rest IH]; simpl; [reflexivity|].
  destruct (validate sub data path); simpl; rewrite IH; reflexivity.
Qed.

Lemma validate_type_mismatch schema data path expected :
  type_mismatch (type schema) data = Some expected ->
  validate schema data path
  = [error path ("Expected " +:+ expected +:+ ", got " +:+ typeof data)].
Proof. destruct schema; simpl. intros ->. reflexivity. Qed.

Lemma validate_oneOf schema data path alternatives :
  oneOf schema = Some alternatives ->
  type_mismatch (type schema) data = None ->
  validate schema data path
  = validate (without_oneOf schema) data path
    ++ oneOf_errors (valid_alternatives NumberToString URL_parses alternatives data path)
         path.
Proof.
  destruct schema as [t r e m f p i a o]; simpl. intros -> Ht. rewrite Ht.
  rewrite matchingSchemas_length, app_nil_r.
  rewrite <- !app_assoc. reflexivity.
Qed.

Lemma valid_alternatives_app pre post data path :
  valid_alternatives NumberToString URL_parses (pre ++ post) data path
  = (valid_alternatives NumberToString URL_parses pre data path
     + valid_alternatives NumberToString URL_parses post data path)%nat.
Proof. induction pre as [|sub rest IH]; simpl; [reflexivity|]. rewrite IH. lia. Qed.

(** C8: every alternative of a [oneOf] is validated and counted, the
    ones after a first success included; when the node passes its type
    check the block adds "does not match any" for no valid alternative,
    "matches multiple" for more than one and nothing for exactly one,
    and with a count other than one the node never validates clean. *)
Theorem oneOf_exactly_one schema data path alternatives :
  oneOf schema = Some alternatives ->
  let n := valid_alternatives NumberToString URL_parses alternatives data path in
  (type_mismatch (type schema) data = None ->
     validate schema data path
     = validate (without_oneOf schema) data path ++ oneOf_errors n path)
  /\ (n = 0%nat ->
      oneOf_errors n path = [error path "Data does not match any of the required schemas"])
  /\ (n = 1%nat -> oneOf_errors n path = [])
  /\ ((1 < n)%nat ->
      oneOf_errors n path
      = [error path "Data matches multiple schemas when only one is allowed"])
  /\ (n <> 1%nat -> validate schema data path <> [])
  /\ (forall first second before between after,
        alternatives = before ++ first :: between ++ second :: after ->
        validate first data path = [] ->
        validate second data path = [] ->
        (1 < n)%nat).
Proof.
  intros Ho n.
  assert (Hzero : n = 0%nat ->
            oneOf_errors n path
            = [error path "Data does not match any of the required schemas"]).
  { intros ->. reflexivity. }
  assert (Hmany : (1 < n)%nat ->
            oneOf_errors n path
            = [error path "Data matches multiple schemas when only one is allowed"]).
  { intros Hn. unfold oneOf_errors.
    destruct (Nat.eqb_spec n 0); [lia|].
    destruct (Nat.ltb_spec 1 n); [reflexivity | lia]. }
  split; [intros Ht; apply validate_oneOf; assumption|].
  split; [exact Hzero|].
  split; [intros ->; reflexivity|].
  split; [exact Hmany|].
  split.
  - intros Hn.
    destruct (type_mismatch (type schema) data) as [expected|] eqn:Ht.
    + rewrite (validate_type_mismatch _ _ _ _ Ht). discriminate.
    + rewrite (validate_oneOf _ _ _ _ Ho Ht). fold n.
      destruct (Nat.eq_dec n 0%nat) as [Hz|Hz].
      * rewrite (Hzero Hz). intros H. apply app_eq_nil in H. destruct H; discriminate.
      * rewrite Hmany by lia. intros H. apply app_eq_nil in H. destruct H; discriminate.
  - intros first second before between after -> Hf Hs. subst n.
    rewrite valid_alternatives_app. simpl. rewrite Hf.
    rewrite valid_alternatives_app. simpl. rewrite Hs. lia.
Qed.

Lemma separate_consistent allErrors :
  ValidationResult.consistent (separate allErrors).
Proof. reflexivity. Qed.

Lemma validateATOMConfig_consistent config :
  ValidationResult.consistent
    (validateATOMConfig NumberToString StringToNumber URL_parses config).
Proof.
  unfold validateATOMConfig, validateATOMConfig_try.
  destruct (negb (truthy config) || negb (Str.eqb (typeof config) "object"));
    [reflexivity|].
  destruct (validateBusinessLogic _ _ config); reflexivity.
Qed.

(** Entries of severity "warning" never reach the list [isValid] is
    computed from. *)
Lemma separate_ignores_warnings allErrors warnings :
  Forall (fun w => ValidationError.Severity w = "warning") warnings ->
  ValidationResult.IsValid (separate (allErrors ++ warnings))
  = ValidationResult.IsValid (separate allErrors)
  /\ ValidationResult.Errors (separate (allErrors ++ warnings))
     = ValidationResult.Errors (separate allErrors).
Proof.
  intros Hw.
  assert (He : List.filter (has_severity "error") warnings = []).
  { induction Hw as [|w ws Hsev _ IH]; simpl; [reflexivity|].
    unfold has_severity at 1. rewrite Hsev. simpl. exact IH. }
  unfold separate; simpl. rewrite List.filter_app, He, app_nil_r. split; reflexivity.
Qed.

End ClientValidator.

(** A document whose root is an array: the classification throws, and
    the result is the one root entry. *)
Lemma orchestrator_never_throws_witness :
  exists message,
    ConfigValidationService.ValidateConfigFromJson
      (fun _ => true) (fun _ => Ok None) (fun _ => Ok None) (JArr [])
    = Ok {| ValidationResult.IsValid := false;
            ValidationResult.Errors :=
              [{| ValidationError.Path := "root";
                  ValidationError.Message := message;
                  ValidationError.Severity := "error" |}];
            ValidationResult.Warnings := [] |}
    /\ message = "Validation error: The requested operation requires an element of type 'Object', but the target element has type 'Array'.".
Proof.
  destruct (proj2 (orchestrator_never_throws
                     (fun _ => true) (fun _ => Ok None) (fun _ => Ok None) (JArr []))
              {| ExType := InvalidOperationException;
                 Message := "The requested operation requires an element of type 'Object', but the target element has type 'Array'." |}
              (or_introl eq_refl))
    as (message & Hr & _ & Hm).
  exists message. split; [exact Hr|]. apply Hm. discriminate.
Defined.

(** A file body against the body node of [ATOM_SCHEMA]: both
    alternatives validate it, and the node reports "matches multiple". *)
Lemma oneOf_exactly_one_witness :
  Client.validate (fun _ => "0") (fun _ => true) Client.bodySchema
    Samples.file_body_json "mocks[0].response.body"
  = Client.validate (fun _ => "0") (fun _ => true) (Client.without_oneOf Client.bodySchema)
      Samples.file_body_json "mocks[0].response.body"
    ++ [Client.error "mocks[0].response.body"
          "Data matches multiple schemas when only one is allowed"].
Proof.
  destruct (oneOf_exactly_one (fun _ => "0") (fun _ => true) Client.bodySchema
              Samples.file_body_json "mocks[0].response.body" _ eq_refl)
    as (Hsplit & _ & _ & Hmany & _).
  rewrite (Hsplit eq_refl). rewrite Hmany; [reflexivity | vm_compute; lia].
Defined.

(** C5: every result of validation has [IsValid] true exactly when its
    list of errors is empty: the canonical and the legacy validator of
    the server, the orchestrator (which always returns one) and the
    client's [validateATOMConfig]; so two results with the same errors
    agree on [IsValid] whatever their warnings, and entries of severity
    "warning" added to what the client collected change neither. *)
Theorem isValid_iff_no_errors :
  (forall IsAbsoluteUri config r,
      ConfigValidationService.ValidateATOMConfig IsAbsoluteUri config = Ok r ->
      ValidationResult.IsValid r = (length (ValidationResult.Errors r) =? 0)%nat)
  /\ (forall config r,
        ConfigValidationService.ValidateConfig config = Ok r ->
        ValidationResult.IsValid r = (length (ValidationResult.Errors r) =? 0)%nat)
  /\ (forall IsAbsoluteUri DeserializeATOMConfig DeserializeJsonConfig jsonElement,
        exists r,
          ConfigValidationService.ValidateConfigFromJson IsAbsoluteUri
            DeserializeATOMConfig DeserializeJsonConfig jsonElement = Ok r
          /\ ValidationResult.IsValid r = (length (ValidationResult.Errors r) =? 0)%nat)
  /\ (forall NumberToString StringToNumber URL_parses config,
        let r := Client.validateATOMConfig NumberToString StringToNumber URL_parses config in
        ValidationResult.IsValid r = (length (ValidationResult.Errors r) =? 0)%nat)
  /\ (forall r r',
        ValidationResult.consistent r -> ValidationResult.consistent r' ->
        ValidationResult.Errors r = ValidationResult.Errors r' ->
        ValidationResult.IsValid r = ValidationResult.IsValid r')
  /\ (forall allErrors warnings,
        Forall (fun w => ValidationError.Severity w = "warning") warnings ->
        ValidationResult.IsValid (Client.separate (allErrors ++ warnings))
        = ValidationResult.IsValid (Client.separate allErrors)).
Proof.
  repeat split.
  - intros. eapply ValidateATOMConfig_consistent; eauto.
  - intros. eapply ValidateConfig_consistent; eauto.
  - intros IsAbsoluteUri DA DL jsonElement.
    destruct (ValidateConfigFromJson_returns IsAbsoluteUri DA DL jsonElement) as [r Hr].
    exists r. split; [exact Hr|]. eapply ValidateConfigFromJson_consistent; eauto.
  - intros. apply validateATOMConfig_consistent.
  - unfold ValidationResult.consistent. intros r r' -> -> ->. reflexivity.
  - intros allErrors warnings Hw. apply separate_ignores_warnings. exact Hw.
Qed.

(** C7, in the client: [validateBusinessLogic] runs the auth rule inside
    the loop over the mocks.  For the document with basic auth without a
    password it reports the error at "target.auth" twice when there are
    two mocks and not at all when there is none; the server reports it
    once for the same document. *)
Theorem client_auth_rule_runs_per_mock NumberToString StringToNumber URL_parses :
  length (at_path "target.auth"
            (ValidationResult.Errors
               (Client.validateATOMConfig NumberToString StringToNumber URL_parses
                  Samples.two_mocks_json))) = 2%nat
  /\ length (at_path "target.auth"
               (ValidationResult.Errors
                  (Client.validateATOMConfig NumberToString StringToNumber URL_parses
                     Samples.no_mocks_json))) = 0%nat
  /\ exists r e,
       ConfigValidationService.ValidateATOMConfig (fun _ => true) Samples.two_mocks = Ok r
       /\ at_path "target.auth" (ValidationResult.Errors r) = [e].
Proof.
  split; [|split].
  - unfold Client.validateATOMConfig, Client.validateATOMConfig_try; simpl.
    destruct (URL_parses "http://localhost:8080"); reflexivity.
  - unfold Client.validateATOMConfig, Client.validateATOMConfig_try; simpl.
    destruct (URL_parses "http://localhost:8080"); reflexivity.
  - eexists. eexists. split; reflexivity.
Qed.

(** ** Batch deployment *)
Section Deployment.

Import Str WiremockAdminService ConfigController.

Variable World : Type.
Variable SendAsync : HttpRequestMessage -> World -> result HttpResponseMessage * World.
Variable Serialize : WiremockMapping.t -> string.
Variable Deserialize : string -> result (option WiremockMapping.t).
Variable ToBase64String : string -> string.
Variable UriFormatError : string -> option Exception.
Variable HeaderFormatError : string -> string -> option Exception.

Abbreviation create :=
  (CreateMappingAsync World SendAsync Serialize Deserialize
     ToBase64String UriFormatError HeaderFormatError).
Abbreviation foreach :=
  (CreateMappings_foreach World SendAsync Serialize Deserialize
     ToBase64String UriFormatError HeaderFormatError).
Abbreviation run :=
  (CreateMappings_run World SendAsync Serialize Deserialize
     ToBase64String UriFormatError HeaderFormatError).
Abbreviation attempted :=
  (attempts World SendAsync Serialize Deserialize
     ToBase64String UriFormatError HeaderFormatError).

Ltac use_IH :=
  match goal with
  | IH : forall lists w, exists entries, _
    |- context [WiremockAdminService.CreateMappings_foreach _ _ _ _ _ _ _ _ _ _ ?l ?w'] =>
      let entries' := fresh "entries'" in
      let H := fresh "H" in
      destruct (IH l w') as [entries' H]; rewrite H; clear H
  end.

Lemma attempts_length wiremockBaseUrl auth mappings : forall w,
  length (attempted wiremockBaseUrl auth mappings w).1 = length mappings.
Proof.
  induction mappings as [|mapping rest IH]; intros w; simpl; [reflexivity|].
  destruct (create wiremockBaseUrl mapping auth w) as [[outcome w'] entries].
  specialize (IH w').
  destruct (attempted wiremockBaseUrl auth rest w') as [outcomes w'']. simpl in *.
  rewrite IH. reflexivity.
Qed.

(** The loop goes through the whole list: what it leaves in its two
    lists is what the attempts on every mapping give. *)
Lemma CreateMappings_foreach_attempts wiremockBaseUrl auth mappings :
  Forall has_request mappings ->
  forall lists w,
  exists entries,
    foreach wiremockBaseUrl auth mappings lists w
    = (Ok {| createdMappings :=
               createdMappings lists
               ++ successes (attempted wiremockBaseUrl auth mappings w).1;
             failures :=
               failures lists
               ++ failed mappings (attempted wiremockBaseUrl auth mappings w).1 |},
       (attempted wiremockBaseUrl auth mappings w).2, entries).
Proof.
  induction 1 as [|mapping rest Hreq _ IH]; intros lists w; simpl.
  - exists []. rewrite !app_nil_r. destruct lists; reflexivity.
  - unfold CreateMappings_body, CreateMappings_catch.
    destruct (WiremockMapping.Request mapping) as [request|] eqn:Hq;
      [|exfalso; apply Hreq; exact Hq].
    destruct (create wiremockBaseUrl mapping auth w) as [[[created|ex] w'] entries];
      simpl.
    + destruct (WiremockMapping.Request created) as [crequest|] eqn:Hc; simpl.
      * use_IH. destruct (attempted wiremockBaseUrl auth rest w') as [outcomes w'']. simpl.
        rewrite Hc. simpl. rewrite <- app_assoc. simpl. eauto.
      * use_IH. destruct (attempted wiremockBaseUrl auth rest w') as [outcomes w'']. simpl.
        rewrite Hc. unfold description. rewrite Hq. simpl.
        rewrite <- !app_assoc. simpl. eauto.
    + use_IH. destruct (attempted wiremockBaseUrl auth rest w') as [outcomes w'']. simpl.
      unfold description. rewrite Hq. simpl.
      rewrite <- !app_assoc. simpl. eauto.
Qed.

(** The action answers every request: nothing gets past its [catch]. *)
Lemma DeployMappings_returns request w :
  exists response w' entries,
    DeployMappings World SendAsync Serialize Deserialize
        ToBase64String UriFormatError HeaderFormatError request w
    = (Ok response, w', entries).
Proof.
  unfold DeployMappings.
  destruct (DeployMappings_try World SendAsync Serialize Deserialize
      ToBase64String UriFormatError HeaderFormatError request w)
    as [[[response|ex] w'] entries]; eauto.
Qed.

(** C2, as the code has it: for a batch of mappings that each carry a
    request, every mapping is attempted, in order and whatever the
    earlier outcomes; the created mappings and the failure messages are
    collected in two lists; [CreateMappingsAsync] does not throw and
    returns the created mappings alone, the failures going to the log
    in one warning; [DeployMappings] answers with the count and the
    summaries of the created mappings, and answers every request. *)
Theorem batch_deploy_partial_failure wiremockBaseUrl mappings auth w :
  Forall has_request mappings ->
  let outcomes := (attempted wiremockBaseUrl auth mappings w).1 in
  let w_end := (attempted wiremockBaseUrl auth mappings w).2 in
  length outcomes = length mappings
  /\ (exists entries,
        run wiremockBaseUrl mappings auth w
        = (Ok {| createdMappings := successes outcomes;
                 failures := failed mappings outcomes |}, w_end, entries)
        /\ CreateMappingsAsync World SendAsync Serialize Deserialize
            ToBase64String UriFormatError HeaderFormatError
             wiremockBaseUrl mappings auth w
           = (Ok (successes outcomes), w_end, entries)
        /\ (failed mappings outcomes <> [] ->
            In {| Level := LogWarning; Exn := None;
                  Template := "Failed to create {FailureCount} mappings: {Failures}";
                  Args := [of_nat (length (failed mappings outcomes));
                           Join ", " (failed mappings outcomes)] |} entries))
  /\ (all_white wiremockBaseUrl = false -> mappings <> [] ->
      exists message entries,
        DeployMappings World SendAsync Serialize Deserialize
            ToBase64String UriFormatError HeaderFormatError
          {| TargetUrl := Some wiremockBaseUrl; Mappings := Some mappings; Auth := auth |} w
        = (Ok (Ok_ true message
                 {| target := wiremockBaseUrl;
                    mappingsCount := length (successes outcomes);
                    mappings := map summary (successes outcomes) |}),
           w_end, entries))
  /\ (forall request w0,
        exists response w' entries,
          DeployMappings World SendAsync Serialize Deserialize
              ToBase64String UriFormatError HeaderFormatError request w0
          = (Ok response, w', entries)).
Proof.
  intros Hreq outcomes w_end.
  destruct (CreateMappings_foreach_attempts wiremockBaseUrl auth mappings Hreq
              {| createdMappings := []; failures := [] |} w) as [entries Hloop].
  simpl in Hloop. fold outcomes w_end in Hloop.
  assert (Hrun : exists entries',
             run wiremockBaseUrl mappings auth w
             = (Ok {| createdMappings := successes outcomes;
                      failures := failed mappings outcomes |}, w_end, entries')
             /\ (failed mappings outcomes <> [] ->
                 In {| Level := LogWarning; Exn := None;
                       Template := "Failed to create {FailureCount} mappings: {Failures}";
                       Args := [of_nat (length (failed mappings outcomes));
                                Join ", " (failed mappings outcomes)] |} entries')).
  { unfold CreateMappings_run. rewrite Hloop. eexists. split; [reflexivity|].
    intros Hf. simpl.
    destruct (failed mappings outcomes) as [|f fs] eqn:Hfs; [contradiction|].
    right. apply in_or_app. right. right. left. reflexivity. }
  destruct Hrun as (entries' & Hrun & Hlog).
  assert (Hcreate : CreateMappingsAsync World SendAsync Serialize Deserialize
      ToBase64String UriFormatError HeaderFormatError
                      wiremockBaseUrl mappings auth w
                    = (Ok (successes outcomes), w_end, entries')).
  { unfold CreateMappingsAsync. rewrite Hrun. reflexivity. }
  split; [apply attempts_length|].
  split; [eauto|].
  split; [|intros; apply DeployMappings_returns].
  intros Hurl Hne.
  unfold DeployMappings, DeployMappings_try; simpl. rewrite Hurl.
  destruct mappings as [|mapping rest]; [contradiction|].
  rewrite Hcreate. eauto.
Qed.

End Deployment.

(** Scenario E: the second create fails, the first and the third
    mapping are created and returned. *)
Lemma batch_deploy_partial_failure_witness :
  exists entries,
    WiremockAdminService.CreateMappingsAsync nat Samples.second_fails Samples.no_text
      Samples.null_content
          Samples.plain Samples.well_formed Samples.accepted "http://localhost:8080"
          Samples.scenarioE None 0%nat
    = (Ok [Samples.deployable "/a"; Samples.deployable "/c"], 3%nat, entries).
Proof.
  destruct (batch_deploy_partial_failure nat Samples.second_fails Samples.no_text
              Samples.null_content
                  Samples.plain Samples.well_formed Samples.accepted "http://localhost:8080"
                  Samples.scenarioE
              None 0%nat) as (_ & (entries & _ & Hcreate & _) & _).
  - repeat constructor; discriminate.
  - exists entries. exact Hcreate.
Defined.

(** C2 as stated fails on the result: the response to the batch of
    scenario E, whose second create fails, is the response to the batch of
    the two other mappings on a server that accepts everything, while the
    first run collected one failure and the second none. *)
Lemma deploy_result_omits_failures :
  (ConfigController.DeployMappings nat Samples.second_fails Samples.no_text
     Samples.null_content
         Samples.plain Samples.well_formed Samples.accepted (Samples.deploy_request
         Samples.scenarioE) 0%nat).1.1
  = (ConfigController.DeployMappings nat Samples.reliable Samples.no_text
       Samples.null_content Samples.plain Samples.well_formed Samples.accepted
       (Samples.deploy_request [Samples.deployable "/a"; Samples.deployable "/c"]) 0%nat).1.1
  /\ (exists lists,
        (WiremockAdminService.CreateMappings_run nat Samples.second_fails Samples.no_text
           Samples.null_content
               Samples.plain Samples.well_formed Samples.accepted "http://localhost:8080"
               Samples.scenarioE
           None 0%nat).1.1 = Ok lists
        /\ WiremockAdminService.failures lists = ["GET /b: Connection refused"])
  /\ (exists lists,
        (WiremockAdminService.CreateMappings_run nat Samples.reliable Samples.no_text
           Samples.null_content
               Samples.plain Samples.well_formed Samples.accepted "http://localhost:8080"
           [Samples.deployable "/a"; Samples.deployable "/c"] None 0%nat).1.1 = Ok lists
        /\ WiremockAdminService.failures lists = []).
Proof.
  split; [reflexivity|]. split; eexists; split; reflexivity.
Qed.

(** ** Generation, the store and the ids *)
Section LegacyGeneration.

Import Str MappingService.

Variable NewGuidString : nat -> string.

Lemma set_Id_ok σ mapping m id :
  heap σ !! mapping = Some m ->
  set_Id mapping id σ
  = (Ok tt,
     {| heap := <[mapping := WiremockMapping.with_Id (Some id) m]> (heap σ);
        next_loc := next_loc σ; _mappings := _mappings σ; guids := guids σ |}).
Proof. intros H. unfold set_Id. rewrite H. reflexivity. Qed.

(** [CreateMappingAsync] gives the object a new GUID for id, whatever
    id it had. *)
Lemma CreateMappingAsync_ok σ mapping m :
  heap σ !! mapping = Some m ->
  CreateMappingAsync NewGuidString mapping σ
  = (Ok mapping,
     {| heap := <[mapping := WiremockMapping.with_Id (Some (NewGuidString (guids σ))) m]>
                  (heap σ);
        next_loc := next_loc σ;
        _mappings := <[NewGuidString (guids σ) := mapping]> (_mappings σ);
        guids := S (guids σ) |}).
Proof.
  intros H. unfold CreateMappingAsync, mbind, M_bind, NewGuid; simpl.
  erewrite set_Id_ok by exact H. reflexivity.
Qed.

(** One round of the [foreach]: the object ends with a generated id and
    is otherwise as it was; no other object changes. *)
Lemma GenerateMappings_round σ mapping m rest generatedMappings :
  heap σ !! mapping = Some m ->
  exists σ' k,
    GenerateMappings_foreach NewGuidString (mapping :: rest) generatedMappings σ
    = GenerateMappings_foreach NewGuidString rest (generatedMappings ++ [mapping]) σ'
    /\ heap σ' = <[mapping := WiremockMapping.with_Id (Some (NewGuidString k)) m]> (heap σ).
Proof.
  intros H. simpl. unfold mbind at 1, M_bind at 1, read at 1. rewrite H. simpl.
  destruct (IsNullOrWhiteSpace (WiremockMapping.Id m)).
  - unfold mbind at 1, M_bind at 1. unfold mbind at 1, M_bind at 1, NewGuid at 1.
    erewrite set_Id_ok by (simpl; exact H).
    unfold mbind at 1, M_bind at 1.
    erewrite CreateMappingAsync_ok by (simpl; apply lookup_insert_eq).
    simpl. eexists. exists (S (guids σ)). split; [reflexivity|]. simpl.
    rewrite insert_insert_eq. reflexivity.
  - unfold mbind at 1, M_bind at 1. simpl.
    unfold mbind at 1, M_bind at 1.
    erewrite CreateMappingAsync_ok by exact H.
    eexists. exists (guids σ). split; reflexivity.
Qed.

Lemma GenerateMappings_foreach_spec mappings : forall generatedMappings σ,
  NoDup mappings ->
  (forall l, l ∈ mappings -> is_Some (heap σ !! l)) ->
  exists σ',
    GenerateMappings_foreach NewGuidString mappings generatedMappings σ
    = (Ok (generatedMappings ++ mappings), σ')
    /\ (forall l m, l ∈ mappings -> heap σ !! l = Some m ->
        exists k, heap σ' !! l = Some (WiremockMapping.with_Id (Some (NewGuidString k)) m))
    /\ (forall l, l ∉ mappings -> heap σ' !! l = heap σ !! l).
Proof.
  induction mappings as [|mapping rest IH]; intros generatedMappings σ Hnd Hall.
  - exists σ. simpl. rewrite app_nil_r. split; [reflexivity|]. split; [|reflexivity].
    intros l m Hl. inversion Hl.
  - apply NoDup_cons in Hnd as [Hnotin Hnd].
    destruct (Hall mapping) as [m Hm]; [left|].
    destruct (GenerateMappings_round σ mapping m rest generatedMappings Hm)
      as (σ1 & k & Hstep & Hheap).
    destruct (IH (generatedMappings ++ [mapping]) σ1 Hnd) as (σ' & Hrun & Hin & Hout).
    { intros l Hl. rewrite Hheap, lookup_insert_ne.
      - apply Hall. right. exact Hl.
      - intros ->. contradiction. }
    exists σ'. rewrite Hstep, Hrun, <- app_assoc. split; [reflexivity|]. split.
    + intros l m' Hl Hm'. apply elem_of_cons in Hl as [-> | Hl].
      * exists k. rewrite (Hout mapping Hnotin), Hheap, lookup_insert_eq.
        congruence.
      * apply (Hin l m' Hl). rewrite Hheap, lookup_insert_ne; [exact Hm'|].
        intros ->. contradiction.
    + intros l Hl. apply not_elem_of_cons in Hl as [Hne Hl].
      rewrite (Hout l Hl), Hheap, lookup_insert_ne; [reflexivity | congruence].
Qed.

Lemma alloc_all_spec ms : forall σ,
  exists σ',
    alloc_all ms σ = (Ok (seq (next_loc σ) (length ms)), σ')
    /\ (forall i m, ms !! i = Some m -> heap σ' !! (next_loc σ + i)%nat = Some m)
    /\ (forall l, (l < next_loc σ)%nat -> heap σ' !! l = heap σ !! l).
Proof.
  induction ms as [|m rest IH]; intros σ.
  - exists σ. split; [reflexivity|]. split; [|reflexivity]. intros i m Hi. inversion Hi.
  - simpl. unfold mbind at 1, M_bind at 1, alloc at 1.
    destruct (IH {| heap := <[next_loc σ := m]> (heap σ); next_loc := S (next_loc σ);
                    _mappings := _mappings σ; guids := guids σ |})
      as (σ' & Hrun & Hnew & Hold). simpl in Hrun, Hnew, Hold.
    unfold mbind at 1, M_bind at 1. rewrite Hrun. simpl.
    exists σ'. split; [reflexivity|]. split.
    + intros [|i] m' Hi; simpl in Hi.
      * injection Hi as <-. rewrite Nat.add_0_r, Hold by lia. apply lookup_insert_eq.
      * replace (next_loc σ + S i)%nat with (S (next_loc σ) + i)%nat by lia.
        apply Hnew. exact Hi.
    + intros l Hl. rewrite Hold by lia. apply lookup_insert_ne. lia.
Qed.

(** A legacy document is normalized one mapping to one mapping, in
    order, and each mapping of the result is the mapping of the document
    with a generated GUID for id. *)
Lemma GenerateMappingsAsync_generated_ids ms :
  exists refs σ,
    (refs ← alloc_all ms; GenerateMappingsAsync NewGuidString (Some refs)) empty
    = (Ok refs, σ)
    /\ Forall2 (fun m object =>
                  exists k, object = Some (WiremockMapping.with_Id
                                              (Some (NewGuidString k)) m))
         ms (objects σ refs).
Proof.
  destruct (alloc_all_spec ms empty) as (σ0 & Halloc & Hnew & _). simpl in Halloc, Hnew.
  destruct (GenerateMappings_foreach_spec (seq 0 (length ms)) [] σ0) as (σ & Hrun & Hin & _).
  { apply NoDup_seq. }
  { intros l Hl. apply elem_of_seq in Hl.
    destruct (lookup_lt_is_Some_2 ms l) as [m Hm]; [lia|].
    exists m. exact (Hnew l m Hm). }
  exists (seq 0 (length ms)), σ. split.
  - unfold mbind at 1, M_bind at 1. rewrite Halloc.
    unfold GenerateMappingsAsync, mbind, M_bind, lift; simpl. exact Hrun.
  - apply Forall2_same_length_lookup. split.
    + unfold objects. rewrite length_map, length_seq. reflexivity.
    + intros i m object Hm Ho. unfold objects in Ho.
      rewrite list_lookup_fmap in Ho.
      assert (Hi : (i < length ms)%nat) by (eapply lookup_lt_Some; eauto).
      rewrite lookup_seq_lt in Ho by exact Hi. simpl in Ho. injection Ho as <-.
      apply Hin; [apply elem_of_seq; lia | exact (Hnew i m Hm)].
Qed.

(** C3, at a legacy mapping that comes with the id "order-1": the
    mapping [GenerateMappingsAsync] returns carries the GUID that
    [CreateMappingAsync] generated, not the id it came with; the rest of
    the mapping is unchanged and the store files it under the new id. *)
Theorem GenerateMappingsAsync_overwrites_id :
  exists refs σ loc,
    (refs ← alloc_all [Samples.legacy_mapping];
     GenerateMappingsAsync NewGuidString (Some refs)) empty = (Ok refs, σ)
    /\ WiremockMapping.Id Samples.legacy_mapping = Some "order-1"
    /\ objects σ refs
       = [Some (WiremockMapping.with_Id (Some (NewGuidString 0)) Samples.legacy_mapping)]
    /\ refs = [loc]
    /\ _mappings σ !! NewGuidString 0 = Some loc.
Proof.
  eexists. eexists. exists 0%nat. split; [reflexivity|].
  split; [reflexivity|]. split; [reflexivity|]. split; [reflexivity|].
  simpl. apply lookup_insert_eq.
Qed.

(** *** Canonical generation *)

Lemma GenerateMappingsFromATOM_foreach_spec config mocks : forall generatedMappings σ,
  Forall convertible mocks ->
  exists σ',
    GenerateMappingsFromATOM_foreach NewGuidString config mocks generatedMappings σ
    = (Ok (generatedMappings ++ seq (next_loc σ) (length mocks)), σ')
    /\ (forall l, (l < next_loc σ)%nat -> heap σ' !! l = heap σ !! l)
    /\ (forall i mock, mocks !! i = Some mock ->
        exists id k m,
          ConvertToWiremockMapping id mock config = Ok m
          /\ heap σ' !! (next_loc σ + i)%nat
             = Some (WiremockMapping.with_Id (Some (NewGuidString k)) m)).
Proof.
  induction mocks as [|mock rest IH]; intros generatedMappings σ Hall.
  - exists σ. simpl. rewrite app_nil_r. split; [reflexivity|]. split; [reflexivity|].
    intros i mock Hi. inversion Hi.
  - apply Forall_cons in Hall as [[(request & Hq & Hnf) [response Hp]] Hall].
    destruct (ConvertToWiremockMapping_total (NewGuidString (guids σ)) mock config
                request response Hq Hp Hnf) as [m Hm].
    simpl. unfold mbind at 1, M_bind at 1, NewGuid at 1.
    unfold mbind at 1, M_bind at 1, lift at 1. rewrite Hm.
    unfold mbind at 1, M_bind at 1, alloc at 1.
    unfold mbind at 1, M_bind at 1.
    erewrite CreateMappingAsync_ok by (simpl; apply lookup_insert_eq). simpl.
    rewrite insert_insert_eq.
    match goal with
    | |- context [GenerateMappingsFromATOM_foreach _ _ _ ?acc ?σ1] =>
        destruct (IH acc σ1 Hall) as (σ' & Hrun & Hold & Hnew); rewrite Hrun
    end.
    simpl in Hold, Hnew.
    exists σ'. simpl. rewrite <- app_assoc. split; [reflexivity|]. split.
    + intros l Hl. rewrite Hold by lia. apply lookup_insert_ne. lia.
    + intros [|i] mock' Hi; simpl in Hi.
      * injection Hi as <-. exists (NewGuidString (guids σ)), (S (guids σ)), m.
        split; [exact Hm|].
        rewrite Nat.add_0_r, Hold by lia. apply lookup_insert_eq.
      * replace (next_loc σ + S i)%nat with (S (next_loc σ) + i)%nat by lia.
        apply Hnew. exact Hi.
Qed.

(** A canonical document is transformed one mock to one mapping, in
    the order of [mocks]: each mapping of the result is what
    [ConvertToWiremockMapping] built for its mock, with the GUID
    [CreateMappingAsync] gave it for id. *)
Lemma GenerateMappingsFromATOMAsync_objects config mocks :
  ATOMConfig.Mocks config = Some mocks ->
  Forall convertible mocks ->
  exists refs σ,
    GenerateMappingsFromATOMAsync NewGuidString config empty = (Ok refs, σ)
    /\ Forall2 (fun mock object =>
                  exists id k m,
                    ConvertToWiremockMapping id mock config = Ok m
                    /\ object = Some (WiremockMapping.with_Id (Some (NewGuidString k)) m))
         mocks (objects σ refs).
Proof.
  intros Hmocks Hall.
  destruct (GenerateMappingsFromATOM_foreach_spec config mocks [] empty Hall)
    as (σ & Hrun & _ & Hnew).
  simpl in Hrun, Hnew.
  exists (seq 0 (length mocks)), σ. split.
  - unfold GenerateMappingsFromATOMAsync, mbind, M_bind, lift. rewrite Hmocks. exact Hrun.
  - apply Forall2_same_length_lookup. split.
    + unfold objects. rewrite length_map, length_seq. reflexivity.
    + intros i mock object Hm Ho. unfold objects in Ho.
      rewrite list_lookup_fmap in Ho.
      assert (Hi : (i < length mocks)%nat) by (eapply lookup_lt_Some; eauto).
      rewrite lookup_seq_lt in Ho by exact Hi. simpl in Ho. injection Ho as <-.
      exact (Hnew i mock Hm).
Qed.

End LegacyGeneration.

(** ** The rules of the server validators *)
Section ValidityRules.

Import Str ConfigValidationService Validity.

Variable IsAbsoluteUri : string -> bool.

Lemma no_entry_app {A} (a b : list A) :
  (length (a ++ b) =? 0)%nat = (length a =? 0)%nat && (length b =? 0)%nat.
Proof. destruct a; reflexivity. Qed.

Lemma no_entry_add_if {A} cond (e : A) :
  (length (add_if cond e) =? 0)%nat = negb cond.
Proof. destruct cond; reflexivity. Qed.

Lemma in_range_100_599 status :
  negb ((status <? 100) || (status >? 599)) = (100 <=? status) && (status <=? 599).
Proof.
  rewrite Z.gtb_ltb.
  destruct (Z.ltb_spec status 100), (Z.ltb_spec 599 status),
    (Z.leb_spec 100 status), (Z.leb_spec status 599); simpl; try reflexivity; lia.
Qed.

Lemma in_range_100_600 status :
  negb ((status <? 100) || (status >=? 600)) = (100 <=? status) && (status <=? 599).
Proof.
  rewrite Z.geb_leb.
  destruct (Z.ltb_spec status 100), (Z.leb_spec 600 status),
    (Z.leb_spec 100 status), (Z.leb_spec status 599); simpl; try reflexivity; lia.
Qed.

(** *** The legacy validator *)

Lemma validate_mapping_no_error i mapping e w :
  validate_mapping i mapping = Ok (e, w) ->
  (length e =? 0)%nat = legacy_mapping_ok mapping.
Proof.
  unfold validate_mapping, legacy_mapping_ok.
  destruct (WiremockMapping.Request mapping) as [request|]; [|discriminate].
  destruct (WiremockMapping.Response mapping) as [response|]; [|discriminate].
  simpl. intros [= <- _].
  rewrite !no_entry_app, !no_entry_add_if, in_range_100_599, !andb_assoc. reflexivity.
Qed.

Lemma validate_mappings_no_error mappings : forall i e w,
  validate_mappings i mappings = Ok (e, w) ->
  (length e =? 0)%nat = forallb legacy_mapping_ok mappings.
Proof.
  induction mappings as [|mapping rest IH]; intros i e w; simpl.
  - intros [= <- _]. reflexivity.
  - destruct (validate_mapping i mapping) as [[e1 w1]|] eqn:H1; [|discriminate]. simpl.
    destruct (validate_mappings (S i) rest) as [[e2 w2]|] eqn:H2; [|discriminate]. simpl.
    intros [= <- _].
    rewrite no_entry_app, (validate_mapping_no_error _ _ _ _ H1), (IH _ _ _ H2).
    reflexivity.
Qed.

(** X1: a legacy document that [ValidateConfig] gives a result for is
    valid exactly when it has a name, at least one mapping, and every
    mapping has a method, a URL or a URL pattern, and a status from 100
    to 599; the version and the body fields only ever give warnings. *)
Theorem legacy_valid_iff config r :
  ValidateConfig config = Ok r ->
  ValidationResult.IsValid r = legacy_ok config.
Proof.
  unfold ValidateConfig, legacy_ok. intros H.
  destruct (JsonConfig.Mappings config) as [[|mapping rest]|].
  - simpl in H. injection H as <-. simpl.
    rewrite no_entry_app, no_entry_add_if. simpl. rewrite !andb_false_r. reflexivity.
  - destruct (validate_mappings 0 (mapping :: rest)) as [[e2 w2]|] eqn:H2; [|discriminate].
    simpl in H. injection H as <-. simpl ValidationResult.IsValid.
    rewrite no_entry_app, no_entry_add_if, (validate_mappings_no_error _ _ _ _ H2).
    reflexivity.
  - simpl in H. injection H as <-. simpl.
    rewrite no_entry_app, no_entry_add_if. simpl. rewrite !andb_false_r. reflexivity.
Qed.

(** The legacy template: a valid document. *)
Lemma legacy_valid_iff_witness :
  exists r,
    ValidateConfig legacy_sample = Ok r /\ ValidationResult.IsValid r = true.
Proof.
  eexists. split; [reflexivity|].
  exact (legacy_valid_iff legacy_sample _ eq_refl).
Defined.

(** *** The canonical validator *)

Lemma validate_method_no_error pathPrefix request :
  (length (validate_method pathPrefix request) =? 0)%nat = method_ok request.
Proof.
  unfold validate_method, method_ok.
  destruct (MockRequest.Method request) as [method|]; [|reflexivity].
  destruct (all_white method); [reflexivity|].
  rewrite no_entry_add_if, negb_involutive. reflexivity.
Qed.

Lemma validate_body_no_error pathPrefix body :
  (length (validate_body pathPrefix body) =? 0)%nat = body_ok body.
Proof.
  unfold validate_body, body_ok.
  rewrite !no_entry_app, !no_entry_add_if.
  destruct (equals (ResponseBody.Type_ body) "inline") eqn:Ei;
    destruct (equals (ResponseBody.Type_ body) "file") eqn:Ef;
    destruct (IsNullOrWhiteSpace (ResponseBody.Value body));
    destruct (IsNullOrWhiteSpace (ResponseBody.FileName body)); try reflexivity.
  all: exfalso; unfold equals, Str.eqb in Ei, Ef;
    destruct (ResponseBody.Type_ body) as [t|]; [|discriminate];
    destruct (decide (t = "inline")) as [->|]; [|discriminate];
    destruct (decide ("inline" = "file")); discriminate.
Qed.

Lemma validate_response_no_error pathPrefix response :
  (length (validate_response IsAbsoluteUri pathPrefix response) =? 0)%nat
  = response_ok IsAbsoluteUri response.
Proof.
  unfold validate_response, response_ok.
  rewrite !no_entry_app, no_entry_add_if, in_range_100_600, !andb_assoc.
  f_equal; [f_equal; [f_equal|]|].
  - destruct (MockResponse.Body response); [apply validate_body_no_error | reflexivity].
  - destruct (MockResponse.FixedDelayMilliseconds response) as [delay|]; [|reflexivity].
    rewrite no_entry_add_if. destruct (Z.ltb_spec delay 0), (Z.leb_spec 0 delay);
      simpl; try reflexivity; lia.
  - destruct (MockResponse.ProxyBaseUrl response) as [proxy|]; [|reflexivity].
    rewrite no_entry_add_if, negb_andb, !negb_involutive. reflexivity.
Qed.

Lemma validate_mock_no_error i mock e w :
  validate_mock IsAbsoluteUri i mock = Ok (e, w) ->
  (length e =? 0)%nat = mock_ok IsAbsoluteUri mock.
Proof.
  unfold validate_mock, mock_ok.
  destruct (MockConfig.Request mock) as [request|]; [|discriminate].
  destruct (MockConfig.Response mock) as [response|]; [|discriminate].
  simpl. intros [= <- _].
  rewrite no_entry_app, validate_method_no_error, validate_response_no_error.
  reflexivity.
Qed.

Lemma validate_mocks_no_error mocks : forall i e w,
  validate_mocks IsAbsoluteUri i mocks = Ok (e, w) ->
  (length e =? 0)%nat = forallb (mock_ok IsAbsoluteUri) mocks.
Proof.
  induction mocks as [|mock rest IH]; intros i e w; simpl.
  - intros [= <- _]. reflexivity.
  - destruct (validate_mock IsAbsoluteUri i mock) as [[e1 w1]|] eqn:H1; [|discriminate].
    simpl.
    destruct (validate_mocks IsAbsoluteUri (S i) rest) as [[e2 w2]|] eqn:H2;
      [|discriminate].
    simpl. intros [= <- _].
    rewrite no_entry_app, (validate_mock_no_error _ _ _ _ H1), (IH _ _ _ H2).
    reflexivity.
Qed.

Lemma validate_target_no_error target e :
  validate_target IsAbsoluteUri target = Ok e ->
  (length e =? 0)%nat = target_ok IsAbsoluteUri target.
Proof.
  unfold validate_target, target_ok, validate_auth, auth_ok. intros H.
  destruct (TargetConfig.Auth target) as [auth|].
  - destruct (AuthConfig.Type_ auth) as [type|]; [|discriminate].
    simpl in H. injection H as <-.
    rewrite !no_entry_app, !no_entry_add_if, negb_involutive, !andb_assoc.
    f_equal. f_equal. f_equal.
    destruct (TargetConfig.BaseUrl target) as [baseUrl|]; [|reflexivity].
    destruct (all_white baseUrl); [reflexivity|].
    rewrite no_entry_add_if, negb_involutive. reflexivity.
  - simpl in H. injection H as <-. rewrite app_nil_r, andb_true_r.
    destruct (TargetConfig.BaseUrl target) as [baseUrl|]; [|reflexivity].
    destruct (all_white baseUrl); [reflexivity|].
    rewrite no_entry_add_if, negb_involutive. reflexivity.
Qed.

Lemma validate_defaults_no_error defaults :
  (length (validate_defaults defaults) =? 0)%nat = defaults_ok defaults.
Proof.
  unfold validate_defaults, defaults_ok.
  destruct defaults as [d|]; [|reflexivity].
  destruct (DefaultsConfig.Priority d) as [p|]; [|reflexivity].
  rewrite no_entry_add_if. destruct (Z.ltb_spec p 1), (Z.leb_spec 1 p);
    simpl; try reflexivity; lia.
Qed.

(** X2: a canonical document that [ValidateATOMConfig] gives a result
    for is valid exactly when it has a version, at least one mock, every
    mock has one of the eight methods (in any case), a status from 100 to
    599, a consistent body, no negative delay and an absolute proxy URL
    if any, the target (if any) has an absolute base URL and complete
    auth, and the default priority (if any) is at least 1. *)
Theorem canonical_valid_iff config r :
  ValidateATOMConfig IsAbsoluteUri config = Ok r ->
  ValidationResult.IsValid r = canonical_ok IsAbsoluteUri config.
Proof.
  unfold ValidateATOMConfig, canonical_ok. intros H.
  destruct (match ATOMConfig.Mocks config with Some (_ :: _) => _ | _ => _ end)
    as [[e2 w2]|] eqn:Hm; [|discriminate].
  simpl in H.
  destruct (match ATOMConfig.Target config with Some _ => _ | None => _ end)
    as [e3|] eqn:Ht; [|discriminate].
  simpl in H. injection H as <-. simpl ValidationResult.IsValid.
  rewrite !no_entry_app, no_entry_add_if, validate_defaults_no_error, !andb_assoc.
  f_equal. f_equal; [f_equal|].
  - destruct (ATOMConfig.Mocks config) as [[|mock rest]|].
    + injection Hm as <- _. reflexivity.
    + eapply validate_mocks_no_error; eauto.
    + injection Hm as <- _. reflexivity.
  - destruct (ATOMConfig.Target config) as [target|].
    + apply validate_target_no_error; assumption.
    + injection Ht as <-. reflexivity.
Qed.

End ValidityRules.

(** Scenario D is a valid document. *)
Lemma canonical_valid_iff_witness :
  exists r,
    ConfigValidationService.ValidateATOMConfig (fun _ => true) Samples.scenarioD = Ok r
    /\ ValidationResult.IsValid r = true.
Proof.
  eexists. split; [reflexivity|].
  exact (canonical_valid_iff (fun _ => true) Samples.scenarioD _ eq_refl).
Defined.

(** ** Severities and paths of the server results *)
Section Severities.

Import Str ConfigValidationService Validity.

Variable IsAbsoluteUri : string -> bool.
Variable DeserializeATOMConfig : json -> result (option ATOMConfig.t).
Variable DeserializeJsonConfig : json -> result (option JsonConfig.t).

Lemma add_if_error cond path message : Forall is_error (add_if cond (error path message)).
Proof. destruct cond; repeat constructor. Qed.

Lemma add_if_warning cond path message :
  Forall is_warning (add_if cond (warning path message)).
Proof. destruct cond; repeat constructor. Qed.

Ltac severities :=
  repeat first
    [ apply Forall_app; split
    | apply add_if_error
    | apply add_if_warning
    | apply List.Forall_nil
    | apply List.Forall_cons; [reflexivity|] ].

Lemma validate_mock_severities i mock e w :
  validate_mock IsAbsoluteUri i mock = Ok (e, w) ->
  Forall is_error e /\ Forall is_warning w.
Proof.
  unfold validate_mock.
  destruct (MockConfig.Request mock) as [request|]; [|discriminate].
  destruct (MockConfig.Response mock) as [response|]; [|discriminate].
  simpl. intros [= <- <-]. split; [|severities].
  unfold validate_method, validate_response, validate_body.
  destruct (MockRequest.Method request) as [method|];
    [destruct (all_white method)|];
    destruct (MockResponse.Body response) as [body|];
    destruct (MockResponse.FixedDelayMilliseconds response) as [delay|];
    destruct (MockResponse.ProxyBaseUrl response) as [proxy|];
    severities.
Qed.

Lemma validate_mocks_severities mocks : forall i e w,
  validate_mocks IsAbsoluteUri i mocks = Ok (e, w) ->
  Forall is_error e /\ Forall is_warning w.
Proof.
  induction mocks as [|mock rest IH]; intros i e w; simpl.
  - intros [= <- <-]. split; constructor.
  - destruct (validate_mock IsAbsoluteUri i mock) as [[e1 w1]|] eqn:H1; [|discriminate].
    simpl.
    destruct (validate_mocks IsAbsoluteUri (S i) rest) as [[e2 w2]|] eqn:H2;
      [|discriminate].
    simpl. intros [= <- <-].
    destruct (validate_mock_severities _ _ _ _ H1), (IH _ _ _ H2).
    split; apply Forall_app; split; assumption.
Qed.

Lemma ValidateATOMConfig_severities config r :
  ValidateATOMConfig IsAbsoluteUri config = Ok r ->
  Forall is_error (ValidationResult.Errors r)
  /\ Forall is_warning (ValidationResult.Warnings r).
Proof.
  unfold ValidateATOMConfig. intros H.
  destruct (match ATOMConfig.Mocks config with Some (_ :: _) => _ | _ => _ end)
    as [[e2 w2]|] eqn:Hm; [|discriminate].
  simpl in H.
  destruct (match ATOMConfig.Target config with Some _ => _ | None => _ end)
    as [e3|] eqn:Ht; [|discriminate].
  simpl in H. injection H as <-. simpl.
  assert (Forall is_error e2 /\ Forall is_warning w2) as [He2 Hw2].
  { destruct (ATOMConfig.Mocks config) as [[|mock rest]|].
    - injection Hm as <- <-. split; severities.
    - eapply validate_mocks_severities; eauto.
    - injection Hm as <- <-. split; severities. }
  assert (Forall is_error e3) as He3.
  { destruct (ATOMConfig.Target config) as [target|]; [|injection Ht as <-; constructor].
    unfold validate_target, validate_auth in Ht.
    destruct (TargetConfig.Auth target) as [auth|].
    - destruct (AuthConfig.Type_ auth) as [type|]; [|discriminate].
      simpl in Ht. injection Ht as <-.
      destruct (TargetConfig.BaseUrl target) as [baseUrl|];
        [destruct (all_white baseUrl)|]; severities.
    - simpl in Ht. injection Ht as <-.
      destruct (TargetConfig.BaseUrl target) as [baseUrl|];
        [destruct (all_white baseUrl)|]; severities. }
  split; [|exact Hw2].
  severities; try assumption.
  unfold validate_defaults. destruct (ATOMConfig.Defaults config) as [d|]; [|constructor].
  destruct (DefaultsConfig.Priority d); severities.
Qed.

Lemma validate_mappings_severities mappings : forall i e w,
  validate_mappings i mappings = Ok (e, w) ->
  Forall is_error e /\ Forall is_warning w.
Proof.
  induction mappings as [|mapping rest IH]; intros i e w; simpl.
  - intros [= <- <-]. split; constructor.
  - destruct (validate_mapping i mapping) as [[e1 w1]|] eqn:H1; [|discriminate]. simpl.
    destruct (validate_mappings (S i) rest) as [[e2 w2]|] eqn:H2; [|discriminate]. simpl.
    intros [= <- <-]. destruct (IH _ _ _ H2).
    unfold validate_mapping in H1.
    destruct (WiremockMapping.Request mapping) as [request|]; [|discriminate].
    destruct (WiremockMapping.Response mapping) as [response|]; [|discriminate].
    simpl in H1. injection H1 as <- <-.
    split; severities; assumption.
Qed.

Lemma ValidateConfig_severities config r :
  ValidateConfig config = Ok r ->
  Forall is_error (ValidationResult.Errors r)
  /\ Forall is_warning (ValidationResult.Warnings r).
Proof.
  unfold ValidateConfig. intros H.
  destruct (match JsonConfig.Mappings config with Some (_ :: _) => _ | _ => _ end)
    as [[e2 w2]|] eqn:Hm; [|discriminate].
  simpl in H. injection H as <-. simpl.
  assert (Forall is_error e2 /\ Forall is_warning w2) as [He2 Hw2].
  { destruct (JsonConfig.Mappings config) as [[|mapping rest]|].
    - injection Hm as <- <-. split; severities.
    - eapply validate_mappings_severities; eauto.
    - injection Hm as <- <-. split; severities. }
  split; severities; assumption.
Qed.

(** X3: whatever the document, the result of the orchestrator keeps
    the two lists apart by severity: every entry of [Errors] has
    severity "error" and every entry of [Warnings] has severity
    "warning". *)
Theorem orchestrator_lists_by_severity jsonElement :
  exists r,
    ValidateConfigFromJson IsAbsoluteUri DeserializeATOMConfig DeserializeJsonConfig
      jsonElement = Ok r
    /\ Forall (fun e => ValidationError.Severity e = "error") (ValidationResult.Errors r)
    /\ Forall (fun w => ValidationError.Severity w = "warning")
         (ValidationResult.Warnings r).
Proof.
  unfold ValidateConfigFromJson, try_catch.
  destruct (ValidateConfigFromJson_try _ _ _ jsonElement) as [r|ex] eqn:Htry.
  - exists r. split; [reflexivity|]. unfold ValidateConfigFromJson_try in Htry.
    destruct (TryGetProperty jsonElement "mocks") as [mocksProperty|]; [|discriminate].
    simpl in Htry.
    destruct (match mocksProperty with Some (JArr _) => true | _ => false end).
    + destruct (DeserializeATOMConfig jsonElement) as [[config|]|]; simpl in Htry.
      * eapply ValidateATOMConfig_severities; eauto.
      * injection Htry as <-. split; severities.
      * discriminate.
    + destruct (DeserializeJsonConfig jsonElement) as [[config|]|]; simpl in Htry.
      * eapply ValidateConfig_severities; eauto.
      * injection Htry as <-. split; severities.
      * discriminate.
  - unfold ValidateConfigFromJson_catch.
    destruct (ExType ex); eexists; (split; [reflexivity|]); split; severities.
Qed.

(** *** What validation reads of a request *)

Lemma validate_mocks_with_requests g mocks :
  (forall request, MockRequest.Method (g request) = MockRequest.Method request) ->
  forall i,
    result_map fst
      (validate_mocks IsAbsoluteUri i
         (map (fun m =>
                 {| MockConfig.Name := MockConfig.Name m;
                    MockConfig.Priority := MockConfig.Priority m;
                    MockConfig.Request := g <$> MockConfig.Request m;
                    MockConfig.Response := MockConfig.Response m;
                    MockConfig.Scenario := MockConfig.Scenario m;
                    MockConfig.Metadata := MockConfig.Metadata m |}) mocks))
    = result_map fst (validate_mocks IsAbsoluteUri i mocks).
Proof.
  intros Hg. induction mocks as [|mock rest IH]; intros i; simpl; [reflexivity|].
  specialize (IH (S i)).
  unfold validate_mock. simpl.
  destruct (MockConfig.Request mock) as [request|]; simpl; [|reflexivity].
  destruct (MockConfig.Response mock) as [response|]; simpl; [|reflexivity].
  unfold validate_method. rewrite Hg.
  destruct (validate_mocks IsAbsoluteUri (S i) (map _ rest)) as [[e w]|];
    destruct (validate_mocks IsAbsoluteUri (S i) rest) as [[e' w']|];
    simpl in IH |- *; try discriminate; congruence.
Qed.

(** X4: of a request the canonical validator reads, for the errors,
    the method alone: two documents that differ only in what their
    requests hold besides the method (the five URL-matching fields among
    it) get the same errors and the same [IsValid], or fail with the same
    exception. *)
Theorem errors_read_method_only g config :
  (forall request, MockRequest.Method (g request) = MockRequest.Method request) ->
  result_map verdict (ValidateATOMConfig IsAbsoluteUri (with_requests g config))
  = result_map verdict (ValidateATOMConfig IsAbsoluteUri config).
Proof.
  intros Hg. unfold ValidateATOMConfig, with_requests. simpl.
  destruct (ATOMConfig.Mocks config) as [[|mock rest]|]; simpl; try reflexivity.
  pose proof (validate_mocks_with_requests g (mock :: rest) Hg 0%nat) as H.
  simpl in H.
  destruct (mbind _ (validate_mock IsAbsoluteUri 0 {| MockConfig.Name := _ |}))
    as [[e w]|];
    destruct (mbind _ (validate_mock IsAbsoluteUri 0 mock)) as [[e' w']|];
    simpl in H |- *; try discriminate.
  - injection H as ->.
    destruct (match ATOMConfig.Target config with Some _ => _ | None => _ end); reflexivity.
  - injection H as ->. reflexivity.
Qed.

End Severities.

(** Scenario A with its URL-matching fields removed. *)
Lemma errors_read_method_only_witness :
  Validity.result_map Validity.verdict
    (ConfigValidationService.ValidateATOMConfig (fun _ => true)
       (Validity.with_requests Validity.clear_urls
          (Samples.config None None [Samples.scenarioA_mock])))
  = Ok (true, []).
Proof.
  rewrite (errors_read_method_only (fun _ => true) Validity.clear_urls
             (Samples.config None None [Samples.scenarioA_mock]) (fun _ => eq_refl)).
  reflexivity.
Defined.

(** ** Where the status rule reports *)
Section StatusRule.

Import Str ConfigValidationService Validity.

Variable IsAbsoluteUri : string -> bool.

Lemma digits_no_bracket d : occurs "]" (NilEmpty.string_of_uint d) = false.
Proof. induction d; simpl; auto. Qed.

Lemma of_nat_no_bracket n : occurs "]" (of_nat n) = false.
Proof.
  unfold of_nat, NilZero.string_of_uint.
  destruct (Nat.to_uint n); try apply digits_no_bracket. reflexivity.
Qed.

Lemma to_uint_not_Nil n : Nat.to_uint n <> Decimal.Nil.
Proof.
  assert (H : Nat.to_uint n = Decimal.unorm (Nat.to_uint n)).
  { rewrite <- DecimalNat.Unsigned.to_of, DecimalNat.Unsigned.of_to. reflexivity. }
  rewrite H. unfold Decimal.unorm. destruct (Decimal.nzhead (Nat.to_uint n)); discriminate.
Qed.

Lemma of_nat_inj i j : of_nat i = of_nat j -> i = j.
Proof.
  unfold of_nat. intros H. apply DecimalNat.Unsigned.to_uint_inj.
  pose proof (NilZero.usu _ (to_uint_not_Nil i)) as Hi.
  pose proof (NilZero.usu _ (to_uint_not_Nil j)) as Hj.
  rewrite H in Hi. congruence.
Qed.

Lemma before_bracket a : forall b x y,
  occurs "]" a = false -> occurs "]" b = false ->
  a +:+ String "]" x = b +:+ String "]" y -> a = b /\ x = y.
Proof.
  induction a as [|c a IH]; intros [|c' b] x y Ha Hb H; simpl in Ha, Hb.
  - injection H as ->. split; reflexivity.
  - apply orb_false_iff in Hb as [Hc _]. injection H as <- _. discriminate.
  - apply orb_false_iff in Ha as [Hc _]. injection H as -> _. discriminate.
  - apply orb_false_iff in Ha as [_ Ha]. apply orb_false_iff in Hb as [_ Hb].
    injection H as -> H. destruct (IH b x y Ha Hb H) as [-> ->]. split; reflexivity.
Qed.

(** Paths about different mocks, or with different suffixes, differ. *)
Lemma mock_path_inj i j suffix suffix' :
  mock_path i suffix = mock_path j suffix' -> i = j /\ suffix = suffix'.
Proof.
  unfold mock_path. rewrite !append_assoc. intros H.
  apply String.app_inj in H.
  change (of_nat i +:+ String "]" suffix = of_nat j +:+ String "]" suffix') in H.
  apply before_bracket in H as [Hn Hs]; try apply of_nat_no_bracket.
  split; [apply of_nat_inj; exact Hn | exact Hs].
Qed.

Lemma mock_path_prefix i suffix : String.prefix "mocks[" (mock_path i suffix) = true.
Proof.
  unfold mock_path. rewrite !append_assoc.
  change (String.prefix "" (of_nat i +:+ "]" +:+ suffix) = true).
  destruct (of_nat i +:+ "]" +:+ suffix); reflexivity.
Qed.

Lemma at_mock_path_other_suffix i suffix cond suffix' message :
  suffix' <> suffix ->
  at_path (mock_path i suffix) (add_if cond (error (mock_path i suffix') message)) = [].
Proof.
  intros Hne. destruct cond; [|reflexivity]. unfold at_path; simpl.
  unfold Str.eqb. destruct (decide (mock_path i suffix' = mock_path i suffix)) as [H|];
    [|reflexivity].
  apply mock_path_inj in H as [_ H]. contradiction.
Qed.

Lemma at_mock_path_other_mock i j suffix cond suffix' message :
  j <> i ->
  at_path (mock_path i suffix) (add_if cond (error (mock_path j suffix') message)) = [].
Proof.
  intros Hne. destruct cond; [|reflexivity]. unfold at_path; simpl.
  unfold Str.eqb. destruct (decide (mock_path j suffix' = mock_path i suffix)) as [H|];
    [|reflexivity].
  apply mock_path_inj in H as [H _]. contradiction.
Qed.

Lemma at_mock_path_literal i suffix cond literal message :
  String.prefix "mocks[" literal = false ->
  at_path (mock_path i suffix) (add_if cond (error literal message)) = [].
Proof.
  intros Hlit. destruct cond; [|reflexivity]. unfold at_path; simpl.
  unfold Str.eqb. destruct (decide (literal = mock_path i suffix)) as [H|]; [|reflexivity].
  rewrite H, mock_path_prefix in Hlit. discriminate.
Qed.

Lemma at_path_same path cond message :
  at_path path (add_if cond (error path message)) = add_if cond (error path message).
Proof.
  destruct cond; [|reflexivity]. unfold at_path; simpl. unfold Str.eqb.
  destruct (decide (path = path)); [reflexivity | contradiction].
Qed.

Lemma at_path_concat path l1 l2 :
  at_path path (l1 ++ l2) = at_path path l1 ++ at_path path l2.
Proof. apply List.filter_app. Qed.

Ltac elsewhere :=
  repeat rewrite at_path_concat;
  repeat first
    [ rewrite at_mock_path_other_suffix by discriminate
    | rewrite at_mock_path_literal by reflexivity ];
  simpl; try reflexivity.

Lemma validate_mock_at_status i mock response e w :
  validate_mock IsAbsoluteUri i mock = Ok (e, w) ->
  MockConfig.Response mock = Some response ->
  at_path (mock_path i ".response.status") e
  = status_entry i (MockResponse.Status response).
Proof.
  unfold validate_mock. intros H Hp.
  destruct (MockConfig.Request mock) as [request|]; [|discriminate].
  rewrite Hp in H. simpl in H. injection H as <- _.
  fold (mock_path i ".request.method").
  unfold validate_method, validate_response, validate_body, status_entry.
  repeat match goal with
         | |- context [("mocks[" +:+ of_nat i +:+ "]") +:+ ?s] =>
             change (("mocks[" +:+ of_nat i +:+ "]") +:+ s) with (mock_path i s)
         end.
  rewrite !at_path_concat, at_path_same.
  destruct (MockRequest.Method request) as [method|];
    [destruct (all_white method)|];
    destruct (MockResponse.Body response) as [body|];
    destruct (MockResponse.FixedDelayMilliseconds response) as [delay|];
    destruct (MockResponse.ProxyBaseUrl response) as [proxy|];
    repeat match goal with
           | |- context [at_path ?p [error (mock_path i ?s) ?m]] =>
               change [error (mock_path i s) m] with (add_if true (error (mock_path i s) m))
           end;
    elsewhere; rewrite ?app_nil_r; reflexivity.
Qed.

Lemma validate_mock_at_other_mock i j suffix mock e w :
  j <> i ->
  validate_mock IsAbsoluteUri j mock = Ok (e, w) ->
  at_path (mock_path i suffix) e = [].
Proof.
  unfold validate_mock. intros Hne H.
  destruct (MockConfig.Request mock) as [request|]; [|discriminate].
  destruct (MockConfig.Response mock) as [response|]; [|discriminate].
  simpl in H. injection H as <- _.
  unfold validate_method, validate_response, validate_body.
  repeat match goal with
         | |- context [("mocks[" +:+ of_nat j +:+ "]") +:+ ?s] =>
             change (("mocks[" +:+ of_nat j +:+ "]") +:+ s) with (mock_path j s)
         end.
  destruct (MockRequest.Method request) as [method|];
    [destruct (all_white method)|];
    destruct (MockResponse.Body response) as [body|];
    destruct (MockResponse.FixedDelayMilliseconds response) as [delay|];
    destruct (MockResponse.ProxyBaseUrl response) as [proxy|];
    repeat rewrite at_path_concat;
    repeat match goal with
           | |- context [at_path ?p [error (mock_path j ?s) ?m]] =>
               change [error (mock_path j s) m] with (add_if true (error (mock_path j s) m))
           end;
    repeat rewrite (at_mock_path_other_mock i j) by exact Hne;
    reflexivity.
Qed.

Lemma validate_mocks_at_earlier mocks : forall k i suffix e w,
  (i < k)%nat ->
  validate_mocks IsAbsoluteUri k mocks = Ok (e, w) ->
  at_path (mock_path i suffix) e = [].
Proof.
  induction mocks as [|mock rest IH]; intros k i suffix e w Hlt; simpl.
  - intros [= <- _]. reflexivity.
  - destruct (validate_mock IsAbsoluteUri k mock) as [[e1 w1]|] eqn:H1; [|discriminate].
    simpl.
    destruct (validate_mocks IsAbsoluteUri (S k) rest) as [[e2 w2]|] eqn:H2;
      [|discriminate].
    simpl. intros [= <- _].
    rewrite at_path_concat, (validate_mock_at_other_mock i k suffix _ _ _ ltac:(lia) H1),
      (IH (S k) i suffix _ _ ltac:(lia) H2).
    reflexivity.
Qed.

Lemma validate_mocks_at_status mocks : forall k i mock response e w,
  validate_mocks IsAbsoluteUri k mocks = Ok (e, w) ->
  mocks !! i = Some mock ->
  MockConfig.Response mock = Some response ->
  at_path (mock_path (k + i) ".response.status") e
  = status_entry (k + i) (MockResponse.Status response).
Proof.
  induction mocks as [|first rest IH]; intros k i mock response e w H Hi Hp.
  - inversion Hi.
  - simpl in H.
    destruct (validate_mock IsAbsoluteUri k first) as [[e1 w1]|] eqn:H1; [|discriminate].
    simpl in H.
    destruct (validate_mocks IsAbsoluteUri (S k) rest) as [[e2 w2]|] eqn:H2;
      [|discriminate].
    simpl in H. injection H as <- _. rewrite at_path_concat.
    destruct i as [|i]; simpl in Hi.
    + injection Hi as ->. rewrite Nat.add_0_r.
      rewrite (validate_mock_at_status _ _ _ _ _ H1 Hp),
        (validate_mocks_at_earlier _ (S k) k _ _ _ ltac:(lia) H2), app_nil_r.
      reflexivity.
    + replace (k + S i)%nat with (S k + i)%nat by lia.
      rewrite (validate_mock_at_other_mock (S k + i) k _ _ _ _ ltac:(lia) H1).
      apply (IH (S k) i mock response _ _ H2 Hi Hp).
Qed.

(** X5: the status rule reports at its own mock and nowhere else: in
    the result for a canonical document, the entries at
    "mocks[i].response.status" are none when the status of mock [i] is
    from 100 to 599 and exactly the one error of the rule otherwise. *)
Theorem status_rule_reports_once config mocks i mock response r :
  ATOMConfig.Mocks config = Some mocks ->
  mocks !! i = Some mock ->
  MockConfig.Response mock = Some response ->
  ValidateATOMConfig IsAbsoluteUri config = Ok r ->
  at_path (mock_path i ".response.status") (ValidationResult.Errors r)
  = if (100 <=? MockResponse.Status response) && (MockResponse.Status response <=? 599)
    then []
    else [error (mock_path i ".response.status")
            ("Invalid HTTP status code: " +:+ of_Z (MockResponse.Status response)
             +:+ ". Must be between 100-599")].
Proof.
  intros Hmocks Hi Hp H. unfold ValidateATOMConfig in H. rewrite Hmocks in H.
  destruct mocks as [|first rest]; [inversion Hi|].
  destruct (validate_mocks IsAbsoluteUri 0 (first :: rest)) as [[e2 w2]|] eqn:H2;
    [|discriminate].
  simpl in H.
  destruct (match ATOMConfig.Target config with Some _ => _ | None => _ end)
    as [e3|] eqn:Ht; [|discriminate].
  simpl in H. injection H as <-. simpl ValidationResult.Errors.
  rewrite !at_path_concat.
  pose proof (validate_mocks_at_status _ 0%nat i mock response _ _ H2 Hi Hp) as Hs.
  change (0 + i)%nat with i in Hs. rewrite Hs. clear Hs.
  assert (He3 : at_path (mock_path i ".response.status") e3 = []).
  { destruct (ATOMConfig.Target config) as [target|]; [|injection Ht as <-; reflexivity].
    unfold validate_target, validate_auth in Ht.
    destruct (TargetConfig.Auth target) as [auth|].
    - destruct (AuthConfig.Type_ auth) as [type|]; [|discriminate].
      simpl in Ht. injection Ht as <-.
      destruct (TargetConfig.BaseUrl target) as [baseUrl|];
        [destruct (all_white baseUrl)|];
        repeat match goal with
               | |- context [at_path ?p ([error ?l ?m] ++ ?rest)] =>
                   change [error l m] with (add_if true (error l m))
               end; elsewhere.
    - simpl in Ht. injection Ht as <-.
      destruct (TargetConfig.BaseUrl target) as [baseUrl|];
        [destruct (all_white baseUrl)|];
        repeat match goal with
               | |- context [at_path ?p ([error ?l ?m] ++ ?rest)] =>
                   change [error l m] with (add_if true (error l m))
               end; elsewhere. }
  rewrite He3.
  assert (Hd : at_path (mock_path i ".response.status")
                 (validate_defaults (ATOMConfig.Defaults config)) = []).
  { unfold validate_defaults. destruct (ATOMConfig.Defaults config) as [d|]; [|reflexivity].
    destruct (DefaultsConfig.Priority d); elsewhere. }
  rewrite Hd, at_mock_path_literal by reflexivity. simpl. rewrite !app_nil_r.
  unfold status_entry. rewrite <- in_range_100_600.
  destruct ((MockResponse.Status response <? 100) || (MockResponse.Status response >=? 600));
    reflexivity.
Qed.

End StatusRule.

(** Two mocks, the second with status 99. *)
Lemma status_rule_reports_once_witness :
  exists r e,
    ConfigValidationService.ValidateATOMConfig (fun _ => true)
      (Samples.config None None [Validity.status_mock 200; Validity.status_mock 99]) = Ok r
    /\ at_path (Validity.mock_path 1 ".response.status") (ValidationResult.Errors r) = [e]
    /\ at_path (Validity.mock_path 0 ".response.status") (ValidationResult.Errors r) = [].
Proof.
  pose proof (fun i mock response r =>
    status_rule_reports_once (fun _ => true)
      (Samples.config None None [Validity.status_mock 200; Validity.status_mock 99])
      [Validity.status_mock 200; Validity.status_mock 99] i mock response r eq_refl) as T.
  eexists. eexists. split; [reflexivity|]. split.
  - exact (T 1%nat _ _ _ eq_refl eq_refl eq_refl).
  - exact (T 0%nat _ _ _ eq_refl eq_refl eq_refl).
Defined.

(** ** What the transformer builds *)
Section Conversion.

Import Str MappingService Blank.

Lemma map_fold_insert_lookup {A B} (g : A -> B) (b : gmap string B) (m : gmap string A) :
  forall key,
    map_fold (fun k v acc => <[k := g v]> acc) b m !! key
    = match m !! key with
      | Some v => Some (g v)
      | None => b !! key
      end.
Proof.
  apply (map_fold_weak_ind
           (fun r m => forall key,
              r !! key = match m !! key with Some v => Some (g v) | None => b !! key end)).
  - intros key. rewrite lookup_empty. reflexivity.
  - intros i x m' r Hi IH key. destruct (decide (i = key)) as [->|Hne].
    + rewrite !lookup_insert_eq. reflexivity.
    + rewrite !lookup_insert_ne by exact Hne. apply IH.
Qed.

Lemma response_headers_lookup response config key :
  response_headers response config !! key
  = match hs ← MockResponse.Headers response; hs !! key with
    | Some v => Some v
    | None => hs ← default_headers config; hs !! key
    end.
Proof.
  unfold response_headers.
  assert (Hd : forall k : string,
             match default_headers config with
             | Some defaults =>
                 map_fold (fun key value acc => <[key := value]> acc)
                   (∅ : gmap string string) defaults
             | None => ∅
             end !! k = (hs ← default_headers config; hs !! k)).
  { intros k. destruct (default_headers config) as [defaults|]; simpl.
    - rewrite (map_fold_insert_lookup (fun v => v)), lookup_empty.
      destruct (defaults !! k); reflexivity.
    - apply lookup_empty. }
  destruct (MockResponse.Headers response) as [hs|]; simpl.
  - rewrite (map_fold_insert_lookup (fun v => v)). destruct (hs !! key); [reflexivity|].
    apply Hd.
  - apply Hd.
Qed.

Lemma request_headers_lookup request config headers key :
  request_headers request config = Ok headers ->
  headers !! key
  = match hs ← MockRequest.Headers request; hs !! key with
    | Some (Some v) => Some (MatcherFields (headerMatcher v))
    | Some None => None
    | None => EqualToObject <$> (hs ← default_headers config; hs !! key)
    end.
Proof.
  unfold request_headers.
  assert (Hd : forall k : string,
             match default_headers config with
             | Some defaults =>
                 map_fold (fun key value acc => <[key := EqualToObject value]> acc)
                   (∅ : gmap string HeaderMatcher) defaults
             | None => ∅
             end !! k = EqualToObject <$> (hs ← default_headers config; hs !! k)).
  { intros k. destruct (default_headers config) as [defaults|]; simpl.
    - rewrite (map_fold_insert_lookup EqualToObject), lookup_empty.
      destruct (defaults !! k); reflexivity.
    - apply lookup_empty. }
  destruct (MockRequest.Headers request) as [hs|]; cbn [mbind option_bind].
  - match goal with
    | |- context [map_fold _ (Ok ?b) hs] =>
        pose proof (map_fold_deref (fun v => MatcherFields (headerMatcher v)) b hs) as H
    end.
    cbv beta in H. intros Hh. rewrite Hh in H. destruct H as [H _]. rewrite H.
    destruct (hs !! key) as [[v|]|]; [reflexivity | reflexivity | apply Hd].
  - intros [= <-]. apply Hd.
Qed.

(** The headers a mapping carries: the dictionary, or nothing when the
    dictionary is empty. *)
Lemma assigned_if_nonempty {A} (headers : gmap string A) key :
  (hs ← (if (0 <? size headers)%nat then Some headers else None); hs !! key)
  = headers !! key.
Proof.
  destruct (0 <? size headers)%nat eqn:E; [reflexivity|].
  apply Nat.ltb_ge in E. assert (H : size headers = 0%nat) by lia.
  apply map_size_empty_iff in H. rewrite H, lookup_empty. reflexivity.
Qed.

(** What a successful conversion built for the response. *)
Lemma ConvertToWiremockMapping_response Id mock config m :
  ConvertToWiremockMapping Id mock config = Ok m ->
  exists request response headers BodyPatterns,
    MockConfig.Request mock = Some request /\
    MockConfig.Response mock = Some response /\
    request_headers request config = Ok headers /\
    request_bodyPatterns request = Ok BodyPatterns /\
    WiremockMapping.Request m
    = Some {| WiremockRequest.Method := MockRequest.Method request;
              WiremockRequest.Url := fst (url_matching request);
              WiremockRequest.UrlPattern := snd (url_matching request);
              WiremockRequest.Headers :=
                if (0 <? size headers)%nat then Some headers else None;
              WiremockRequest.BodyPatterns := BodyPatterns |} /\
    WiremockMapping.Response m
    = Some {| WiremockResponse.Status := MockResponse.Status response;
              WiremockResponse.Headers :=
                if (0 <? size (response_headers response config))%nat
                then Some (response_headers response config) else None;
              WiremockResponse.Body :=
                match MockResponse.Body response with
                | Some body =>
                    if ConfigValidationService.equals (ResponseBody.Type_ body) "inline"
                    then ResponseBody.Value body else None
                | None => None
                end;
              WiremockResponse.JsonBody := None;
              WiremockResponse.BodyFileName :=
                match MockResponse.Body response with
                | Some body =>
                    if ConfigValidationService.equals (ResponseBody.Type_ body) "inline"
                    then None
                    else if ConfigValidationService.equals (ResponseBody.Type_ body) "file"
                    then ResponseBody.FileName body else None
                | None => None
                end |}.
Proof.
  unfold ConvertToWiremockMapping.
  destruct (MockConfig.Request mock) as [request|]; [|discriminate]. simpl.
  destruct (url_matching request) as [u p] eqn:Hu.
  destruct (request_headers request config) as [headers|] eqn:Hh; [|discriminate]. simpl.
  destruct (request_bodyPatterns request) as [patterns|] eqn:Hb; [|discriminate]. simpl.
  destruct (MockConfig.Response mock) as [response|]; [|discriminate]. simpl.
  intros H. exists request, response, headers, patterns.
  split; [reflexivity|]. split; [reflexivity|]. split; [exact Hh|].
  split; [exact Hb|]. rewrite Hu.
  destruct (MockResponse.Body response) as [body|];
    [destruct (ConfigValidationService.equals (ResponseBody.Type_ body) "inline");
     [|destruct (ConfigValidationService.equals (ResponseBody.Type_ body) "file")]|];
    injection H as <-; split; reflexivity.
Qed.

(** X6: in the generated mapping a response header of the mock
    overrides the default header of the same name, and a default header
    the mock does not name is kept. *)
Theorem response_header_overrides_default Id mock config m response :
  ConvertToWiremockMapping Id mock config = Ok m ->
  MockConfig.Response mock = Some response ->
  exists wresp,
    WiremockMapping.Response m = Some wresp /\
    forall key,
      (hs ← WiremockResponse.Headers wresp; hs !! key)
      = match hs ← MockResponse.Headers response; hs !! key with
        | Some v => Some v
        | None => hs ← default_headers config; hs !! key
        end.
Proof.
  intros H Hp. apply ConvertToWiremockMapping_response in H.
  destruct H as (request & response' & headers & patterns & _ & Hp' & _ & _ & _ & Hr).
  rewrite Hp in Hp'. injection Hp' as <-.
  eexists. split; [exact Hr|]. intros key. simpl WiremockResponse.Headers.
  rewrite assigned_if_nonempty. apply response_headers_lookup.
Qed.


(** X8: the mapping is a function of the fields the transformer reads:
    the name and metadata of the mock, the query parameter and cookie
    matchers of the request, the delay and proxy URL of the response,
    the templating flags, and the version, target and mock list of the
    document do not reach it. *)
Theorem unread_fields_do_not_reach_mapping Id mock config :
  ConvertToWiremockMapping Id (Unread.mock mock) (Unread.config config)
  = ConvertToWiremockMapping Id mock config.
Proof.
  assert (Hprio : (d ← ATOMConfig.Defaults (Unread.config config); DefaultsConfig.Priority d)
                  = (d ← ATOMConfig.Defaults config; DefaultsConfig.Priority d)).
  { unfold Unread.config; simpl. destruct (ATOMConfig.Defaults config); reflexivity. }
  assert (Hdef : default_headers (Unread.config config) = default_headers config).
  { unfold default_headers, Unread.config; simpl.
    destruct (ATOMConfig.Defaults config); reflexivity. }
  assert (Hreq : forall request,
             request_headers (Unread.request request) (Unread.config config)
             = request_headers request config).
  { intros request. unfold request_headers. rewrite Hdef. reflexivity. }
  assert (Hresp : forall response,
             response_headers (Unread.response response) (Unread.config config)
             = response_headers response config).
  { intros response. unfold response_headers. rewrite Hdef. reflexivity. }
  unfold ConvertToWiremockMapping.
  cbn [Unread.mock MockConfig.Request MockConfig.Response MockConfig.Priority
       MockConfig.Scenario].
  rewrite Hprio.
  destruct (MockConfig.Request mock) as [request|];
    cbn [fmap option_fmap option_map deref mbind result_bind]; [|reflexivity].
  change (url_matching (Unread.request request)) with (url_matching request).
  change (MockRequest.Method (Unread.request request)) with (MockRequest.Method request).
  change (request_bodyPatterns (Unread.request request))
    with (request_bodyPatterns request).
  rewrite Hreq.
  destruct (url_matching request) as [u p].
  destruct (request_headers request config) as [headers|];
    cbn [mbind result_bind]; [|reflexivity].
  destruct (request_bodyPatterns request) as [patterns|];
    cbn [mbind result_bind]; [|reflexivity].
  destruct (MockConfig.Response mock) as [response|];
    cbn [fmap option_fmap option_map deref mbind result_bind]; [|reflexivity].
  rewrite Hresp.
  change (MockResponse.Body (Unread.response response))
    with (Unread.body <$> MockResponse.Body response).
  destruct (MockResponse.Body response) as [body|]; reflexivity.
Qed.

End Conversion.

Lemma Merge_request_null_free : MappingService.null_free Merge.request.
Proof.
  split.
  - intros hs [= <-].
    apply map_Forall_insert_2; [eexists; reflexivity | apply map_Forall_empty].
  - intros patterns [=].
Qed.

Lemma Merge_mock_convertible : MappingService.convertible Merge.mock.
Proof.
  split; [|eexists; reflexivity].
  exists Merge.request. split; [reflexivity | exact Merge_request_null_free].
Qed.

Lemma null_matcher_not_null_free : ~ MappingService.null_free Merge.null_matcher_request.
Proof.
  intros [H _].
  destruct (H _ eq_refl "Accept" None (lookup_insert_eq _ _ _)) as [v Hv]. discriminate Hv.
Qed.

Lemma Merge_mock_converts :
  exists m, MappingService.ConvertToWiremockMapping "id-1" Merge.mock Merge.config = Ok m.
Proof.
  eapply ConvertToWiremockMapping_total;
    [reflexivity | reflexivity | exact Merge_request_null_free].
Qed.

(** The default Content-Type is overridden by the mock's, the default
    X-Env is kept. *)
Lemma response_header_overrides_default_witness :
  exists m wresp,
    MappingService.ConvertToWiremockMapping "id-1" Merge.mock Merge.config = Ok m
    /\ WiremockMapping.Response m = Some wresp
    /\ (hs ← WiremockResponse.Headers wresp; hs !! "Content-Type") = Some "text/plain"
    /\ (hs ← WiremockResponse.Headers wresp; hs !! "X-Env") = Some "test".
Proof.
  destruct Merge_mock_converts as [m Hm].
  destruct (response_header_overrides_default _ _ _ _ _ Hm eq_refl) as (wresp & Hr & Hk).
  exists m, wresp. split; [exact Hm|]. split; [exact Hr|].
  rewrite !Hk. split; reflexivity.
Defined.


(** ** Validation before generation *)
Section ValidatedGeneration.

Import Str ConfigValidationService MappingService Validity Blank.

Variable IsAbsoluteUri : string -> bool.
Variable NewGuidString : nat -> string.

(** What a result without errors says about the document. *)
Lemma valid_canonical_mocks config r :
  ValidateATOMConfig IsAbsoluteUri config = Ok r ->
  ValidationResult.IsValid r = true ->
  exists mocks,
    ATOMConfig.Mocks config = Some mocks
    /\ forallb (mock_ok IsAbsoluteUri) mocks = true.
Proof.
  unfold ValidateATOMConfig. intros H Hvalid.
  destruct (match ATOMConfig.Mocks config with Some (_ :: _) => _ | _ => _ end)
    as [[e2 w2]|] eqn:Hm; [|discriminate].
  simpl in H.
  destruct (match ATOMConfig.Target config with Some _ => _ | None => _ end)
    as [e3|] eqn:Ht; [|discriminate].
  simpl in H. injection H as <-. simpl in Hvalid.
  rewrite !no_entry_app in Hvalid.
  apply andb_true_iff in Hvalid as [_ Hvalid].
  apply andb_true_iff in Hvalid as [He2 _].
  destruct (ATOMConfig.Mocks config) as [[|mock rest]|].
  - injection Hm as <- _. discriminate.
  - exists (mock :: rest). split; [reflexivity|].
    rewrite <- (validate_mocks_no_error IsAbsoluteUri _ _ _ _ Hm). exact He2.
  - injection Hm as <- _. discriminate.
Qed.

(** A mock of a valid document has its request and its response. *)
Lemma mock_ok_complete mock :
  mock_ok IsAbsoluteUri mock = true ->
  is_Some (MockConfig.Request mock) /\ is_Some (MockConfig.Response mock).
Proof.
  unfold mock_ok.
  destruct (MockConfig.Request mock), (MockConfig.Response mock); try discriminate.
  intros _. split; eexists; reflexivity.
Qed.

Lemma valid_mocks_complete mocks :
  forallb (mock_ok IsAbsoluteUri) mocks = true ->
  Forall (fun mock => is_Some (MockConfig.Request mock)
                      /\ is_Some (MockConfig.Response mock)) mocks.
Proof.
  intros H. apply List.Forall_forall. intros mock Hin.
  apply mock_ok_complete. rewrite List.forallb_forall in H. apply H. exact Hin.
Qed.

(** X9: in a valid document a response body always reaches the
    mapping: an inline body as [Body], holding the value, a file body as
    [BodyFileName], holding the file name; the other of the two and
    [JsonBody] stay null. *)
Theorem valid_body_reaches_mapping config r mocks i mock response body Id m :
  ValidateATOMConfig IsAbsoluteUri config = Ok r ->
  ValidationResult.IsValid r = true ->
  ATOMConfig.Mocks config = Some mocks ->
  mocks !! i = Some mock ->
  MockConfig.Response mock = Some response ->
  MockResponse.Body response = Some body ->
  ConvertToWiremockMapping Id mock config = Ok m ->
  exists wresp,
    WiremockMapping.Response m = Some wresp
    /\ WiremockResponse.JsonBody wresp = None
    /\ ((ResponseBody.Type_ body = Some "inline"
         /\ WiremockResponse.Body wresp = ResponseBody.Value body
         /\ present (ResponseBody.Value body) = true
         /\ WiremockResponse.BodyFileName wresp = None)
        \/ (ResponseBody.Type_ body = Some "file"
            /\ WiremockResponse.BodyFileName wresp = ResponseBody.FileName body
            /\ present (ResponseBody.FileName body) = true
            /\ WiremockResponse.Body wresp = None)).
Proof.
  intros Hv Hvalid Hmocks Hi Hp Hb Hm.
  destruct (valid_canonical_mocks _ _ Hv Hvalid) as (mocks' & Hmocks' & Hall).
  rewrite Hmocks in Hmocks'. injection Hmocks' as <-.
  rewrite List.forallb_forall in Hall.
  assert (Hok : mock_ok IsAbsoluteUri mock = true).
  { apply Hall. apply list_elem_of_In. eapply list_elem_of_lookup_2. exact Hi. }
  apply ConvertToWiremockMapping_response in Hm.
  destruct Hm as (request & response' & headers & patterns & Hq & Hp' & _ & _ & _ & Hr).
  rewrite Hp in Hp'. injection Hp' as <-.
  unfold mock_ok in Hok. rewrite Hq, Hp in Hok.
  apply andb_true_iff in Hok as [_ Hok]. unfold response_ok in Hok.
  rewrite Hb in Hok.
  apply andb_true_iff in Hok as [Hok _]. apply andb_true_iff in Hok as [Hok _].
  apply andb_true_iff in Hok as [_ Hok]. unfold body_ok in Hok.
  rewrite Hb in Hr. eexists. split; [exact Hr|]. split; [reflexivity|]. simpl.
  unfold present.
  assert (Htype : forall v, equals (ResponseBody.Type_ body) v = true
                            -> ResponseBody.Type_ body = Some v).
  { intros v. unfold equals, Str.eqb. destruct (ResponseBody.Type_ body) as [t|];
      [|discriminate].
    destruct (decide (t = v)) as [->|]; [reflexivity | discriminate]. }
  destruct (equals (ResponseBody.Type_ body) "inline") eqn:Ei.
  - left. simpl in Hok.
    assert (Hval : negb (IsNullOrWhiteSpace (ResponseBody.Value body)) = true).
    { destruct (negb (IsNullOrWhiteSpace (ResponseBody.Value body))); [reflexivity|].
      simpl in Hok. apply andb_true_iff in Hok as [Hf _].
      apply Htype in Hf. rewrite (Htype _ Ei) in Hf. discriminate. }
    repeat split; auto.
  - right. simpl in Hok. apply andb_true_iff in Hok as [Hf Hname].
    rewrite Hf. repeat split; auto.
Qed.

(** One round of the loop of [GenerateMappingsFromATOMAsync]. *)
Lemma GenerateMappingsFromATOM_round config mock rest acc σ m :
  ConvertToWiremockMapping (NewGuidString (guids σ)) mock config = Ok m ->
  GenerateMappingsFromATOM_foreach NewGuidString config (mock :: rest) acc σ
  = GenerateMappingsFromATOM_foreach NewGuidString config rest (acc ++ [next_loc σ])
      {| heap := <[next_loc σ := WiremockMapping.with_Id
                                  (Some (NewGuidString (S (guids σ)))) m]> (heap σ);
         next_loc := S (next_loc σ);
         _mappings := <[NewGuidString (S (guids σ)) := next_loc σ]> (_mappings σ);
         guids := S (S (guids σ)) |}.
Proof.
  intros Hm.
  simpl. unfold mbind at 1, M_bind at 1, NewGuid at 1.
  unfold mbind at 1, M_bind at 1, lift at 1. rewrite Hm.
  unfold mbind at 1, M_bind at 1, alloc at 1.
  unfold mbind at 1, M_bind at 1.
  erewrite CreateMappingAsync_ok by (simpl; apply lookup_insert_eq). simpl.
  rewrite insert_insert_eq. reflexivity.
Qed.

(** One run of the loop of [GenerateMappingsFromATOMAsync] over mocks
    that convert: the references, the objects and the store. *)
Lemma GenerateMappingsFromATOM_foreach_store config mocks : forall acc σ,
  Forall convertible mocks ->
  exists σ',
    GenerateMappingsFromATOM_foreach NewGuidString config mocks acc σ
    = (Ok (acc ++ seq (next_loc σ) (length mocks)), σ')
    /\ next_loc σ' = (next_loc σ + length mocks)%nat
    /\ (forall l, (l < next_loc σ)%nat -> heap σ' !! l = heap σ !! l)
    /\ (forall id, is_Some (_mappings σ !! id) -> is_Some (_mappings σ' !! id))
    /\ (forall i mock, mocks !! i = Some mock ->
        exists m,
          ConvertToWiremockMapping (NewGuidString (guids σ + 2 * i)) mock config = Ok m
          /\ heap σ' !! (next_loc σ + i)%nat
             = Some (WiremockMapping.with_Id
                       (Some (NewGuidString (guids σ + 2 * i + 1))) m)
          /\ is_Some (_mappings σ' !! NewGuidString (guids σ + 2 * i + 1))
          /\ ((forall a b, NewGuidString a = NewGuidString b -> a = b) ->
              _mappings σ' !! NewGuidString (guids σ + 2 * i + 1)
              = Some (next_loc σ + i)%nat))
    /\ (forall id,
          (forall i, (i < length mocks)%nat -> id <> NewGuidString (guids σ + 2 * i + 1)) ->
          _mappings σ' !! id = _mappings σ !! id).
Proof.
  induction mocks as [|mock rest IH]; intros acc σ Hall.
  - exists σ. simpl. rewrite app_nil_r, Nat.add_0_r.
    repeat split; auto. intros i mock Hi. inversion Hi.
  - apply Forall_cons in Hall as [[(request & Hq & Hnf) [response Hp]] Hall].
    destruct (ConvertToWiremockMapping_total (NewGuidString (guids σ)) mock config
                request response Hq Hp Hnf) as [m Hm].
    rewrite (GenerateMappingsFromATOM_round _ _ _ _ _ _ Hm).
    match goal with
    | |- context [GenerateMappingsFromATOM_foreach _ _ _ ?acc ?σ1] =>
        destruct (IH acc σ1 Hall) as (σ' & Hrun & Hnext & Hold & Hkeep & Hnew & Hother);
        rewrite Hrun
    end.
    cbn [heap next_loc _mappings guids] in Hnext, Hold, Hkeep, Hnew, Hother.
    exists σ'. rewrite <- app_assoc.
    split; [reflexivity|]. split; [simpl; lia|]. split; [|split; [|split]].
    + intros l Hl. rewrite Hold by lia. apply lookup_insert_ne. lia.
    + intros id Hid. apply Hkeep.
      destruct (decide (NewGuidString (S (guids σ)) = id)) as [->|Hne].
      * rewrite lookup_insert_eq. eexists. reflexivity.
      * rewrite lookup_insert_ne by exact Hne. exact Hid.
    + intros [|i] mock' Hi; simpl in Hi.
      * injection Hi as <-. exists m.
        replace (guids σ + 2 * 0)%nat with (guids σ) by lia.
        replace (guids σ + 1)%nat with (S (guids σ)) by lia.
        replace (next_loc σ + 0)%nat with (next_loc σ) by lia.
        split; [exact Hm|]. split; [|split].
        -- rewrite Hold by lia. apply lookup_insert_eq.
        -- apply Hkeep. rewrite lookup_insert_eq. eexists. reflexivity.
        -- intros Hinj. rewrite Hother; [apply lookup_insert_eq|].
           intros i _ Heq. apply Hinj in Heq. lia.
      * destruct (Hnew i mock' Hi) as (m' & Hm' & Hheap & Hsome & Hget).
        exists m'.
        replace (guids σ + 2 * S i)%nat with (S (S (guids σ)) + 2 * i)%nat by lia.
        replace (next_loc σ + S i)%nat with (S (next_loc σ) + i)%nat by lia.
        split; [exact Hm'|]. split; [exact Hheap|]. split; [exact Hsome|exact Hget].
    + intros id Hid. rewrite Hother.
      * apply lookup_insert_ne. intros Heq. apply (Hid 0%nat); [simpl; lia|].
        rewrite <- Heq. f_equal. lia.
      * intros i Hi Heq. apply (Hid (S i)); [simpl; lia|]. rewrite Heq. f_equal. lia.
Qed.

Lemma ConvertToWiremockMapping_incomplete Id mock config :
  ~ convertible mock ->
  ConvertToWiremockMapping Id mock config = Throw NullReference.
Proof.
  intros Hn. pose proof (ConvertToWiremockMapping_outcome Id mock config) as H.
  destruct (ConvertToWiremockMapping Id mock config) as [m|ex].
  - contradiction.
  - destruct H as [-> _]. reflexivity.
Qed.

(** The loop of [GenerateMappingsFromATOMAsync] returns exactly when
    every mock converts; it throws nothing but the exception of a null
    reference, at the first mock that does not convert. *)
Lemma GenerateMappingsFromATOM_foreach_outcome config mocks : forall acc σ,
  match GenerateMappingsFromATOM_foreach NewGuidString config mocks acc σ with
  | (Ok refs, σ') => Forall convertible mocks
  | (Throw ex, σ') =>
      ex = NullReference
      /\ exists earlier mock rest,
           mocks = earlier ++ mock :: rest
           /\ Forall convertible earlier
           /\ ~ convertible mock
  end.
Proof.
  induction mocks as [|mock rest IH]; intros acc σ.
  - simpl. constructor.
  - pose proof (ConvertToWiremockMapping_outcome (NewGuidString (guids σ)) mock config)
      as Ho.
    destruct (ConvertToWiremockMapping (NewGuidString (guids σ)) mock config)
      as [m|ex] eqn:Hm.
    + rewrite (GenerateMappingsFromATOM_round _ _ _ _ _ _ Hm).
      match goal with
      | |- context [GenerateMappingsFromATOM_foreach _ _ _ ?acc1 ?σ1] =>
          specialize (IH acc1 σ1);
          destruct (GenerateMappingsFromATOM_foreach NewGuidString config rest acc1 σ1)
            as [[refs|ex] σ']
      end.
      * apply List.Forall_cons; assumption.
      * destruct IH as (-> & earlier & bad & rest' & -> & He & Hb).
        split; [reflexivity|]. exists (mock :: earlier), bad, rest'.
        split; [reflexivity|]. split; [apply List.Forall_cons; assumption | exact Hb].
    + destruct Ho as [-> Hn]. simpl.
      unfold mbind at 1, M_bind at 1, NewGuid at 1.
      unfold mbind at 1, M_bind at 1, lift at 1. rewrite Hm.
      split; [reflexivity|]. exists [], mock, rest.
      split; [reflexivity|]. split; [constructor | exact Hn].
Qed.

(** X10: validation does not look at the header matchers and the body
    patterns of a request, and so does not guarantee generation.  Every
    mock of a valid document has its request and its response; the
    document is transformed without exception exactly when no header
    matcher and no body pattern of a mock is null: then there is one
    mapping per mock, in the order of [mocks], each the conversion of
    its mock with the id [CreateMappingAsync] gave it, and the objects
    that were there before are untouched.  Otherwise generation throws
    a [NullReferenceException] at a request that holds a null matcher
    or pattern. *)
Theorem valid_document_generation config r σ :
  ValidateATOMConfig IsAbsoluteUri config = Ok r ->
  ValidationResult.IsValid r = true ->
  exists mocks,
    ATOMConfig.Mocks config = Some mocks
    /\ Forall (fun mock => is_Some (MockConfig.Request mock)
                           /\ is_Some (MockConfig.Response mock)) mocks
    /\ (Forall convertible mocks ->
        exists refs σ',
          GenerateMappingsFromATOMAsync NewGuidString config σ = (Ok refs, σ'))
    /\ match GenerateMappingsFromATOMAsync NewGuidString config σ with
       | (Ok refs, σ') =>
           Forall convertible mocks
           /\ Forall2 (fun mock ref =>
                         exists id id' m,
                           ConvertToWiremockMapping id mock config = Ok m
                           /\ heap σ' !! ref = Some (WiremockMapping.with_Id (Some id') m))
                mocks refs
           /\ (forall l, (l < next_loc σ)%nat -> heap σ' !! l = heap σ !! l)
       | (Throw ex, σ') =>
           ex = NullReference
           /\ exists mock request,
                mock ∈ mocks
                /\ MockConfig.Request mock = Some request
                /\ ~ null_free request
       end.
Proof.
  intros Hv Hvalid.
  destruct (valid_canonical_mocks _ _ Hv Hvalid) as (mocks & Hmocks & Hall).
  apply valid_mocks_complete in Hall.
  exists mocks. split; [exact Hmocks|]. split; [exact Hall|].
  assert (Hgen : GenerateMappingsFromATOMAsync NewGuidString config σ
                 = GenerateMappingsFromATOM_foreach NewGuidString config mocks [] σ).
  { unfold GenerateMappingsFromATOMAsync, mbind, M_bind, lift. rewrite Hmocks. reflexivity. }
  rewrite Hgen. split.
  - intros Hc.
    destruct (GenerateMappingsFromATOM_foreach_store config mocks [] σ Hc)
      as (σ' & Hrun & _).
    eauto.
  - pose proof (GenerateMappingsFromATOM_foreach_outcome config mocks [] σ) as Ho.
    destruct (GenerateMappingsFromATOM_foreach NewGuidString config mocks [] σ)
      as [[refs|ex] σ'] eqn:Hrun'.
    + destruct (GenerateMappingsFromATOM_foreach_store config mocks [] σ Ho)
        as (σ'' & Hrun & _ & Hold & _ & Hnew & _).
      rewrite Hrun' in Hrun. injection Hrun as -> <-.
      split; [exact Ho|]. split; [|exact Hold].
      apply Forall2_same_length_lookup. split; [rewrite length_seq; reflexivity|].
      intros i mock ref Hi Href.
      assert (Hlt : (i < length mocks)%nat) by (eapply lookup_lt_Some; eauto).
      rewrite lookup_seq_lt in Href by exact Hlt. injection Href as <-.
      destruct (Hnew i mock Hi) as (m & Hm & Hheap & _).
      eexists. eexists. exists m. split; [exact Hm | exact Hheap].
    + destruct Ho as (-> & earlier & mock & rest & -> & _ & Hn).
      split; [reflexivity|].
      apply Forall_app in Hall as [_ Hall]. apply Forall_cons in Hall as [[Hq Hp] _].
      destruct Hq as [request Hq]. exists mock, request.
      split; [apply elem_of_app; right; apply elem_of_cons; left; reflexivity|].
      split; [exact Hq|]. intros Hnf. apply Hn. split; [eauto | exact Hp].
Qed.

(** X11: when no two GUIDs are the same, every mapping the transformer
    returns can be fetched from the store by the id it carries, and no
    two returned mappings are the same object. *)
Theorem generated_ids_retrievable config mocks σ :
  (forall a b, NewGuidString a = NewGuidString b -> a = b) ->
  ATOMConfig.Mocks config = Some mocks ->
  Forall convertible mocks ->
  exists refs σ',
    GenerateMappingsFromATOMAsync NewGuidString config σ = (Ok refs, σ')
    /\ length refs = length mocks
    /\ NoDup refs
    /\ (forall ref, ref ∈ refs ->
          exists m id,
            heap σ' !! ref = Some m
            /\ WiremockMapping.Id m = Some id
            /\ GetMappingAsync id σ' = (Ok (Some ref), σ')).
Proof.
  intros Hinj Hmocks Hall.
  destruct (GenerateMappingsFromATOM_foreach_store config mocks [] σ Hall)
    as (σ' & Hrun & _ & _ & _ & Hnew & _).
  exists (seq (next_loc σ) (length mocks)), σ'.
  split; [|split; [apply length_seq|split; [apply NoDup_seq|]]].
  - unfold GenerateMappingsFromATOMAsync, mbind, M_bind, lift. rewrite Hmocks. exact Hrun.
  - intros ref Href. apply elem_of_seq in Href.
    destruct (lookup_lt_is_Some_2 mocks (ref - next_loc σ)) as [mock Hi]; [lia|].
    destruct (Hnew _ mock Hi) as (m & _ & Hheap & _ & Hget).
    replace (next_loc σ + (ref - next_loc σ))%nat with ref in Hheap, Hget by lia.
    eexists. exists (NewGuidString (guids σ + 2 * (ref - next_loc σ) + 1)).
    split; [exact Hheap|]. split; [reflexivity|].
    unfold GetMappingAsync. f_equal. f_equal. exact (Hget Hinj).
Qed.

Lemma GenerateMappingsFromATOM_foreach_stops config incomplete rest earlier :
  forall acc σ,
  Forall convertible earlier ->
  ~ convertible incomplete ->
  exists σ',
    GenerateMappingsFromATOM_foreach NewGuidString config
      (earlier ++ incomplete :: rest) acc σ = (Throw NullReference, σ')
    /\ next_loc σ' = (next_loc σ + length earlier)%nat
    /\ (forall id, is_Some (_mappings σ !! id) -> is_Some (_mappings σ' !! id))
    /\ (forall i, (i < length earlier)%nat ->
          is_Some (_mappings σ' !! NewGuidString (guids σ + 2 * i + 1))).
Proof.
  induction earlier as [|mock earlier IH]; intros acc σ Hall Hbad.
  - simpl. unfold mbind at 1, M_bind at 1, NewGuid at 1.
    unfold mbind at 1, M_bind at 1, lift at 1.
    rewrite (ConvertToWiremockMapping_incomplete _ _ _ Hbad).
    eexists. split; [reflexivity|]. simpl. split; [lia|]. split; [auto|].
    intros i Hi. lia.
  - apply Forall_cons in Hall as [[(request & Hq & Hnf) [response Hp]] Hall].
    destruct (ConvertToWiremockMapping_total (NewGuidString (guids σ)) mock config
                request response Hq Hp Hnf) as [m Hm].
    change ((mock :: earlier) ++ incomplete :: rest)
      with (mock :: (earlier ++ incomplete :: rest)).
    rewrite (GenerateMappingsFromATOM_round _ _ _ _ _ _ Hm).
    match goal with
    | |- context [GenerateMappingsFromATOM_foreach _ _ _ ?acc ?σ1] =>
        destruct (IH acc σ1 Hall Hbad) as (σ' & Hrun & Hnext & Hkeep & Hnew);
        rewrite Hrun
    end.
    cbn [heap next_loc _mappings guids] in Hnext, Hkeep, Hnew.
    exists σ'. split; [reflexivity|]. split; [simpl; lia|]. split.
    + intros id Hid. apply Hkeep.
      destruct (decide (NewGuidString (S (guids σ)) = id)) as [->|Hne].
      * rewrite lookup_insert_eq. eexists. reflexivity.
      * rewrite lookup_insert_ne by exact Hne. exact Hid.
    + intros [|i] Hi.
      * replace (guids σ + 2 * 0 + 1)%nat with (S (guids σ)) by lia.
        apply Hkeep. rewrite lookup_insert_eq. eexists. reflexivity.
      * replace (guids σ + 2 * S i + 1)%nat with (S (S (guids σ)) + 2 * i + 1)%nat by lia.
        apply Hnew. simpl in Hi. lia.
Qed.

(** X12: generation is not all-or-nothing: at the first mock that does
    not convert, for want of a request or a response or because a
    header matcher or body pattern of its request is null, it throws a
    [NullReferenceException], and the mappings of the mocks before it
    stay in the store. *)
Theorem generation_keeps_earlier_mappings config earlier incomplete rest σ :
  ATOMConfig.Mocks config = Some (earlier ++ incomplete :: rest) ->
  Forall convertible earlier ->
  ~ convertible incomplete ->
  exists σ',
    GenerateMappingsFromATOMAsync NewGuidString config σ = (Throw NullReference, σ')
    /\ next_loc σ' = (next_loc σ + length earlier)%nat
    /\ (forall id, is_Some (_mappings σ !! id) -> is_Some (_mappings σ' !! id))
    /\ (forall i, (i < length earlier)%nat ->
          is_Some (_mappings σ' !! NewGuidString (guids σ + 2 * i + 1))).
Proof.
  intros Hmocks Hall Hbad.
  destruct (GenerateMappingsFromATOM_foreach_stops config incomplete rest earlier [] σ
              Hall Hbad) as (σ' & Hrun & Hrest).
  exists σ'. split; [|exact Hrest].
  unfold GenerateMappingsFromATOMAsync, mbind, M_bind, lift. rewrite Hmocks. exact Hrun.
Qed.

End ValidatedGeneration.

(** The mock with headers and an inline body "ok". *)
Lemma valid_body_reaches_mapping_witness :
  exists m wresp,
    MappingService.ConvertToWiremockMapping "id-1" Merge.mock Merge.config = Ok m
    /\ WiremockMapping.Response m = Some wresp
    /\ WiremockResponse.Body wresp = Some "ok"
    /\ WiremockResponse.BodyFileName wresp = None.
Proof.
  destruct Merge_mock_converts as [m Hm].
  destruct (valid_body_reaches_mapping (fun _ => true) Merge.config _ [Merge.mock] 0%nat
              Merge.mock Merge.response (Samples.inline_body "ok") "id-1" m
              eq_refl eq_refl eq_refl eq_refl eq_refl eq_refl Hm)
    as (wresp & Hr & _ & [(_ & Hb & _ & Hf) | (Ht & _)]).
  - exists m, wresp. split; [exact Hm|]. split; [exact Hr|]. split; [exact Hb | exact Hf].
  - discriminate Ht.
Defined.

(** Scenario D, into the empty store, and the valid document whose
    mock has a null [Accept] matcher. *)
Lemma valid_document_generation_witness :
  (exists refs σ,
     MappingService.GenerateMappingsFromATOMAsync Str.of_nat Samples.scenarioD
       MappingService.empty = (Ok refs, σ)
     /\ length refs = 2%nat)
  /\ (exists r σ,
        ConfigValidationService.ValidateATOMConfig (fun _ => true) Merge.null_matcher = Ok r
        /\ ValidationResult.IsValid r = true
        /\ MappingService.GenerateMappingsFromATOMAsync Str.of_nat Merge.null_matcher
             MappingService.empty = (Throw NullReference, σ)).
Proof.
  split.
  - destruct (valid_document_generation (fun _ => true) Str.of_nat Samples.scenarioD _
                MappingService.empty eq_refl eq_refl)
      as (mocks & Hmocks & _ & Hgen & Hout).
    injection Hmocks as <-.
    destruct Hgen as (refs & σ & Hrun).
    { repeat (apply List.Forall_cons; [eapply convertible_plain; reflexivity|]).
      apply List.Forall_nil. }
    rewrite Hrun in Hout. destruct Hout as (_ & Hall & _).
    exists refs, σ. split; [exact Hrun|].
    apply Forall2_length in Hall. rewrite <- Hall. reflexivity.
  - destruct (valid_document_generation (fun _ => true) Str.of_nat Merge.null_matcher _
                MappingService.empty eq_refl eq_refl)
      as (mocks & Hmocks & _ & _ & Hout).
    injection Hmocks as <-.
    eexists.
    destruct (MappingService.GenerateMappingsFromATOMAsync Str.of_nat Merge.null_matcher
                MappingService.empty) as [[refs|ex] σ].
    + exfalso. destruct Hout as (Hall & _).
      apply Forall_cons in Hall as [[(request & [= <-] & Hn) _] _].
      exact (null_matcher_not_null_free Hn).
    + destruct Hout as [-> _]. exists σ. split; [reflexivity|]. split; reflexivity.
Defined.

(** Scenario D, with the decimal numerals for GUIDs. *)
Lemma generated_ids_retrievable_witness :
  exists refs σ,
    MappingService.GenerateMappingsFromATOMAsync Str.of_nat Samples.scenarioD
      MappingService.empty = (Ok refs, σ)
    /\ length refs = 2%nat
    /\ NoDup refs.
Proof.
  destruct (generated_ids_retrievable Str.of_nat Samples.scenarioD
              [Samples.scenarioD_first; Samples.scenarioD_second] MappingService.empty
              of_nat_inj eq_refl)
    as (refs & σ & Hrun & Hlen & Hnd & _).
  - repeat (apply List.Forall_cons; [eapply convertible_plain; reflexivity|]).
    apply List.Forall_nil.
  - exists refs, σ. split; [exact Hrun|]. split; [exact Hlen | exact Hnd].
Defined.

(** A complete mock followed by one without a response. *)
Lemma generation_keeps_earlier_mappings_witness :
  exists σ,
    MappingService.GenerateMappingsFromATOMAsync Str.of_nat
      (Samples.config None None [Merge.mock; Merge.no_response]) MappingService.empty
    = (Throw NullReference, σ)
    /\ MappingService.next_loc σ = 1%nat
    /\ is_Some (MappingService._mappings σ !! Str.of_nat 1).
Proof.
  destruct (generation_keeps_earlier_mappings Str.of_nat
              (Samples.config None None [Merge.mock; Merge.no_response])
              [Merge.mock] Merge.no_response [] MappingService.empty eq_refl)
    as (σ & Hrun & Hnext & _ & Hnew).
  - apply List.Forall_cons; [exact Merge_mock_convertible | apply List.Forall_nil].
  - intros [_ [response Hp]]. discriminate Hp.
  - exists σ. split; [exact Hrun|]. split; [exact Hnext|]. apply (Hnew 0%nat). simpl. lia.
Defined.

(** ** The Wiremock admin client *)
Section AdminClient.

Import Str WiremockAdminService ConfigController.

Variable World : Type.
Variable SendAsync : HttpRequestMessage -> World -> result HttpResponseMessage * World.
Variable Serialize : WiremockMapping.t -> string.
Variable Deserialize : string -> result (option WiremockMapping.t).
Variable ToBase64String : string -> string.
Variable UriFormatError : string -> option Exception.
Variable HeaderFormatError : string -> string -> option Exception.
Variable DeserializeMappingsResponse :
  string -> result (option (option (list WiremockMapping.t))).

Lemma TrimEnd_trailing c s : TrimEnd c (s +:+ String c "") = TrimEnd c s.
Proof.
  induction s as [|a s IH].
  - change (TrimEnd c (String c "") = ""). simpl.
    destruct (decide (c = c)); [reflexivity | contradiction].
  - change (TrimEnd c (String a (s +:+ String c "")) = TrimEnd c (String a s)).
    simpl. rewrite IH. reflexivity.
Qed.

(** X13: a trailing slash of the base URL makes no difference: each
    of the four single operations of the admin client sends the same
    request, and so does and logs the same, with and without it. *)
Theorem trailing_slash_is_dropped wiremockBaseUrl auth :
  (forall mapping,
     CreateMappingAsync World SendAsync Serialize Deserialize
         ToBase64String UriFormatError HeaderFormatError
       (wiremockBaseUrl +:+ "/") mapping auth
     = CreateMappingAsync World SendAsync Serialize Deserialize
         ToBase64String UriFormatError HeaderFormatError
         wiremockBaseUrl mapping auth)
  /\ (forall mappingId,
        DeleteMappingAsync World SendAsync ToBase64String UriFormatError HeaderFormatError
          (wiremockBaseUrl +:+ "/") mappingId auth
        = DeleteMappingAsync World SendAsync
            ToBase64String UriFormatError HeaderFormatError wiremockBaseUrl mappingId auth)
  /\ GetAllMappingsAsync World SendAsync
      ToBase64String UriFormatError HeaderFormatError DeserializeMappingsResponse
       (wiremockBaseUrl +:+ "/") auth
     = GetAllMappingsAsync World SendAsync
         ToBase64String UriFormatError HeaderFormatError DeserializeMappingsResponse
         wiremockBaseUrl auth
  /\ ResetMappingsAsync World SendAsync
      ToBase64String UriFormatError HeaderFormatError (wiremockBaseUrl +:+ "/") auth
     = ResetMappingsAsync World SendAsync
         ToBase64String UriFormatError HeaderFormatError wiremockBaseUrl auth.
Proof.
  unfold CreateMappingAsync, DeleteMappingAsync, GetAllMappingsAsync, ResetMappingsAsync.
  rewrite (TrimEnd_trailing "/" wiremockBaseUrl). repeat split; reflexivity.
Qed.

Abbreviation request_of :=
  (NewRequest ToBase64String UriFormatError HeaderFormatError).

(** What the statements before the [try] give: the request with the
    header of [AddAuthenticationHeader], or the exception of the first
    of the two constructors that throws. *)
Lemma NewRequest_outcome method url content auth :
  match request_of method url content auth with
  | Ok request =>
      UriFormatError url = None
      /\ exists authorization,
           AddAuthenticationHeader ToBase64String HeaderFormatError auth = Ok authorization
           /\ request = {| Method := method; RequestUri := url; Content := content;
                           Authorization := authorization |}
  | Throw ex =>
      UriFormatError url = Some ex
      \/ (UriFormatError url = None
          /\ AddAuthenticationHeader ToBase64String HeaderFormatError auth = Throw ex)
  end.
Proof.
  unfold NewRequest, NewHttpRequestMessage.
  destruct (UriFormatError url) as [ex|]; cbn [mbind result_bind]; [left; reflexivity|].
  destruct (AddAuthenticationHeader ToBase64String HeaderFormatError auth)
    as [authorization|ex]; cbn [mbind result_bind mret result_ret].
  - split; [reflexivity|]. exists authorization. split; reflexivity.
  - right. split; reflexivity.
Qed.

(** X14: [DeleteMappingAsync] and [GetAllMappingsAsync] throw only
    before they send anything: the request is built and its
    authorization header set before the [try], so when the URL is no URI
    or the header value is refused the exception of the constructor
    leaves the operation, with no request sent and nothing logged.  Once
    the request is built they never throw and send that one request.  A
    delete then answers [true] exactly when the server answered with a
    success status; a listing is empty whenever anything was logged,
    that is after a transport exception, a non-success status or
    malformed content. *)
Theorem queries_throw_only_unsent wiremockBaseUrl mappingId auth w :
  match request_of "DELETE"
          (TrimEnd "/" wiremockBaseUrl +:+ "/__admin/mappings/" +:+ mappingId) None auth with
  | Throw ex =>
      DeleteMappingAsync World SendAsync ToBase64String UriFormatError HeaderFormatError
        wiremockBaseUrl mappingId auth w = (Throw ex, w, [])
  | Ok request =>
      let sent := SendAsync request w in
      exists entry,
        DeleteMappingAsync World SendAsync ToBase64String UriFormatError HeaderFormatError
          wiremockBaseUrl mappingId auth w
        = (Ok (match sent.1 with
               | Ok response => IsSuccessStatusCode response
               | Throw _ => false
               end), sent.2, [entry])
  end
  /\ match request_of "GET" (TrimEnd "/" wiremockBaseUrl +:+ "/__admin/mappings") None
             auth with
     | Throw ex =>
         GetAllMappingsAsync World SendAsync ToBase64String UriFormatError HeaderFormatError
           DeserializeMappingsResponse wiremockBaseUrl auth w = (Throw ex, w, [])
     | Ok request =>
         let sent := SendAsync request w in
         exists mappings entries,
           GetAllMappingsAsync World SendAsync ToBase64String UriFormatError
             HeaderFormatError DeserializeMappingsResponse wiremockBaseUrl auth w
           = (Ok mappings, sent.2, entries)
           /\ (entries <> [] ->
               mappings = [] /\ exists entry, entries = [entry] /\ Level entry = LogError)
           /\ (mappings <> [] ->
               exists response,
                 sent.1 = Ok response
                 /\ IsSuccessStatusCode response = true
                 /\ DeserializeMappingsResponse (ResponseContent response)
                    = Ok (Some (Some mappings)))
     end
  /\ (forall method url content,
        match request_of method url content auth with
        | Ok request =>
            UriFormatError url = None
            /\ exists authorization,
                 AddAuthenticationHeader ToBase64String HeaderFormatError auth
                 = Ok authorization
                 /\ request = {| Method := method; RequestUri := url; Content := content;
                                 Authorization := authorization |}
        | Throw ex =>
            UriFormatError url = Some ex
            \/ (UriFormatError url = None
                /\ AddAuthenticationHeader ToBase64String HeaderFormatError auth = Throw ex)
        end).
Proof.
  split; [|split; [|intros; apply NewRequest_outcome]].
  - unfold DeleteMappingAsync.
    destruct (request_of "DELETE"
                (TrimEnd "/" wiremockBaseUrl +:+ "/__admin/mappings/" +:+ mappingId) None
                auth) as [request|ex]; [|reflexivity].
    cbv zeta. destruct (SendAsync request w) as [[response|ex] w']; simpl.
    + destruct (IsSuccessStatusCode response); eexists; reflexivity.
    + eexists; reflexivity.
  - unfold GetAllMappingsAsync.
    destruct (request_of "GET" (TrimEnd "/" wiremockBaseUrl +:+ "/__admin/mappings") None
                auth) as [request|ex]; [|reflexivity].
    cbv zeta. destruct (SendAsync request w) as [[response|ex] w']; simpl.
    + destruct (IsSuccessStatusCode response) eqn:Hs; simpl.
      * destruct (DeserializeMappingsResponse (ResponseContent response))
          as [[[mappings|]|]|ex] eqn:Hd; simpl.
        -- eexists. eexists. split; [reflexivity|]. split; [contradiction|].
           intros _. exists response. auto.
        -- eexists. eexists. split; [reflexivity|]. split; contradiction.
        -- eexists. eexists. split; [reflexivity|]. split; contradiction.
        -- eexists. eexists. split; [reflexivity|]. split; [|contradiction].
           intros _. split; [reflexivity|]. eexists. split; reflexivity.
      * eexists. eexists. split; [reflexivity|]. split; [|contradiction].
        intros _. split; [reflexivity|]. eexists. split; reflexivity.
    + eexists. eexists. split; [reflexivity|]. split; [|contradiction].
      intros _. split; [reflexivity|]. eexists. split; reflexivity.
Qed.

(** Once its request is built, a listing returns. *)
Lemma GetAllMappingsAsync_returns wiremockBaseUrl auth w :
  match request_of "GET" (TrimEnd "/" wiremockBaseUrl +:+ "/__admin/mappings") None
          auth with
  | Throw ex =>
      GetAllMappingsAsync World SendAsync ToBase64String UriFormatError HeaderFormatError
        DeserializeMappingsResponse wiremockBaseUrl auth w = (Throw ex, w, [])
  | Ok request =>
      exists mappings entries,
        GetAllMappingsAsync World SendAsync ToBase64String UriFormatError HeaderFormatError
          DeserializeMappingsResponse wiremockBaseUrl auth w
        = (Ok mappings, (SendAsync request w).2, entries)
  end.
Proof.
  unfold GetAllMappingsAsync.
  destruct (request_of "GET" (TrimEnd "/" wiremockBaseUrl +:+ "/__admin/mappings") None
              auth) as [request|ex]; [|reflexivity].
  destruct (SendAsync request w) as [[response|ex] w']; simpl; [|eauto].
  destruct (IsSuccessStatusCode response); simpl; [|eauto].
  destruct (DeserializeMappingsResponse (ResponseContent response)); eauto.
Qed.

(** X15: [GetWiremockMappings] answers every request.  A request
    without target URL gets 400.  When the request to Wiremock cannot
    be built, the URL being no URI or the authorization header refused,
    the answer is 500 with the message of that exception, and nothing
    was sent.  Every other request gets 200 with [success = true] and
    the count of the mappings it lists, also when the server could not
    be reached or refused, the listing then being empty. *)
Theorem listing_fails_only_unsent request w :
  exists response w' entries,
    GetWiremockMappings World SendAsync ToBase64String UriFormatError HeaderFormatError
      DeserializeMappingsResponse request w
    = (Ok response, w', entries)
    /\ match response with
       | Ok200 value =>
           IsNullOrWhiteSpace (GetMappingsRequest.TargetUrl request) = false
           /\ MappingsResponse.success value = true
           /\ MappingsResponse.count value = length (MappingsResponse.mappings value)
           /\ Some (MappingsResponse.target value) = GetMappingsRequest.TargetUrl request
           /\ exists httpRequest,
                request_of "GET"
                  (TrimEnd "/" (MappingsResponse.target value) +:+ "/__admin/mappings") None
                  (GetMappingsRequest.Auth request) = Ok httpRequest
                /\ w' = (SendAsync httpRequest w).2
       | BadRequest400 success _ =>
           IsNullOrWhiteSpace (GetMappingsRequest.TargetUrl request) = true
           /\ success = false /\ w' = w
       | Status500 success message error =>
           IsNullOrWhiteSpace (GetMappingsRequest.TargetUrl request) = false
           /\ success = false /\ w' = w
           /\ exists targetUrl ex,
                GetMappingsRequest.TargetUrl request = Some targetUrl
                /\ request_of "GET" (TrimEnd "/" targetUrl +:+ "/__admin/mappings") None
                     (GetMappingsRequest.Auth request) = Throw ex
                /\ message = "Failed to get mappings: " +:+ Message ex
                /\ error = Message ex
       end.
Proof.
  unfold GetWiremockMappings, GetWiremockMappings_try.
  destruct (GetMappingsRequest.TargetUrl request) as [targetUrl|]; simpl.
  - destruct (all_white targetUrl) eqn:Hw.
    + eexists. eexists. eexists. split; [reflexivity|]. simpl. auto.
    + pose proof (GetAllMappingsAsync_returns targetUrl (GetMappingsRequest.Auth request) w)
        as Hget.
      destruct (request_of "GET" (TrimEnd "/" targetUrl +:+ "/__admin/mappings") None
                  (GetMappingsRequest.Auth request)) as [httpRequest|ex] eqn:Hbuild.
      * destruct Hget as (mappings & entries & Hget). rewrite Hget.
        eexists. eexists. eexists. split; [reflexivity|]. simpl.
        repeat split; auto. exists httpRequest. split; [exact Hbuild | reflexivity].
      * rewrite Hget. eexists. eexists. eexists. split; [reflexivity|]. simpl.
        repeat split; auto. exists targetUrl, ex. auto.
  - eexists. eexists. eexists. split; [reflexivity|]. simpl. auto.
Qed.

(** X16: [ResetWiremockMappings] answers 200 with [success = true]
    whenever the reset request was sent without a transport exception,
    whatever status the server answered it with; a non-success status
    is only logged as a warning.  It answers 500 after a transport
    exception, and also when the request cannot be built, the URL being
    no URI or the authorization header refused: nothing was sent
    then. *)
Theorem reset_ignores_status targetUrl auth w :
  all_white targetUrl = false ->
  match request_of "POST" (TrimEnd "/" targetUrl +:+ "/__admin/mappings/reset") None
          auth with
  | Throw ex =>
      exists entries,
        ResetWiremockMappings World SendAsync ToBase64String UriFormatError
          HeaderFormatError
          {| ResetWiremockRequest.TargetUrl := Some targetUrl;
             ResetWiremockRequest.Auth := auth |} w
        = (Ok (Status500 false ("Failed to reset mappings: " +:+ Message ex) (Message ex)),
           w, entries)
  | Ok httpRequest =>
      let sent := SendAsync httpRequest w in
      exists entries,
        ResetWiremockMappings World SendAsync ToBase64String UriFormatError
          HeaderFormatError
          {| ResetWiremockRequest.TargetUrl := Some targetUrl;
             ResetWiremockRequest.Auth := auth |} w
        = (Ok (match sent.1 with
               | Ok _ =>
                   Ok200 {| ResetResponse.success := true;
                            ResetResponse.message :=
                              "Successfully reset all mappings on " +:+ targetUrl |}
               | Throw ex =>
                   Status500 false ("Failed to reset mappings: " +:+ Message ex)
                     (Message ex)
               end), sent.2, entries)
        /\ (forall response,
              sent.1 = Ok response -> IsSuccessStatusCode response = false ->
              In {| Level := LogWarning; Exn := None;
                    Template := "Failed to reset Wiremock mappings: {StatusCode}";
                    Args := [WiremockAdminService.StatusCode response] |} entries
              /\ Forall (fun entry => Level entry <> LogError) entries)
  end.
Proof.
  intros Hurl.
  unfold ResetWiremockMappings, ResetWiremockMappings_try, ResetMappingsAsync; simpl.
  rewrite Hurl.
  destruct (request_of "POST" (TrimEnd "/" targetUrl +:+ "/__admin/mappings/reset") None
              auth) as [httpRequest|ex]; [|eexists; reflexivity].
  cbv zeta. destruct (SendAsync httpRequest w) as [[response|ex] w']; simpl.
  - destruct (IsSuccessStatusCode response) eqn:Hs; simpl.
    + eexists. split; [reflexivity|]. intros r [= <-] Hr. congruence.
    + eexists. split; [reflexivity|]. intros r [= <-] _. split.
      * right. left. reflexivity.
      * repeat (apply List.Forall_cons; [discriminate|]). apply List.Forall_nil.
  - eexists. split; [reflexivity|]. intros r Hr. discriminate.
Qed.

End AdminClient.

(** A listing from a base URL with the port 99999: the URL is no URI,
    the constructor of the request throws, and nothing is sent. *)
Lemma queries_throw_only_unsent_witness :
  WiremockAdminService.GetAllMappingsAsync nat Stubs.unreachable Samples.plain
    Stubs.port_in_range Samples.accepted (fun _ => Ok None) "http://localhost:99999" None
    0%nat
  = (Throw Stubs.invalid_port, 0%nat, []).
Proof.
  exact (proj1 (proj2 (queries_throw_only_unsent nat Stubs.unreachable Samples.plain
                         Stubs.port_in_range Samples.accepted (fun _ => Ok None)
                         "http://localhost:99999" "" None 0%nat))).
Defined.

(** The same listing through the controller: 500, with the server
    untouched. *)
Lemma listing_fails_only_unsent_witness :
  exists entries,
    ConfigController.GetWiremockMappings nat Stubs.unreachable Samples.plain
      Stubs.port_in_range Samples.accepted (fun _ => Ok None)
      {| ConfigController.GetMappingsRequest.TargetUrl := Some "http://localhost:99999";
         ConfigController.GetMappingsRequest.Auth := None |} 0%nat
    = (Ok (ConfigController.Status500 false
             "Failed to get mappings: Invalid URI: Invalid port specified."
             "Invalid URI: Invalid port specified."),
       0%nat, entries).
Proof.
  destruct (listing_fails_only_unsent nat Stubs.unreachable Samples.plain
              Stubs.port_in_range Samples.accepted (fun _ => Ok None)
              {| ConfigController.GetMappingsRequest.TargetUrl :=
                   Some "http://localhost:99999";
                 ConfigController.GetMappingsRequest.Auth := None |} 0%nat)
    as (response & w' & entries & Hrun & Hresponse).
  exists entries. rewrite Hrun.
  destruct response as [value | success message | success message error].
  - destruct Hresponse as (_ & _ & _ & Ht & httpRequest & Hbuild & _).
    injection Ht as Ht. rewrite Ht in Hbuild. discriminate Hbuild.
  - destruct Hresponse as (Hblank & _). discriminate Hblank.
  - destruct Hresponse as (_ & -> & -> & targetUrl & ex & Ht & Hbuild & -> & ->).
    injection Ht as <-. injection Hbuild as <-. reflexivity.
Defined.

(** A reset the server refuses with 500 is answered with success. *)
Lemma reset_ignores_status_witness :
  exists entries,
    ConfigController.ResetWiremockMappings nat Stubs.refusing Samples.plain
      Samples.well_formed Samples.accepted
      {| ConfigController.ResetWiremockRequest.TargetUrl := Some "http://localhost:8080";
         ConfigController.ResetWiremockRequest.Auth := None |} 0%nat
    = (Ok (ConfigController.Ok200
             {| ConfigController.ResetResponse.success := true;
                ConfigController.ResetResponse.message :=
                  "Successfully reset all mappings on http://localhost:8080" |}),
       1%nat, entries).
Proof.
  destruct (reset_ignores_status nat Stubs.refusing Samples.plain Samples.well_formed
              Samples.accepted "http://localhost:8080" None 0%nat eq_refl)
    as (entries & Hrun & _).
  exists entries. exact Hrun.
Defined.

(** ** Authentication and aborted batches *)
Section Authentication.

Import Str ConfigValidationService WiremockAdminService ConfigController.

Variable World : Type.
Variable SendAsync : HttpRequestMessage -> World -> result HttpResponseMessage * World.
Variable Serialize : WiremockMapping.t -> string.
Variable Deserialize : string -> result (option WiremockMapping.t).
Variable ToBase64String : string -> string.
Variable UriFormatError : string -> option Exception.
Variable HeaderFormatError : string -> string -> option Exception.

Lemma not_blank_not_empty s :
  IsNullOrWhiteSpace s = false -> IsNullOrEmpty s = false.
Proof.
  destruct s as [v|]; simpl; [|discriminate].
  destruct (decide (v = "")) as [->|]; [discriminate | reflexivity].
Qed.

Lemma valid_auth_type type :
  Contains validAuthTypes type = true ->
  type = "none" \/ type = "basic" \/ type = "bearer".
Proof.
  unfold Contains, validAuthTypes, Str.eqb. simpl.
  destruct (decide (type = "none")); [auto|].
  destruct (decide (type = "basic")); [auto|].
  destruct (decide (type = "bearer")); [auto|]. discriminate.
Qed.

Lemma validate_auth_typed auth type :
  AuthConfig.Type_ auth = Some type ->
  validate_auth auth
  = Ok (add_if (negb (Contains validAuthTypes (ToLower type)))
          (error "target.auth.type"
             ("Invalid auth type: " +:+ type +:+ ". Valid types: "
              +:+ Join ", " validAuthTypes))
        ++ add_if (Str.eqb (ToLower type) "basic"
                   && (IsNullOrWhiteSpace (AuthConfig.Username auth)
                       || IsNullOrWhiteSpace (AuthConfig.Password auth)))
             (error "target.auth"
                "Basic authentication requires both username and password")
        ++ add_if (Str.eqb (ToLower type) "bearer"
                   && IsNullOrWhiteSpace (AuthConfig.Token auth))
             (error "target.auth" "Bearer authentication requires a token")).
Proof. unfold validate_auth. intros ->. reflexivity. Qed.

Ltac refuted H := cbn [add_if negb andb orb] in H; discriminate H.

(** X17: an auth block the validator accepts is the one the admin
    client acts on: type basic (in any case) always builds a [Basic]
    header value from the encoded "username:password", type bearer a
    [Bearer] header value from the token, type none no header.  The
    header is set unless the constructor of the header value throws,
    which validation does not exclude: a token is accepted as soon as
    it is not blank. *)
Theorem validated_auth_builds_header auth type :
  AuthConfig.Type_ auth = Some type ->
  validate_auth auth = Ok [] ->
  (ToLower type = "basic"
   /\ exists username password,
        AuthConfig.Username auth = Some username
        /\ AuthConfig.Password auth = Some password
        /\ AddAuthenticationHeader ToBase64String HeaderFormatError (Some auth)
           = match HeaderFormatError "Basic"
                     (ToBase64String (username +:+ ":" +:+ password)) with
             | Some ex => Throw ex
             | None =>
                 Ok (Some ("Basic", ToBase64String (username +:+ ":" +:+ password)))
             end)
  \/ (ToLower type = "bearer"
      /\ exists token,
           AuthConfig.Token auth = Some token
           /\ AddAuthenticationHeader ToBase64String HeaderFormatError (Some auth)
              = match HeaderFormatError "Bearer" token with
                | Some ex => Throw ex
                | None => Ok (Some ("Bearer", token))
                end)
  \/ (ToLower type = "none"
      /\ AddAuthenticationHeader ToBase64String HeaderFormatError (Some auth) = Ok None).
Proof.
  intros Ht H. rewrite (validate_auth_typed _ _ Ht) in H.
  destruct (Contains validAuthTypes (ToLower type)) eqn:Hc;
    cbn [add_if negb app] in H; [|discriminate H].
  injection H as H. apply app_eq_nil in H as [H2 H3].
  unfold AddAuthenticationHeader, NewAuthenticationHeaderValue.
  rewrite Ht. cbn [fmap option_fmap option_map].
  assert (Hrefl : forall s, Str.eqb s s = true).
  { intros s. unfold Str.eqb. destruct (decide (s = s)); [reflexivity | contradiction]. }
  destruct (valid_auth_type _ Hc) as [E | [E | E]]; rewrite E in *.
  - right. right. split; reflexivity.
  - left. split; [reflexivity|]. rewrite Hrefl in H2.
    destruct (IsNullOrWhiteSpace (AuthConfig.Username auth)) eqn:Hu; [refuted H2|].
    destruct (IsNullOrWhiteSpace (AuthConfig.Password auth)) eqn:Hp; [refuted H2|].
    rewrite (not_blank_not_empty _ Hu), (not_blank_not_empty _ Hp).
    destruct (AuthConfig.Username auth) as [username|]; [|discriminate Hu].
    destruct (AuthConfig.Password auth) as [password|]; [|discriminate Hp].
    exists username, password. split; [reflexivity|]. split; [reflexivity|].
    change (interp (Some username)) with username.
    change (interp (Some password)) with password. cbn [negb andb].
    destruct (HeaderFormatError "Basic" (ToBase64String (username +:+ ":" +:+ password)));
      reflexivity.
  - right. left. split; [reflexivity|]. rewrite Hrefl in H3.
    destruct (IsNullOrWhiteSpace (AuthConfig.Token auth)) eqn:Hk; [refuted H3|].
    rewrite (not_blank_not_empty _ Hk).
    destruct (AuthConfig.Token auth) as [token|]; [|discriminate Hk].
    exists token. split; [reflexivity|].
    change (interp (Some token)) with token. cbn [negb].
    destruct (HeaderFormatError "Bearer" token); reflexivity.
Qed.

(** The loop over a list in two parts. *)
Lemma CreateMappings_foreach_app wiremockBaseUrl auth earlier : forall later lists w,
  CreateMappings_foreach World SendAsync Serialize Deserialize
      ToBase64String UriFormatError HeaderFormatError
    wiremockBaseUrl auth (earlier ++ later) lists w
  = match CreateMappings_foreach World SendAsync Serialize Deserialize
      ToBase64String UriFormatError HeaderFormatError
            wiremockBaseUrl auth earlier lists w with
    | (Ok lists', w', entries) =>
        let '(r, w'', entries') :=
          CreateMappings_foreach World SendAsync Serialize Deserialize
              ToBase64String UriFormatError HeaderFormatError
            wiremockBaseUrl auth later lists' w' in
        (r, w'', entries ++ entries')
    | (Throw ex, w', entries) => (Throw ex, w', entries)
    end.
Proof.
  induction earlier as [|mapping earlier IH]; intros later lists w.
  - simpl.
    destruct (CreateMappings_foreach World SendAsync Serialize Deserialize
        ToBase64String UriFormatError HeaderFormatError
                wiremockBaseUrl auth later lists w) as [[r w'] entries]. reflexivity.
  - simpl.
    destruct (CreateMappings_body World SendAsync Serialize Deserialize
        ToBase64String UriFormatError HeaderFormatError
                wiremockBaseUrl auth mapping lists w) as [[[lists'|ex] w'] entries];
      [|reflexivity].
    rewrite IH.
    destruct (CreateMappings_foreach World SendAsync Serialize Deserialize
        ToBase64String UriFormatError HeaderFormatError
                wiremockBaseUrl auth earlier lists' w') as [[[lists''|ex] w''] entries'];
      [|reflexivity].
    destruct (CreateMappings_foreach World SendAsync Serialize Deserialize
        ToBase64String UriFormatError HeaderFormatError
                wiremockBaseUrl auth later lists'' w'') as [[r w'''] entries''].
    rewrite app_assoc. reflexivity.
Qed.

(** X18: a mapping without a request object whose create fails aborts
    the batch: the handler of the loop dereferences [mapping.Request],
    its [NullReferenceException] leaves [CreateMappingsAsync], the
    mappings after it are never attempted, the mappings created before
    it are not returned, and [DeployMappings] answers 500. *)
Theorem batch_aborts_without_request wiremockBaseUrl auth earlier mapping later w ex :
  Forall has_request earlier ->
  WiremockMapping.Request mapping = None ->
  let w1 := (attempts World SendAsync Serialize Deserialize
      ToBase64String UriFormatError HeaderFormatError
               wiremockBaseUrl auth earlier w).2 in
  let attempt := CreateMappingAsync World SendAsync Serialize Deserialize
      ToBase64String UriFormatError HeaderFormatError
                   wiremockBaseUrl mapping auth w1 in
  attempt.1.1 = Throw ex ->
  all_white wiremockBaseUrl = false ->
  (exists entries,
     CreateMappingsAsync World SendAsync Serialize Deserialize
         ToBase64String UriFormatError HeaderFormatError
       wiremockBaseUrl (earlier ++ mapping :: later) auth w
     = (Throw NullReference, attempt.1.2, entries))
  /\ (exists entries,
        DeployMappings World SendAsync Serialize Deserialize
            ToBase64String UriFormatError HeaderFormatError
          {| TargetUrl := Some wiremockBaseUrl;
             Mappings := Some (earlier ++ mapping :: later);
             Auth := auth |} w
        = (Ok (StatusCode 500 false
                 ("Failed to deploy mappings: " +:+ Message NullReference)
                 (Message NullReference)),
           attempt.1.2, entries)).
Proof.
  intros Hreq Hnone w1 attempt Hthrow Hurl.
  destruct (CreateMappings_foreach_attempts World SendAsync Serialize Deserialize
              ToBase64String UriFormatError HeaderFormatError wiremockBaseUrl auth earlier Hreq
              {| createdMappings := []; failures := [] |} w) as [entries Hloop].
  fold w1 in Hloop.
  assert (Hstep : forall lists,
             exists entries',
               CreateMappings_foreach World SendAsync Serialize Deserialize
                   ToBase64String UriFormatError HeaderFormatError
                 wiremockBaseUrl auth (mapping :: later) lists w1
               = (Throw NullReference, attempt.1.2, entries')).
  { intros lists. simpl. unfold CreateMappings_body. fold attempt.
    destruct attempt as [[outcome w2] entries2]. simpl in Hthrow. subst outcome.
    unfold CreateMappings_catch. rewrite Hnone. simpl. eauto. }
  assert (Hrun : exists entries',
             CreateMappingsAsync World SendAsync Serialize Deserialize
                 ToBase64String UriFormatError HeaderFormatError
               wiremockBaseUrl (earlier ++ mapping :: later) auth w
             = (Throw NullReference, attempt.1.2, entries')).
  { unfold CreateMappingsAsync, CreateMappings_run.
    rewrite CreateMappings_foreach_app, Hloop.
    match goal with
    | |- context [CreateMappings_foreach _ _ _ _ _ _ _ _ _ (mapping :: later) ?l w1] =>
        destruct (Hstep l) as [entries' H']; rewrite H'
    end.
    eauto. }
  split; [exact Hrun|].
  destruct Hrun as [entries' Hrun].
  unfold DeployMappings, DeployMappings_try; simpl. rewrite Hurl.
  destruct (earlier ++ mapping :: later) as [|first rest] eqn:Hlist.
  { destruct earlier; discriminate. }
  rewrite Hrun. eauto.
Qed.

End Authentication.

(** The auth block of the template gets its header; a bearer token
    with a line feed passes validation, and the constructor of the
    header value throws. *)
Lemma validated_auth_builds_header_witness :
  WiremockAdminService.AddAuthenticationHeader Samples.plain Stubs.no_line_break
    (Some Stubs.basic_auth)
  = Ok (Some ("Basic", "admin:admin123"))
  /\ ConfigValidationService.validate_auth Stubs.broken_token = Ok []
  /\ WiremockAdminService.AddAuthenticationHeader Samples.plain Stubs.no_line_break
       (Some Stubs.broken_token)
     = Throw Stubs.line_break.
Proof.
  split; [|split; [reflexivity|]].
  - destruct (validated_auth_builds_header Samples.plain Stubs.no_line_break
                Stubs.basic_auth "Basic" eq_refl eq_refl)
      as [(_ & username & password & Hu & Hp & Hh) | [H | H]].
    + injection Hu as <-. injection Hp as <-. exact Hh.
    + destruct H as [H _]. discriminate H.
    + destruct H as [H _]. discriminate H.
  - destruct (validated_auth_builds_header Samples.plain Stubs.no_line_break
                Stubs.broken_token "bearer" eq_refl eq_refl)
      as [H | [(_ & token & Ht & Hh) | H]].
    + destruct H as [H _]. discriminate H.
    + injection Ht as <-. exact Hh.
    + destruct H as [H _]. discriminate H.
Defined.

(** A batch of one created mapping and one without request, with no
    server behind the second request. *)
Lemma batch_aborts_without_request_witness :
  exists entries,
    WiremockAdminService.CreateMappingsAsync nat Samples.second_fails Samples.no_text
      Samples.null_content
          Samples.plain Samples.well_formed Samples.accepted "http://localhost:8080"
      [Samples.deployable "/a"; Stubs.no_request; Samples.deployable "/c"] None 0%nat
    = (Throw NullReference, 2%nat, entries).
Proof.
  destruct (batch_aborts_without_request nat Samples.second_fails Samples.no_text
              Samples.null_content
                  Samples.plain Samples.well_formed Samples.accepted "http://localhost:8080" None
              [Samples.deployable "/a"] Stubs.no_request [Samples.deployable "/c"] 0%nat
              {| ExType := HttpRequestException; Message := "Connection refused" |})
    as [Hrun _].
  - repeat constructor; discriminate.
  - reflexivity.
  - reflexivity.
  - reflexivity.
  - exact Hrun.
Defined.

(** ** What the client validator finds *)
Section ClientFindings.

Import Str Client Findings.

Variable NumberToString : Q -> string.
Variable StringToNumber : string -> option Q.
Variable URL_parses : string -> bool.

Abbreviation check := (Client.validate NumberToString URL_parses).

(** Induction on a schema node and the nodes below it. *)
Lemma Schema_nested_ind (P : Schema -> Prop) :
  (forall type required enum minimum format properties items additionalProperties oneOf,
     Forall (fun p => P p.2) (default [] properties) ->
     match items with Some sub => P sub | None => True end ->
     match additionalProperties with Some sub => P sub | None => True end ->
     Forall P (default [] oneOf) ->
     P (mkSchema type required enum minimum format properties items
          additionalProperties oneOf)) ->
  forall schema, P schema.
Proof.
  intros step. fix IH 1.
  intros [type required enum minimum format properties items additionalProperties oneOf].
  apply step.
  - destruct properties as [props|]; [|apply List.Forall_nil]. simpl.
    induction props as [|[k sub] rest IHprops];
      [apply List.Forall_nil | apply List.Forall_cons; [apply IH | exact IHprops]].
  - destruct items as [sub|]; [apply IH | exact I].
  - destruct additionalProperties as [sub|]; [apply IH | exact I].
  - destruct oneOf as [alternatives|]; [|apply List.Forall_nil]. simpl.
    induction alternatives as [|sub rest IHalt];
      [apply List.Forall_nil | apply List.Forall_cons; [apply IH | exact IHalt]].
Qed.

Lemma located_here path message : located path (error path message).
Proof.
  split; [reflexivity|]. exists "". simpl.
  induction path as [|c path IH]; [reflexivity|].
  change (String c path = String c (path +:+ "")). rewrite <- IH. reflexivity.
Qed.

Lemma located_below path suffix message : located path (error (path +:+ suffix) message).
Proof. split; [reflexivity|]. exists suffix. reflexivity. Qed.

Lemma located_weaken path suffix l :
  Forall (located (path +:+ suffix)) l -> Forall (located path) l.
Proof.
  intros H. eapply Forall_impl; [exact H|]. intros e [Hs [x Hx]]. split; [exact Hs|].
  exists (suffix +:+ x). rewrite Hx. apply append_assoc.
Qed.

Lemma located_child path key l :
  Forall (located (child path key)) l -> Forall (located path) l.
Proof.
  unfold child. destruct (Str.eqb path "") eqn:E.
  - unfold Str.eqb in E. destruct (decide (path = "")) as [->|]; [|discriminate].
    intros H. eapply Forall_impl; [exact H|]. intros e [Hs [x Hx]]. split; [exact Hs|].
    exists (ValidationError.Path e). reflexivity.
  - apply located_weaken.
Qed.

Lemma located_flat_map {A} path (f : A -> list ValidationError.t) l :
  (forall x, In x l -> Forall (located path) (f x)) ->
  Forall (located path) (flat_map f l).
Proof.
  induction l as [|x rest IH]; intros H; simpl; [apply List.Forall_nil|].
  apply Forall_app. split; [apply H; left; reflexivity|].
  apply IH. intros y Hy. apply H. right. exact Hy.
Qed.

(** Every finding of the schema validator is an error, reported at the
    node that was validated or below it. *)
Lemma validate_located : forall schema data path,
  Forall (located path) (check schema data path).
Proof.
  induction schema
    as [type required enum minimum format properties items additionalProperties oneOf
        Hprops Hitems Hadd Hone] using Schema_nested_ind.
  intros data path.
  change (Forall (located path)
            match type_mismatch type data with
            | Some expected =>
                [error path ("Expected " +:+ expected +:+ ", got " +:+ typeof data)]
            | None =>
                required_errors type required data path
                ++ enum_errors NumberToString enum data path
                ++ minimum_errors NumberToString minimum data path
                ++ format_errors URL_parses format data path
                ++ match properties with
                   | Some props =>
                       if is_object data
                       then flat_map
                              (fun '(key, value) =>
                                 (fix at_key (ps : list (string * Schema))
                                    : list ValidationError.t :=
                                    match ps with
                                    | [] => []
                                    | (k, sub) :: rest =>
                                        if Str.eqb k key
                                        then check sub value (child path key)
                                        else at_key rest
                                    end) props)
                              (entries data)
                       else []
                   | None => []
                   end
                ++ match items, data with
                   | Some sub, JArr elements =>
                       flat_map (fun '(index, item) =>
                                   check sub item (path +:+ "[" +:+ of_nat index +:+ "]"))
                         (indexed 0 elements)
                   | _, _ => []
                   end
                ++ match additionalProperties with
                   | Some sub =>
                       if is_object data
                       then
                         let props := default [] properties in
                         flat_map (fun '(key, value) =>
                                     if lookup_member key props is Some _ then []
                                     else check sub value (child path key))
                           (entries data)
                       else []
                   | None => []
                   end
                ++ match oneOf with
                   | Some alternatives =>
                       let matchingSchemas :=
                         List.filter (fun subSchema =>
                                        (length (check subSchema data path) =? 0)%nat)
                           alternatives in
                       oneOf_errors (length matchingSchemas) path
                   | None => []
                   end
            end).
  destruct (type_mismatch type data) as [expected|].
  { apply List.Forall_cons; [apply located_here | apply List.Forall_nil]. }
  repeat (apply Forall_app; split).
  - unfold required_errors.
    repeat (match goal with
            | |- Forall _ (match ?x with _ => _ end) => destruct x
            end; try apply List.Forall_nil).
    apply located_flat_map. intros reqProp _.
    match goal with
    | |- context [if ?c then _ else _] => destruct c
    end; [|apply List.Forall_nil].
    apply List.Forall_cons; [apply located_below | apply List.Forall_nil].
  - unfold enum_errors. destruct enum as [values|]; [|apply List.Forall_nil].
    destruct (negb (includes values data)); [|apply List.Forall_nil].
    apply List.Forall_cons; [apply located_here | apply List.Forall_nil].
  - unfold minimum_errors. destruct minimum as [m|]; [|apply List.Forall_nil].
    destruct data; try apply List.Forall_nil.
    destruct (negb (Qle_bool m q)); [|apply List.Forall_nil].
    apply List.Forall_cons; [apply located_here | apply List.Forall_nil].
  - unfold format_errors.
    repeat (match goal with
            | |- Forall _ (match ?x with _ => _ end) => destruct x
            end; try apply List.Forall_nil).
    apply List.Forall_cons; [apply located_here | apply List.Forall_nil].
  - destruct properties as [props|]; [|apply List.Forall_nil].
    destruct (is_object data); [|apply List.Forall_nil].
    apply located_flat_map. intros [key value] _. simpl in Hprops.
    induction props as [|[k sub] rest IHprops]; [apply List.Forall_nil|].
    apply Forall_cons in Hprops as [Hsub Hrest].
    destruct (Str.eqb k key).
    + apply (located_child path key). apply Hsub.
    + apply IHprops. exact Hrest.
  - destruct items as [sub|]; [|apply List.Forall_nil].
    destruct data; try apply List.Forall_nil.
    apply located_flat_map. intros [index item] _.
    apply (located_weaken path ("[" +:+ of_nat index +:+ "]")). apply Hitems.
  - destruct additionalProperties as [sub|]; [|apply List.Forall_nil].
    destruct (is_object data); [|apply List.Forall_nil].
    apply located_flat_map. intros [key value] _.
    destruct (lookup_member key (default [] properties)); [apply List.Forall_nil|].
    apply (located_child path key). apply Hadd.
  - destruct oneOf as [alternatives|]; [|apply List.Forall_nil].
    unfold oneOf_errors.
    repeat (match goal with
            | |- context [if ?c then _ else _] => destruct c
            end);
      try apply List.Forall_nil;
      (apply List.Forall_cons; [apply located_here | apply List.Forall_nil]).
Qed.

(** X19: every finding of the schema validator is an error and is
    reported at the node that was validated or below it: its path is
    the path of that node followed by a suffix. *)
Theorem schema_findings_are_located_errors schema data path e :
  In e (check schema data path) -> located path e.
Proof.
  intros He. pose proof (validate_located schema data path) as H.
  rewrite List.Forall_forall in H. apply H. exact He.
Qed.

Lemma flat_map_nonempty {A B} (g h : A -> list B) l :
  (forall x, h x <> [] -> g x <> []) -> flat_map h l <> [] -> flat_map g l <> [].
Proof.
  intros Hgh. induction l as [|x rest IH]; simpl; [auto|].
  intros Hh Hg. apply app_eq_nil in Hg as [Hg1 Hg2].
  destruct (h x) eqn:Ex.
  - apply IH; [exact Hh | exact Hg2].
  - apply (Hgh x); [rewrite Ex; discriminate | exact Hg1].
Qed.

Lemma flat_map_member {A B} (g : A -> list B) l x :
  In x l -> g x <> [] -> flat_map g l <> [].
Proof.
  induction l as [|y rest IH]; simpl; [contradiction|].
  intros [-> | Hin] Hx H; apply app_eq_nil in H as [H1 H2]; [auto|].
  apply (IH Hin Hx H2).
Qed.

(** The two alternatives of the body's [oneOf] carry no [type], so
    neither their [required] lists nor their [const] are ever checked:
    an alternative fails only on a [value] (or [fileName]) that is not a
    string, which the properties of the body itself report as well. *)
Lemma validate_bodySchema_nonempty members path :
  check bodySchema (JObj members) path <> [].
Proof.
  unfold bodySchema. simpl.
  match goal with
  | |- flat_map ?g members
       ++ oneOf_errors
            (length (if (length (flat_map ?h1 members ++ []) =? 0)%nat
                     then _ :: (if (length (flat_map ?h2 members ++ []) =? 0)%nat
                                then _ else _)
                     else _)) _ <> [] =>
      assert (H1 : flat_map h1 members <> [] -> flat_map g members <> []);
      [|assert (H2 : flat_map h2 members <> [] -> flat_map g members <> []);
        [|destruct (flat_map h1 members) eqn:E1;
          [destruct (flat_map h2 members) eqn:E2|]]]
  end.
  - apply flat_map_nonempty. intros [key value].
    destruct (Str.eqb "type" key); [intros H; contradiction|].
    destruct (Str.eqb "value" key); [auto | intros H; contradiction].
  - apply flat_map_nonempty. intros [key value].
    destruct (Str.eqb "type" key); [intros H; contradiction|].
    destruct (Str.eqb "value" key) eqn:Ev.
    + destruct (Str.eqb "fileName" key) eqn:Ef; [|intros H; contradiction].
      exfalso. unfold Str.eqb in Ev, Ef.
      destruct (decide ("value" = key)) as [<-|]; [|discriminate].
      destruct (decide ("fileName" = "value")); discriminate.
    + destruct (Str.eqb "fileName" key); [auto | intros H; contradiction].
  - simpl. intros H. apply app_eq_nil in H as [_ H]. discriminate H.
  - intros H. apply app_eq_nil in H as [H _]. apply H2; [discriminate | exact H].
  - intros H. apply app_eq_nil in H as [H _]. apply H1; [discriminate | exact H].
Qed.

(** A finding below a member of an object is a finding of the object. *)
Lemma validate_object_member req props members path key value sub :
  In (key, value) members ->
  lookup_member key props = Some sub ->
  check sub value (child path key) <> [] ->
  check (object req props) (JObj members) path <> [].
Proof.
  intros Hin Hsub Hne. unfold object.
  change (required_errors (Some "object") req (JObj members) path
          ++ [] ++ [] ++ []
          ++ flat_map
               (fun '(key, value) =>
                  (fix at_key (ps : list (string * Schema)) : list ValidationError.t :=
                     match ps with
                     | [] => []
                     | (k, sub) :: rest =>
                         if Str.eqb k key
                         then check sub value (child path key)
                         else at_key rest
                     end) props)
               members
          ++ [] ++ [] ++ [] <> []).
  intros H. apply app_eq_nil in H as [_ H]. simpl in H.
  apply app_eq_nil in H as [H _]. revert H.
  apply (flat_map_member _ members (key, value)); [exact Hin|].
  clear Hin. induction props as [|[k s] rest IH]; [discriminate Hsub|].
  simpl in Hsub. destruct (Str.eqb k key); [|exact (IH Hsub)].
  injection Hsub as ->. exact Hne.
Qed.

(** A missing required member is a finding of the object. *)
Lemma validate_object_required req props members path name :
  In name req ->
  lookup_member name members = None ->
  check (object (Some req) props) (JObj members) path <> [].
Proof.
  intros Hin Hnone. unfold object.
  change (required_errors (Some "object") (Some req) (JObj members) path
          ++ [] ++ [] ++ []
          ++ flat_map
               (fun '(key, value) =>
                  (fix at_key (ps : list (string * Schema)) : list ValidationError.t :=
                     match ps with
                     | [] => []
                     | (k, sub) :: rest =>
                         if Str.eqb k key
                         then check sub value (child path key)
                         else at_key rest
                     end) props)
               members
          ++ [] ++ [] ++ [] <> []).
  intros H. apply app_eq_nil in H as [H _]. revert H.
  unfold required_errors. apply (flat_map_member _ req name); [exact Hin|].
  unfold has_member. simpl. rewrite Hnone. discriminate.
Qed.

Lemma indexed_member {A} (l : list A) x : forall k,
  In x l -> exists i, In (i, x) (indexed k l).
Proof.
  induction l as [|y rest IH]; intros k; simpl; [contradiction|].
  intros [-> | Hin]; [exists k; left; reflexivity|].
  destruct (IH (S k) Hin) as [i Hi]. exists i. right. exact Hi.
Qed.

(** A finding in an element of an array is a finding of the array. *)
Lemma validate_array_element sub elements path item :
  In item elements ->
  (forall path', check sub item path' <> []) ->
  check (array_of sub) (JArr elements) path <> [].
Proof.
  intros Hin Hne. unfold array_of.
  change ([] ++ [] ++ [] ++ [] ++ []
          ++ flat_map (fun '(index, item) =>
                         check sub item (path +:+ "[" +:+ of_nat index +:+ "]"))
               (indexed 0 elements)
          ++ [] ++ [] <> []).
  simpl. intros H. apply app_eq_nil in H as [H _]. revert H.
  destruct (indexed_member elements item 0%nat Hin) as [i Hi].
  apply (flat_map_member _ _ (i, item)); [exact Hi | apply Hne].
Qed.

Lemma validate_document_mock members mocks mock :
  In ("mocks", JArr mocks) members ->
  In mock mocks ->
  (forall path, check mockSchema mock path <> []) ->
  check ATOM_SCHEMA (JObj members) "" <> [].
Proof.
  intros Hmocks Hmock Hne. unfold ATOM_SCHEMA.
  eapply validate_object_member; [exact Hmocks | reflexivity|].
  eapply validate_array_element; [exact Hmock | exact Hne].
Qed.

(** A schema finding makes the document invalid, whatever the business
    rules do. *)
Lemma schema_finding_invalidates config :
  truthy config = true ->
  typeof config = "object" ->
  check ATOM_SCHEMA config "" <> [] ->
  ValidationResult.IsValid
    (validateATOMConfig NumberToString StringToNumber URL_parses config) = false.
Proof.
  intros Ht Ho Hne. unfold validateATOMConfig, validateATOMConfig_try.
  rewrite Ht, Ho.
  change (negb true || negb (Str.eqb "object" "object")) with false. cbn iota.
  destruct (validateBusinessLogic NumberToString StringToNumber config)
    as [businessErrors|ex]; [|reflexivity].
  pose proof (validate_located ATOM_SCHEMA config "") as Hloc.
  destruct (check ATOM_SCHEMA config "") as [|e errors]; [contradiction|].
  apply Forall_cons in Hloc as [[Hsev _] _].
  assert (He : has_severity "error" e = true).
  { unfold has_severity. rewrite Hsev. reflexivity. }
  cbn [mbind result_bind mret result_ret]. unfold separate.
  cbn [ValidationResult.IsValid app List.filter]. rewrite He. reflexivity.
Qed.

(** X20: the client rejects every document in which a response has a
    body object: both alternatives of the body's [oneOf] accept every
    body whose [value] and [fileName] are strings or absent, so such a
    body "matches multiple schemas", and any other body fails the type
    of [value] or [fileName]. *)
Theorem client_rejects_every_response_body members mocks mock response body :
  In ("mocks", JArr mocks) members ->
  In (JObj mock) mocks ->
  In ("response", JObj response) mock ->
  In ("body", JObj body) response ->
  (forall path, check bodySchema (JObj body) path <> [])
  /\ ValidationResult.IsValid
       (validateATOMConfig NumberToString StringToNumber URL_parses (JObj members)) = false.
Proof.
  intros Hmocks Hmock Hresponse Hbody.
  split; [intros path; apply validate_bodySchema_nonempty|].
  apply schema_finding_invalidates; [reflexivity | reflexivity|].
  eapply validate_document_mock; [exact Hmocks | exact Hmock|].
  intros path. unfold mockSchema.
  eapply validate_object_member; [exact Hresponse | reflexivity|].
  unfold responseSchema.
  eapply validate_object_member; [exact Hbody | reflexivity|].
  apply validate_bodySchema_nonempty.
Qed.

Lemma forEach_mocks_throws config mocks mock index ex :
  In (index, mock) mocks ->
  forEach_mock NumberToString StringToNumber config mock index = Throw ex ->
  exists ex', forEach_mocks NumberToString StringToNumber config mocks = Throw ex'.
Proof.
  induction mocks as [|[i m] rest IH]; simpl; [contradiction|].
  intros [[= -> ->] | Hin] Hthrow.
  - rewrite Hthrow. eauto.
  - destruct (forEach_mock NumberToString StringToNumber config m i); simpl; [|eauto].
    destruct (IH Hin Hthrow) as [ex' ->]. eauto.
Qed.

(** X21: a mock object without a request makes the business rules
    throw a [TypeError], and the [catch] of [validateATOMConfig]
    answers with that one error at "root": the findings of the schema
    validator, the missing request among them, are dropped. *)
Theorem business_exception_hides_findings members mocks mock :
  lookup_member "mocks" members = Some (JArr mocks) ->
  In ("mocks", JArr mocks) members ->
  In (JObj mock) mocks ->
  lookup_member "request" mock = None ->
  check ATOM_SCHEMA (JObj members) "" <> []
  /\ exists ex,
       validateATOMConfig NumberToString StringToNumber URL_parses (JObj members)
       = {| ValidationResult.IsValid := false;
            ValidationResult.Errors :=
              [error "root" ("Validation error: " +:+ Message ex)];
            ValidationResult.Warnings := [] |}.
Proof.
  intros Hget Hmocks Hmock Hnone. split.
  - eapply validate_document_mock; [exact Hmocks | exact Hmock|].
    intros path. unfold mockSchema.
    apply (validate_object_required _ _ _ _ "request"); [left; reflexivity | exact Hnone].
  - destruct (indexed_member mocks (JObj mock) 0%nat Hmock) as [i Hi].
    destruct (forEach_mocks_throws (JObj members) (indexed 0 mocks) (JObj mock) i
                (type_error "Cannot read properties of undefined (reading 'url')") Hi)
      as [ex Hthrow].
    { unfold forEach_mock, get. rewrite Hnone. reflexivity. }
    exists ex. unfold validateATOMConfig, validateATOMConfig_try.
    change (truthy (JObj members)) with true.
    change (typeof (JObj members)) with "object".
    change (negb true || negb (Str.eqb "object" "object")) with false.
    cbn iota. unfold validateBusinessLogic, get. rewrite Hget. simpl.
    rewrite Hthrow. reflexivity.
Qed.

(** X22: the two validators disagree on the case of the method: the
    server compares the upper-cased method and accepts "get", the
    client's enum compares the method as written and rejects every
    spelling that is not in upper case. *)
Theorem method_case_divides_validators m pathPrefix request members path :
  MockRequest.Method request = Some m ->
  all_white m = false ->
  ConfigValidationService.Contains ConfigValidationService.validMethods (ToUpper m) = true ->
  ConfigValidationService.Contains ConfigValidationService.validMethods m = false ->
  In ("method", JStr m) members ->
  ConfigValidationService.validate_method pathPrefix request = []
  /\ check requestSchema (JObj members) path <> [].
Proof.
  intros Hm Hw Hupper Hexact Hin. split.
  - unfold ConfigValidationService.validate_method. rewrite Hm, Hw, Hupper. reflexivity.
  - unfold requestSchema.
    eapply validate_object_member; [exact Hin | reflexivity|].
    unfold one_of_strings. simpl.
    unfold ConfigValidationService.Contains, ConfigValidationService.validMethods in Hexact.
    simpl in Hexact. rewrite Hexact. discriminate.
Qed.

End ClientFindings.

(** A type mismatch at "version". *)
Lemma schema_findings_are_located_errors_witness :
  Findings.located "version" (Client.error "version" "Expected string, got object").
Proof.
  apply (schema_findings_are_located_errors (fun _ => "") (fun _ => true)
           (Client.typed "string") JNull "version").
  left. reflexivity.
Defined.

(** A document with the inline body "ok". *)
Lemma client_rejects_every_response_body_witness :
  ValidationResult.IsValid
    (Client.validateATOMConfig (fun _ => "") (fun _ => None) (fun _ => true)
       Findings.with_body) = false.
Proof.
  unfold Findings.with_body.
  eapply (fun members mocks mock response body H1 H2 H3 H4 =>
            proj2 (client_rejects_every_response_body (fun _ => "") (fun _ => None)
                     (fun _ => true) members mocks mock response body H1 H2 H3 H4)).
  - right. left. reflexivity.
  - left. reflexivity.
  - right. left. reflexivity.
  - right. left. reflexivity.
Defined.

(** A document whose only mock has no request. *)
Lemma business_exception_hides_findings_witness :
  exists ex,
    Client.validateATOMConfig (fun _ => "") (fun _ => None) (fun _ => true)
      Findings.without_request
    = {| ValidationResult.IsValid := false;
         ValidationResult.Errors :=
           [Client.error "root" ("Validation error: " +:+ Message ex)];
         ValidationResult.Warnings := [] |}.
Proof.
  unfold Findings.without_request.
  eapply (fun members mocks mock H1 H2 H3 H4 =>
            proj2 (business_exception_hides_findings (fun _ => "") (fun _ => None)
                     (fun _ => true) members mocks mock H1 H2 H3 H4)).
  - reflexivity.
  - right. left. reflexivity.
  - left. reflexivity.
  - reflexivity.
Defined.

(** The method "get". *)
Lemma method_case_divides_validators_witness :
  ConfigValidationService.validate_method "mocks[0]"
    (Samples.request "get" (Some "/a") None None None None) = []
  /\ Client.validate (fun _ => "") (fun _ => true) Client.requestSchema
       (JObj [("method", JStr "get"); ("url", JStr "/a")]) "mocks[0].request" <> [].
Proof.
  apply (method_case_divides_validators (fun _ => "") (fun _ => true) "get").
  - reflexivity.
  - reflexivity.
  - reflexivity.
  - reflexivity.
  - left. reflexivity.
Defined.

(** ** The actions that validate, generate and deploy *)
Section Pipeline.

Import Str ConfigValidationService MappingService WiremockAdminService ConfigController.

Variable World : Type.
Variable SendAsync : HttpRequestMessage -> World -> result HttpResponseMessage * World.
Variable Serialize : WiremockMapping.t -> string.
Variable Deserialize : string -> result (option WiremockMapping.t).
Variable ToBase64String : string -> string.
Variable UriFormatError : string -> option Exception.
Variable HeaderFormatError : string -> string -> option Exception.
Variable IsAbsoluteUri : string -> bool.
Variable DeserializeATOMConfig : json -> result (option ATOMConfig.t).
Variable DeserializeJsonConfig : json -> result (option JsonConfig.t).
Variable NewGuidString : nat -> string.
Variable GetRawText : json -> string.

(** A valid result comes from the validator of the dialect, run on the
    typed document. *)
Lemma valid_result_path jsonElement r :
  ValidateConfigFromJson IsAbsoluteUri DeserializeATOMConfig DeserializeJsonConfig
    jsonElement = Ok r ->
  ValidationResult.IsValid r = true ->
  exists mocksProperty,
    TryGetProperty jsonElement "mocks" = Ok mocksProperty
    /\ if isAtomConfig mocksProperty
       then exists config,
              DeserializeATOMConfig jsonElement = Ok (Some config)
              /\ ValidateATOMConfig IsAbsoluteUri config = Ok r
       else exists config,
              DeserializeJsonConfig jsonElement = Ok (Some config)
              /\ ValidateConfig config = Ok r.
Proof.
  unfold ValidateConfigFromJson, try_catch.
  destruct (ValidateConfigFromJson_try IsAbsoluteUri DeserializeATOMConfig
              DeserializeJsonConfig jsonElement) as [r'|ex] eqn:Htry.
  - intros [= <-] Hvalid. unfold ValidateConfigFromJson_try in Htry.
    destruct (TryGetProperty jsonElement "mocks") as [mocksProperty|]; [|discriminate].
    exists mocksProperty. split; [reflexivity|].
    cbn [mbind result_bind] in Htry. unfold isAtomConfig.
    destruct (match mocksProperty with Some (JArr _) => true | _ => false end).
    + destruct (DeserializeATOMConfig jsonElement) as [[config|]|]; simpl in Htry.
      * exists config. split; [reflexivity | exact Htry].
      * injection Htry as <-. discriminate Hvalid.
      * discriminate Htry.
    + destruct (DeserializeJsonConfig jsonElement) as [[config|]|]; simpl in Htry.
      * exists config. split; [reflexivity | exact Htry].
      * injection Htry as <-. discriminate Hvalid.
      * discriminate Htry.
  - unfold ValidateConfigFromJson_catch.
    destruct (ExType ex); intros [= <-] Hvalid; discriminate Hvalid.
Qed.

Lemma validate_mappings_requests mappings : forall i e w,
  validate_mappings i mappings = Ok (e, w) -> Forall has_request mappings.
Proof.
  induction mappings as [|mapping rest IH]; intros i e w; simpl; [constructor|].
  destruct (validate_mapping i mapping) as [[e1 w1]|] eqn:H1; [|discriminate]. simpl.
  destruct (validate_mappings (S i) rest) as [[e2 w2]|] eqn:H2; [|discriminate].
  intros _. apply List.Forall_cons; [|exact (IH _ _ _ H2)].
  unfold validate_mapping in H1. unfold has_request.
  destruct (WiremockMapping.Request mapping); [discriminate | discriminate H1].
Qed.

Lemma valid_legacy_mappings config r :
  ValidateConfig config = Ok r ->
  exists mappings,
    (JsonConfig.Mappings config = Some mappings \/
     (JsonConfig.Mappings config = None /\ mappings = []))
    /\ Forall has_request mappings
    /\ (ValidationResult.IsValid r = true -> JsonConfig.Mappings config = Some mappings).
Proof.
  unfold ValidateConfig. intros H.
  destruct (JsonConfig.Mappings config) as [[|mapping rest]|].
  - exists []. simpl in H. injection H as <-. split; [auto|]. split; [constructor | auto].
  - destruct (validate_mappings 0 (mapping :: rest)) as [[e2 w2]|] eqn:H2; [|discriminate].
    exists (mapping :: rest). split; [auto|]. split; [|auto].
    exact (validate_mappings_requests _ _ _ _ H2).
  - exists []. simpl in H. injection H as <-. split; [auto|]. split; [constructor|].
    simpl. rewrite no_entry_app. simpl. rewrite andb_false_r. discriminate.
Qed.

(** Generation from a legacy document whose mappings are there. *)
Lemma legacy_generation mappings σ :
  exists refs σ',
    (Mappings ← materialize (Some mappings);
     GenerateMappingsAsync NewGuidString Mappings) σ = (Ok refs, σ')
    /\ Forall2 (fun m ref =>
                  exists k, heap σ' !! ref
                            = Some (WiremockMapping.with_Id (Some (NewGuidString k)) m))
         mappings refs.
Proof.
  destruct (alloc_all_spec mappings σ) as (σ0 & Halloc & Hnew & _).
  destruct (GenerateMappings_foreach_spec NewGuidString
              (seq (next_loc σ) (length mappings)) [] σ0) as (σ' & Hrun & Hin & _).
  { apply NoDup_seq. }
  { intros l Hl. apply elem_of_seq in Hl.
    destruct (lookup_lt_is_Some_2 mappings (l - next_loc σ)) as [m Hm]; [lia|].
    exists m. replace l with (next_loc σ + (l - next_loc σ))%nat by lia.
    exact (Hnew _ m Hm). }
  exists (seq (next_loc σ) (length mappings)), σ'. split.
  - unfold materialize. unfold mbind at 1, M_bind at 1. unfold mbind at 1, M_bind at 1.
    rewrite Halloc. unfold mret, M_ret.
    unfold GenerateMappingsAsync, mbind, M_bind, lift; simpl. exact Hrun.
  - apply Forall2_same_length_lookup. split; [rewrite length_seq; reflexivity|].
    intros i m ref Hm Href.
    assert (Hi : (i < length mappings)%nat) by (eapply lookup_lt_Some; eauto).
    rewrite lookup_seq_lt in Href by exact Hi. injection Href as <-.
    apply Hin; [apply elem_of_seq; lia | exact (Hnew i m Hm)].
Qed.

Lemma read_all_spec σ refs :
  Forall (fun ref => exists m, heap σ !! ref = Some m /\ has_request m) refs ->
  exists objects,
    read_all σ refs = Ok objects
    /\ Forall has_request objects
    /\ length objects = length refs.
Proof.
  induction 1 as [|ref rest (m & Hm & Hreq) _ (objects & Hrest & Hall & Hlen)]; simpl.
  - exists []. split; [reflexivity|]. split; [constructor | reflexivity].
  - rewrite Hm, Hrest. simpl. exists (m :: objects). split; [reflexivity|].
    split; [apply List.Forall_cons; assumption | simpl; rewrite Hlen; reflexivity].
Qed.

Lemma successes_length outcomes :
  (length (successes outcomes) <= length outcomes)%nat.
Proof.
  induction outcomes as [|[created|ex] rest IH]; simpl; lia.
Qed.

(** Deployment of generated mappings answers 200. *)
Lemma deploy_returns validationResult targetBaseUrl authConfig mappings σ w :
  Forall (fun ref => exists m, heap σ !! ref = Some m /\ has_request m) mappings ->
  exists value w' entries deployedMappings,
    deploy World SendAsync Serialize Deserialize
        ToBase64String UriFormatError HeaderFormatError validationResult
      targetBaseUrl authConfig mappings σ w = (Ok (OkObject value), w', entries)
    /\ DeployResponse.success value = true
    /\ DeployResponse.validation value = validationResult
    /\ DeployResponse.deployed value
       = {| target := targetBaseUrl;
            mappingsCount := length deployedMappings;
            ConfigController.mappings := map summary deployedMappings |}
    /\ (length deployedMappings <= length mappings)%nat.
Proof.
  intros Hrefs.
  destruct (read_all_spec σ mappings Hrefs) as (objects & Hread & Hreq & Hlen).
  unfold deploy. rewrite Hread.
  destruct (CreateMappings_foreach_attempts World SendAsync Serialize Deserialize
              ToBase64String UriFormatError HeaderFormatError targetBaseUrl authConfig objects Hreq
              {| createdMappings := []; failures := [] |} w) as [entries Hloop].
  unfold CreateMappingsAsync, CreateMappings_run. rewrite Hloop.
  eexists. eexists. eexists. eexists. split; [reflexivity|].
  cbn [DeployResponse.success DeployResponse.validation DeployResponse.deployed
       mappingsCount ConfigController.mappings createdMappings app].
  split; [reflexivity|]. split; [reflexivity|]. split; [reflexivity|].
  rewrite <- Hlen,
    <- (attempts_length World SendAsync Serialize Deserialize
        ToBase64String UriFormatError HeaderFormatError
          targetBaseUrl authConfig objects w).
  apply successes_length.
Qed.

Lemma generated_has_request Id mock config m id :
  ConvertToWiremockMapping Id mock config = Ok m ->
  has_request (WiremockMapping.with_Id id m).
Proof.
  intros H. apply ConvertToWiremockMapping_Ok in H.
  destruct H as (request & response & wreq & _ & _ & _ & _ & Hr & _).
  unfold has_request. simpl. rewrite Hr. discriminate.
Qed.

(** Generation from a valid canonical document: it returns exactly
    when every mock converts. *)
Lemma canonical_generation config r σ :
  ValidateATOMConfig IsAbsoluteUri config = Ok r ->
  ValidationResult.IsValid r = true ->
  exists mocks,
    ATOMConfig.Mocks config = Some mocks
    /\ match GenerateMappingsFromATOMAsync NewGuidString config σ with
       | (Ok refs, σ') =>
           Forall convertible mocks
           /\ Forall (fun ref => exists m, heap σ' !! ref = Some m /\ has_request m) refs
           /\ (forall l, (l < next_loc σ)%nat -> heap σ' !! l = heap σ !! l)
       | (Throw ex, σ') => ex = NullReference /\ ~ Forall convertible mocks
       end.
Proof.
  intros Hv Hvalid.
  destruct (valid_canonical_mocks IsAbsoluteUri _ _ Hv Hvalid) as (mocks & Hmocks & _).
  exists mocks. split; [exact Hmocks|].
  assert (Hgen : GenerateMappingsFromATOMAsync NewGuidString config σ
                 = GenerateMappingsFromATOM_foreach NewGuidString config mocks [] σ).
  { unfold GenerateMappingsFromATOMAsync, mbind, M_bind, lift. rewrite Hmocks. reflexivity. }
  rewrite Hgen.
  pose proof (GenerateMappingsFromATOM_foreach_outcome NewGuidString config mocks [] σ)
    as Ho.
  destruct (GenerateMappingsFromATOM_foreach NewGuidString config mocks [] σ)
    as [[refs|ex] σ'] eqn:Hrun'.
  - destruct (GenerateMappingsFromATOM_foreach_store NewGuidString config mocks [] σ Ho)
      as (σ'' & Hrun & _ & Hold & _ & Hnew & _).
    rewrite Hrun' in Hrun. injection Hrun as -> <-.
    split; [exact Ho|]. split; [|exact Hold].
    apply List.Forall_forall. intros ref Href. apply List.in_seq in Href.
    destruct (lookup_lt_is_Some_2 mocks (ref - next_loc σ)) as [mock Hi]; [lia|].
    destruct (Hnew _ mock Hi) as (m & Hm & Hheap & _).
    replace (next_loc σ + (ref - next_loc σ))%nat with ref in Hheap by lia.
    eexists. split; [exact Hheap|]. eapply generated_has_request. exact Hm.
  - destruct Ho as (-> & earlier & mock & rest & -> & _ & Hn).
    split; [reflexivity|]. intros Hall.
    apply Forall_app in Hall as [_ Hall]. apply Forall_cons in Hall as [Hc _].
    exact (Hn Hc).
Qed.

(** Every element of [deployed.mappings] is a summary, but for the
    mappings without a request: there it is the exception that reading
    the element throws. *)
Lemma summary_elements deployedMappings :
  Forall2 (fun m element =>
             match WiremockMapping.Request m with
             | Some _ => exists s, element = Ok s
             | None => element = Throw NullReference
             end)
    deployedMappings (map summary deployedMappings).
Proof.
  induction deployedMappings as [|m rest IH]; simpl; constructor; [|exact IH].
  unfold summary. destruct (WiremockMapping.Request m); simpl; [eexists|]; reflexivity.
Qed.

(** Generation from a valid legacy document. *)
Lemma valid_legacy_generation config r σ :
  ValidateConfig config = Ok r ->
  ValidationResult.IsValid r = true ->
  exists refs σ',
    (Mappings ← materialize (JsonConfig.Mappings config);
     GenerateMappingsAsync NewGuidString Mappings) σ = (Ok refs, σ')
    /\ Forall (fun ref => exists m, heap σ' !! ref = Some m /\ has_request m) refs.
Proof.
  intros Hv Hvalid.
  destruct (valid_legacy_mappings config r Hv) as (mappings & _ & Hreq & Hsome).
  rewrite (Hsome Hvalid).
  destruct (legacy_generation mappings σ) as (refs & σ' & Hrun & Hall).
  exists refs, σ'. split; [exact Hrun|].
  apply List.Forall_forall. intros ref Href. apply list_elem_of_In in Href.
  apply list_elem_of_lookup_1 in Href as [i Hi].
  destruct (Forall2_lookup_r _ _ _ _ _ Hall Hi) as (m & Hm & k & Hheap).
  eexists. split; [exact Hheap|].
  rewrite List.Forall_forall in Hreq. unfold has_request. simpl.
  apply Hreq. apply list_elem_of_In. eapply list_elem_of_lookup_2. exact Hm.
Qed.



End Pipeline.



(** ** The store of [MappingService] *)
Section Store.

Import MappingService.

(** X25: [UpdateMappingAsync] files the object under the id whether
    or not the id was stored before, and stamps the id on the object;
    [GetMappingAsync] then finds it; [DeleteMappingAsync] answers
    whether the id was stored, so [true] the first time and [false] the
    second, and afterwards the id is not found; no other id is touched,
    and the object itself outlives its removal from the store. *)
Theorem update_get_delete_round_trip σ id mapping m :
  heap σ !! mapping = Some m ->
  exists σ1 σ2,
    UpdateMappingAsync id mapping σ = (Ok mapping, σ1)
    /\ heap σ1 !! mapping = Some (WiremockMapping.with_Id (Some id) m)
    /\ GetMappingAsync id σ1 = (Ok (Some mapping), σ1)
    /\ DeleteMappingAsync id σ1 = (Ok true, σ2)
    /\ GetMappingAsync id σ2 = (Ok None, σ2)
    /\ DeleteMappingAsync id σ2 = (Ok false, σ2)
    /\ (forall id', id' <> id -> _mappings σ2 !! id' = _mappings σ !! id')
    /\ heap σ2 !! mapping = Some (WiremockMapping.with_Id (Some id) m).
Proof.
  intros Hm. eexists. eexists.
  split.
  { unfold UpdateMappingAsync, mbind, M_bind. rewrite (set_Id_ok _ _ _ _ Hm). reflexivity. }
  split; [apply lookup_insert_eq|].
  split.
  { unfold GetMappingAsync. cbn [_mappings]. rewrite lookup_insert_eq. reflexivity. }
  split.
  { unfold DeleteMappingAsync. cbn [_mappings heap next_loc guids].
    rewrite lookup_insert_eq. reflexivity. }
  split.
  { unfold GetMappingAsync. cbn [_mappings]. rewrite lookup_delete_eq. reflexivity. }
  split.
  { unfold DeleteMappingAsync. cbn [_mappings heap next_loc guids].
    rewrite lookup_delete_eq, delete_delete_eq. reflexivity. }
  split.
  { intros id' Hne. cbn [_mappings].
    rewrite lookup_delete_ne, lookup_insert_ne by congruence. reflexivity. }
  cbn [heap]. apply lookup_insert_eq.
Qed.

End Store.

(** The object at location 0, filed under "order-1". *)
Lemma update_get_delete_round_trip_witness :
  exists σ1,
    MappingService.UpdateMappingAsync "order-1" 0%nat Stored.one_object = (Ok 0%nat, σ1)
    /\ MappingService.GetMappingAsync "order-1" σ1 = (Ok (Some 0%nat), σ1).
Proof.
  destruct (update_get_delete_round_trip Stored.one_object "order-1" 0%nat
              (Samples.deployable "/a") eq_refl)
    as (σ1 & σ2 & Hupdate & _ & Hget & _).
  exists σ1. split; [exact Hupdate | exact Hget].
Defined.

(** ** The mapping list of the client *)
Section MappingListHelpers.

Import MappingList.

(** X26: expanding and collapsing a row are inverse to each other:
    [toggleRowExpansion] changes the membership of the row it is given
    and of no other, and two toggles of the same row restore the set. *)
Theorem toggle_is_an_involution expandedRows id :
  (id ∈ toggleRowExpansion expandedRows id <-> id ∉ expandedRows)
  /\ (forall other, other <> id ->
        (other ∈ toggleRowExpansion expandedRows id <-> other ∈ expandedRows))
  /\ toggleRowExpansion (toggleRowExpansion expandedRows id) id = expandedRows.
Proof.
  unfold toggleRowExpansion. cbv zeta.
  destruct (decide (id ∈ expandedRows)) as [Hin | Hout].
  - split; [|split].
    + rewrite elem_of_difference, elem_of_singleton. intuition congruence.
    + intros other Hne. rewrite elem_of_difference, elem_of_singleton. intuition congruence.
    + destruct (decide (id ∈ expandedRows ∖ {[id]})) as [H | _].
      { apply elem_of_difference in H as [_ H]. exfalso. apply H.
        apply elem_of_singleton. reflexivity. }
      apply set_eq. intros x.
      rewrite elem_of_union, elem_of_difference, elem_of_singleton.
      destruct (decide (x = id)) as [->|]; intuition congruence.
  - split; [|split].
    + rewrite elem_of_union, elem_of_singleton. intuition congruence.
    + intros other Hne. rewrite elem_of_union, elem_of_singleton. intuition congruence.
    + destruct (decide (id ∈ expandedRows ∪ {[id]})) as [_ | H].
      2:{ exfalso. apply H. apply elem_of_union. right. apply elem_of_singleton.
          reflexivity. }
      apply set_eq. intros x.
      rewrite elem_of_difference, elem_of_union, elem_of_singleton.
      destruct (decide (x = id)) as [->|]; intuition congruence.
Qed.

Lemma length_append a b :
  String.length (a +:+ b) = (String.length a + String.length b)%nat.
Proof.
  induction a as [|c a IH]; [reflexivity|].
  change (S (String.length (a +:+ b)) = S (String.length a + String.length b)).
  rewrite IH. reflexivity.
Qed.

Lemma length_substring s : forall n,
  (n <= String.length s)%nat -> String.length (String.substring 0 n s) = n.
Proof.
  induction s as [|c s IH]; intros [|n] Hn; simpl in *; try reflexivity; try lia.
  rewrite IH by lia. reflexivity.
Qed.

(** X27: the body shown in the list is never longer than 50
    characters: a body of at most 50 characters is shown as it is, a
    longer one as its first 47 characters and three dots. *)
Theorem body_preview_fits body :
  (String.length (body_preview body) <= 50)%nat
  /\ ((String.length body <= 50)%nat -> body_preview body = body)
  /\ ((50 < String.length body)%nat ->
      body_preview body = String.substring 0 47 body +:+ "..."
      /\ String.length (body_preview body) = 50%nat).
Proof.
  unfold body_preview.
  destruct (50 <? String.length body)%nat eqn:E.
  - apply Nat.ltb_lt in E.
    assert (Hlen : String.length (String.substring 0 47 body +:+ "...") = 50%nat).
    { rewrite length_append, length_substring by lia. reflexivity. }
    split; [lia|]. split; [lia|]. intros _. split; [reflexivity | exact Hlen].
  - apply Nat.ltb_ge in E. split; [lia|]. split; [reflexivity | lia].
Qed.

End MappingListHelpers.

(** ** The dialect of a document *)
Section Dialect.

Import Str ConfigValidationService Client Upload.

Variable NumberToString : Q -> string.
Variable IsAbsoluteUri : string -> bool.
Variable DeserializeATOMConfig : json -> result (option ATOMConfig.t).
Variable DeserializeJsonConfig : json -> result (option JsonConfig.t).

Lemma unique_member {A} (members : list (string * A)) key value :
  NoDup (map fst members) ->
  In (key, value) members ->
  lookup_member key members = Some value.
Proof.
  induction members as [|[k v] rest IH]; simpl; [contradiction|].
  intros Hnd Hin. apply NoDup_cons in Hnd as [Hk Hnd]. unfold Str.eqb.
  destruct Hin as [[= -> ->] | Hin].
  - destruct (decide (key = key)); [reflexivity | contradiction].
  - destruct (decide (k = key)) as [->|]; [|apply IH; assumption].
    exfalso. apply Hk. apply list_elem_of_In. apply in_map_iff.
    exists (key, value). split; [reflexivity | exact Hin].
Qed.

Lemma last_member_key members key : forall value,
  last_member key members = Some value -> In key (map fst members).
Proof.
  induction members as [|[k v] rest IH]; intros value; simpl; [discriminate|].
  destruct (last_member key rest) as [v'|].
  - intros _. right. exact (IH v' eq_refl).
  - unfold Str.eqb. destruct (decide (k = key)) as [->|]; [|discriminate].
    intros _. left. reflexivity.
Qed.

Lemma unique_last_member members key value :
  NoDup (map fst members) ->
  In (key, value) members ->
  last_member key members = Some value.
Proof.
  induction members as [|[k v] rest IH]; simpl; [contradiction|].
  intros Hnd Hin. apply NoDup_cons in Hnd as [Hk Hnd]. unfold Str.eqb.
  destruct Hin as [[= -> ->] | Hin].
  - destruct (last_member key rest) as [v'|] eqn:Hlast.
    + exfalso. apply Hk. apply list_elem_of_In. exact (last_member_key _ _ _ Hlast).
    + destruct (decide (key = key)); [reflexivity | contradiction].
  - rewrite (IH Hnd Hin). reflexivity.
Qed.

(** X28: client and server classify by different tests: the upload
    component calls a document canonical as soon as it has a member
    [mocks], the server only when that member is an array; a document
    whose [mocks] is anything else is shown as "ATOM Config" and
    validated by the server as a legacy document. *)
Theorem dialect_classification_divides members value :
  NoDup (map fst members) ->
  In ("mocks", value) members ->
  isArray value = false ->
  getConfigType NumberToString (JObj members) = Ok "ATOM Config"
  /\ ValidateConfigFromJson_try IsAbsoluteUri DeserializeATOMConfig DeserializeJsonConfig
       (JObj members)
     = (legacyConfig ← DeserializeJsonConfig (JObj members);
        match legacyConfig with
        | Some config => ValidateConfig config
        | None => mret (root_failure "Failed to deserialize legacy config")
        end).
Proof.
  intros Hnd Hin Harray. split.
  - unfold getConfigType, has_member. simpl.
    rewrite (unique_member members "mocks" value Hnd Hin). reflexivity.
  - unfold ValidateConfigFromJson_try, TryGetProperty.
    rewrite (unique_last_member members "mocks" value Hnd Hin).
    cbn [mbind result_bind mret result_ret].
    destruct value; try reflexivity. discriminate Harray.
Qed.

End Dialect.

(** A document whose [mocks] is a string. *)
Lemma dialect_classification_divides_witness :
  Upload.getConfigType (fun _ => "") Upload.mocks_not_array = Ok "ATOM Config".
Proof.
  unfold Upload.mocks_not_array.
  apply (dialect_classification_divides (fun _ => "") (fun _ => true)
           (fun _ => Ok None) (fun _ => Ok None)
           [("name", JStr "n"); ("mocks", JStr "none")] (JStr "none")).
  - apply NoDup_cons. split; [|apply NoDup_cons; split; [|apply NoDup_nil; exact I]].
    + intros H. apply list_elem_of_In in H. simpl in H. intuition discriminate.
    + intros H. apply list_elem_of_In in H. simpl in H. exact H.
  - right. left. reflexivity.
  - reflexivity.
Defined.
